(** * The model-version registry of the production ML tutorial

    A shallow embedding of
    [Pathways/W14D3/Advanced/production_ml_system.py]: the [ModelManager]
    (training, deployment, prediction, prediction log), the [MLMonitor]
    (background health checks) and the [ProductionMLSystem] that wires them
    together.

    Conventions of the embedding.
    - Python floats are IEEE binary64 values: Rocq's primitive [float].
    - A method that can raise returns an [outcome]; the object it mutates is
      threaded explicitly, and the mutations made before a [raise] persist.
    - The [models/] directory is two finite maps keyed by the version string
      (one for [model_<v>.pkl], one for [metadata_<v>.json]); a file that
      exists but cannot be loaded is [Unreadable].
    - The three SQLite tables are a finite map keyed by the primary key
      ([model_versions]) and two append-only lists.  The connection is
      assumed open and the storage available.
    - A method of the manager is one step; the statements of
      [deploy_model] and of the monitor's alert, which share the
      connection, are also given one by one ([execute]), and the loop of
      the monitor thread move by move ([_monitor_loop_step]).
    - Every [datetime.now()] is an explicit argument: the value the system
      clock returned at that call.
    - scikit-learn, numpy, SQLite's [AVG] and [timedelta] arithmetic are the
      fields of the class [Libraries]. *)

From Stdlib Require Import ZArith String Ascii Floats Lia.
From stdpp Require Import gmap strings list fin_maps.

Local Open Scope Z_scope.

(** ** Python outcomes *)

Inductive exn : Type :=
  | ValueError (msg : string)
  | RuntimeError (msg : string)
  | IntegrityError (msg : string)
  | NotFittedError
  | UnpicklingError
  | JSONDecodeError
  | FileNotFoundError
  | IndexError.

Inductive outcome (A : Type) : Type :=
  | Returned (a : A)
  | Raised (e : exn).
Arguments Returned {A} a.
Arguments Raised {A} e.

(** ** Floating-point constants of the source *)

Definition vector : Type := list float.
Definition matrix : Type := list (list float).

(** [0.02], [0.8] and [0.7] are not binary64 values; these are the doubles
    Python reads for those literals. *)
Definition improvement_threshold : float := 0x1.47ae147ae147bp-6%float.
Definition default_confidence : float := 0x1.999999999999ap-1%float.
Definition default_performance_threshold : float := 0x1.6666666666666p-1%float.
(** The source assigns the integer [50000]; as a number it is this float. *)
Definition minimum_reasonable_price : float := 50000%float.
Definition one_half : float := 0.5%float.
Definition fzero : float := 0%float.

(** ** [datetime], [isoformat] and [strftime] *)

Record datetime : Type := {
  year : Z; month : Z; day : Z;
  hour : Z; minute : Z; second : Z; microsecond : Z
}.

(** The ranges of the fields of a Python [datetime] ([MINYEAR] is 1 and
    [MAXYEAR] is 9999). *)
Definition valid_datetime (d : datetime) : Prop :=
  1 <= year d <= 9999 /\ 1 <= month d <= 12 /\ 1 <= day d <= 31 /\
  0 <= hour d <= 23 /\ 0 <= minute d <= 59 /\ 0 <= second d <= 59 /\
  0 <= microsecond d <= 999999.

Definition digit (n : Z) : ascii := ascii_of_N (Z.to_N (48 + n)).

(** [pad w n]: the decimal digits of [n], zero-padded to width [w]
    (the [%0wd] conversions behind [isoformat] and [strftime]). *)
Fixpoint pad (w : nat) (n : Z) : string :=
  match w with
  | O => EmptyString
  | S w' =>
      String (digit (n / 10 ^ Z.of_nat w')) (pad w' (n mod 10 ^ Z.of_nat w'))
  end.

(** [datetime.isoformat()]: [YYYY-MM-DDTHH:MM:SS], followed by [.ffffff]
    only when the microsecond field is not zero. *)
Definition isoformat (d : datetime) : string :=
  (pad 4 (year d) +:+ "-" +:+ pad 2 (month d) +:+ "-" +:+ pad 2 (day d) +:+
   "T" +:+ pad 2 (hour d) +:+ ":" +:+ pad 2 (minute d) +:+ ":" +:+
   pad 2 (second d) +:+
   (if Z.eqb (microsecond d) 0 then "" else "." +:+ pad 6 (microsecond d)))%string.

(** [datetime.strftime("%Y%m%d_%H%M%S")]. *)
Definition strftime_version (d : datetime) : string :=
  (pad 4 (year d) +:+ pad 2 (month d) +:+ pad 2 (day d) +:+ "_" +:+
   pad 2 (hour d) +:+ pad 2 (minute d) +:+ pad 2 (second d))%string.

(** Python compares two naive datetimes field by field. *)
Definition datetime_key (d : datetime) : list Z :=
  [year d; month d; day d; hour d; minute d; second d; microsecond d].

Fixpoint lex_compare (a b : list Z) : comparison :=
  match a, b with
  | [], [] => Eq
  | [], _ :: _ => Lt
  | _ :: _, [] => Gt
  | x :: a', y :: b' =>
      match x ?= y with
      | Eq => lex_compare a' b'
      | c => c
      end
  end.

Definition datetime_compare (a b : datetime) : comparison :=
  lex_compare (datetime_key a) (datetime_key b).

(** [a < b] on datetimes: [b] is strictly later than [a]. *)
Definition datetime_ltb (a b : datetime) : bool :=
  match datetime_compare a b with Lt => true | _ => false end.

(** SQLite compares two TEXT values bytewise (BINARY collation). *)
Definition sql_text_gt (a b : string) : bool :=
  match String.compare a b with Gt => true | _ => false end.

(** ** Models, files and tables *)

Record Model : Type := {
  (** [model.predict(X)]; [None] when scikit-learn rejects the shape of [X]. *)
  model_predict : matrix -> option vector;
  (** [None] when the object has no attribute [feature_importances_]. *)
  feature_importances_ : option vector
}.

Inductive Status : Type := trained | active | inactive.

#[global] Instance Status_eq_dec : EqDecision Status.
Proof. solve_decision. Defined.

(** The dictionary written to [metadata_<version>.json]. *)
Record Metadata : Type := {
  md_version : string;
  md_created_at : string;
  md_r2_score : float;
  md_rmse : float;
  md_training_samples : Z;
  md_model_path : string;
  md_status : Status
}.

(** The content of a file that exists. *)
Inductive file (A : Type) : Type :=
  | Loadable (a : A)
  | Unreadable.
Arguments Loadable {A} a.
Arguments Unreadable {A}.

(** A row of [model_versions]; the primary key [version] is the map key. *)
Record VersionRow : Type := {
  created_at : string;
  r2_score : float;
  rmse : float;
  training_samples : Z;
  status : Status
}.

Definition set_status (s : Status) (r : VersionRow) : VersionRow :=
  {| created_at := created_at r; r2_score := r2_score r; rmse := rmse r;
     training_samples := training_samples r; status := s |}.

(** A row of [predictions]. *)
Record PredictionRow : Type := {
  p_timestamp : string;
  p_model_version : option string;
  p_input_features : matrix;
  p_prediction : float;
  p_confidence : float
}.

(** A row of [model_performance]. *)
Record PerformanceRow : Type := {
  a_timestamp : string;
  a_model_version : option string;
  a_metric_name : string;
  a_metric_value : float
}.

Record ModelManager : Type := {
  models_dir : string;
  models_dir_pkl : gmap string (file Model);
  models_dir_json : gmap string (file Metadata);
  current_model : option Model;
  current_version : option string;
  (** [None] is the empty dictionary [{}]. *)
  model_metadata : option Metadata;
  model_versions : gmap string VersionRow;
  predictions : list PredictionRow;
  model_performance : list PerformanceRow
}.

Definition with_pkl (f : gmap string (file Model)) (mm : ModelManager) :=
  {| models_dir := models_dir mm; models_dir_pkl := f;
     models_dir_json := models_dir_json mm; current_model := current_model mm;
     current_version := current_version mm; model_metadata := model_metadata mm;
     model_versions := model_versions mm; predictions := predictions mm;
     model_performance := model_performance mm |}.

Definition with_json (f : gmap string (file Metadata)) (mm : ModelManager) :=
  {| models_dir := models_dir mm; models_dir_pkl := models_dir_pkl mm;
     models_dir_json := f; current_model := current_model mm;
     current_version := current_version mm; model_metadata := model_metadata mm;
     model_versions := model_versions mm; predictions := predictions mm;
     model_performance := model_performance mm |}.

Definition with_current_model (m : option Model) (mm : ModelManager) :=
  {| models_dir := models_dir mm; models_dir_pkl := models_dir_pkl mm;
     models_dir_json := models_dir_json mm; current_model := m;
     current_version := current_version mm; model_metadata := model_metadata mm;
     model_versions := model_versions mm; predictions := predictions mm;
     model_performance := model_performance mm |}.

Definition with_current_version (v : option string) (mm : ModelManager) :=
  {| models_dir := models_dir mm; models_dir_pkl := models_dir_pkl mm;
     models_dir_json := models_dir_json mm; current_model := current_model mm;
     current_version := v; model_metadata := model_metadata mm;
     model_versions := model_versions mm; predictions := predictions mm;
     model_performance := model_performance mm |}.

Definition with_model_metadata (md : option Metadata) (mm : ModelManager) :=
  {| models_dir := models_dir mm; models_dir_pkl := models_dir_pkl mm;
     models_dir_json := models_dir_json mm; current_model := current_model mm;
     current_version := current_version mm; model_metadata := md;
     model_versions := model_versions mm; predictions := predictions mm;
     model_performance := model_performance mm |}.

Definition with_model_versions (t : gmap string VersionRow) (mm : ModelManager) :=
  {| models_dir := models_dir mm; models_dir_pkl := models_dir_pkl mm;
     models_dir_json := models_dir_json mm; current_model := current_model mm;
     current_version := current_version mm; model_metadata := model_metadata mm;
     model_versions := t; predictions := predictions mm;
     model_performance := model_performance mm |}.

Definition with_predictions (t : list PredictionRow) (mm : ModelManager) :=
  {| models_dir := models_dir mm; models_dir_pkl := models_dir_pkl mm;
     models_dir_json := models_dir_json mm; current_model := current_model mm;
     current_version := current_version mm; model_metadata := model_metadata mm;
     model_versions := model_versions mm; predictions := t;
     model_performance := model_performance mm |}.

Definition with_model_performance (t : list PerformanceRow) (mm : ModelManager) :=
  {| models_dir := models_dir mm; models_dir_pkl := models_dir_pkl mm;
     models_dir_json := models_dir_json mm; current_model := current_model mm;
     current_version := current_version mm; model_metadata := model_metadata mm;
     model_versions := model_versions mm; predictions := predictions mm;
     model_performance := t |}.

(** [ModelManager.__init__] over an empty [models/] directory and an empty
    database. *)
Definition ModelManager_init : ModelManager :=
  {| models_dir := "models"; models_dir_pkl := ∅; models_dir_json := ∅;
     current_model := None; current_version := None; model_metadata := None;
     model_versions := ∅; predictions := []; model_performance := [] |}.

(** ** The libraries the program calls *)

Class Libraries : Type := {
  (** A fitted [StandardScaler]. *)
  Scaler : Type;
  (** [RandomForestRegressor(...).fit(X, y)]; [None] when it raises. *)
  RandomForestRegressor_fit : matrix -> vector -> option Model;
  (** [r2_score(y_true, y_pred)] and [mean_squared_error(y_true, y_pred)];
      [None] when they raise (labels that do not line up with the
      predictions, or that are not finite). *)
  sk_r2_score : vector -> vector -> option float;
  mean_squared_error : vector -> vector -> option float;
  np_mean : vector -> float;
  StandardScaler_fit : matrix -> Scaler;
  StandardScaler_transform : Scaler -> matrix -> matrix;
  (** SQLite's aggregate [AVG] over the REAL values of a group. *)
  sql_avg : list float -> float;
  (** [d - timedelta(days=n)]. *)
  minus_days : datetime -> Z -> datetime
}.

(** The dictionary [predict] returns; [predict_house_price] adds [input]. *)
Record Prediction : Type := {
  prediction : float;
  confidence : float;
  model_version : option string;
  timestamp : string;
  input : option (float * float * float)
}.

(** An entry of [performance['models']]. *)
Record ModelPerformance : Type := {
  version : option string;
  prediction_count : Z;
  avg_confidence : float
}.

Record Performance : Type := {
  period_days : Z;
  models : list ModelPerformance;
  total_predictions : Z
}.

Section ModelManager.
Context `{Libraries}.

(** [ModelManager.train_new_model]; [now_version] and [now_created] are
    the two readings of the clock (lines 88 and 111). *)
Definition train_new_model (now_version now_created : datetime)
    (X_train : matrix) (y_train : vector) (X_test : matrix) (y_test : vector)
    (mm : ModelManager) : outcome string * ModelManager :=
  let version := strftime_version now_version in
  match RandomForestRegressor_fit X_train y_train with
  | None => (Raised (ValueError "fit"), mm)
  | Some model =>
      match model_predict model X_test with
      | None => (Raised (ValueError "predict"), mm)
      | Some y_pred =>
          match sk_r2_score y_test y_pred with
          | None => (Raised (ValueError "r2_score"), mm)
          | Some r2 =>
              match mean_squared_error y_test y_pred with
              | None => (Raised (ValueError "mean_squared_error"), mm)
              | Some mse =>
                  let rmse := PrimFloat.sqrt mse in
                  let model_path :=
                    (models_dir mm +:+ "/model_" +:+ version
                       +:+ ".pkl")%string in
                  let mm1 :=
                    with_pkl
                      (<[version := Loadable model]> (models_dir_pkl mm)) mm in
                  let metadata :=
                    {| md_version := version;
                       md_created_at := isoformat now_created;
                       md_r2_score := r2;
                       md_rmse := rmse;
                       md_training_samples := Z.of_nat (length X_train);
                       md_model_path := model_path;
                       md_status := trained |} in
                  let mm2 :=
                    with_json
                      (<[version := Loadable metadata]> (models_dir_json mm1))
                      mm1 in
                  match model_versions mm2 !! version with
                  | Some _ =>
                      (Raised
                         (IntegrityError
                            "UNIQUE constraint failed: model_versions.version"),
                       mm2)
                  | None =>
                      let row :=
                        {| created_at := md_created_at metadata;
                           r2_score := r2; rmse := rmse;
                           training_samples := Z.of_nat (length X_train);
                           status := trained |} in
                      (Returned version,
                       with_model_versions
                         (<[version := row]> (model_versions mm2)) mm2)
                  end
              end
          end
      end
  end.

(** The first [UPDATE] of [deploy_model] (lines 152-154):
    [SET status = 'active' WHERE version = ?]. *)
Definition update_set_active (version : string)
    (t : gmap string VersionRow) : gmap string VersionRow :=
  alter (set_status active) version t.

(** The second [UPDATE] (lines 155-157):
    [SET status = 'inactive' WHERE version != ?]. *)
Definition update_set_others_inactive (version : string)
    (t : gmap string VersionRow) : gmap string VersionRow :=
  map_imap
    (fun k row =>
       Some (if decide (k = version) then row else set_status inactive row))
    t.

(** The two [UPDATE] statements of [deploy_model], one after the other, as
    a call that is not interrupted leaves the table. *)
Definition update_status_on_deploy (version : string)
    (t : gmap string VersionRow) : gmap string VersionRow :=
  let t1 := update_set_active version t in
  update_set_others_inactive version t1.

(** The body of the [try] block of [deploy_model]. *)
Definition deploy_model_try (version : string) (mm : ModelManager)
    : outcome bool * ModelManager :=
  match models_dir_pkl mm !! version, models_dir_json mm !! version with
  | Some pkl, Some json =>
      match pkl with
      | Unreadable => (Raised UnpicklingError, mm)
      | Loadable model =>
          let mm1 := with_current_model (Some model) mm in
          match json with
          | Unreadable => (Raised JSONDecodeError, mm1)
          | Loadable md =>
              let mm2 := with_model_metadata (Some md) mm1 in
              let mm3 := with_current_version (Some version) mm2 in
              (Returned true,
               with_model_versions
                 (update_status_on_deploy version (model_versions mm3)) mm3)
          end
      end
  | _, _ => (Returned false, mm)
  end.

(** [ModelManager.deploy_model]: [except Exception] turns every raise of
    the body into [return False]. *)
Definition deploy_model (version : string) (mm : ModelManager)
    : outcome bool * ModelManager :=
  match deploy_model_try version mm with
  | (Raised _, mm') => (Returned false, mm')
  | r => r
  end.

(** [ModelManager.predict]; [now] is the clock reading of line 184. *)
Definition predict (now : datetime) (features : matrix)
    (log_prediction : bool) (mm : ModelManager)
    : outcome Prediction * ModelManager :=
  match current_model mm with
  | None => (Raised (ValueError "No model deployed"), mm)
  | Some model =>
      match model_predict model features with
      | None => (Raised (ValueError "predict"), mm)
      | Some [] => (Raised IndexError, mm)
      | Some (raw :: _) =>
          let conf :=
            match feature_importances_ model with
            | Some importances => np_mean importances
            | None => default_confidence
            end in
          let result :=
            {| prediction := raw;
               confidence := conf;
               model_version := current_version mm;
               timestamp := isoformat now;
               input := None |} in
          let row :=
            {| p_timestamp := timestamp result;
               p_model_version := current_version mm;
               p_input_features := features;
               p_prediction := raw;
               p_confidence := conf |} in
          (Returned result,
           if log_prediction
           then with_predictions (predictions mm ++ [row]) mm
           else mm)
      end
  end.

(** The rows the [WHERE timestamp > ?] clause keeps. *)
Definition rows_after (cutoff_date : string) (t : list PredictionRow)
    : list PredictionRow :=
  List.filter (fun r => sql_text_gt (p_timestamp r) cutoff_date) t.

(** [GROUP BY model_version] with [COUNT( * )] and [AVG(confidence)]: one
    entry per version that has a row; SQL leaves the order of the groups
    open, here it is the order of first occurrence. *)
Definition group_by_version (t : list PredictionRow)
    : list ModelPerformance :=
  map
    (fun v =>
       let g := List.filter (fun r => bool_decide (p_model_version r = v)) t in
       {| version := v;
          prediction_count := Z.of_nat (length g);
          avg_confidence := sql_avg (map p_confidence g) |})
    (remove_dups (map p_model_version t)).

(** [ModelManager.get_model_performance]; [now] is the clock reading of
    line 206. *)
Definition get_model_performance (now : datetime) (days : Z)
    (mm : ModelManager) : Performance :=
  let cutoff_date := isoformat (minus_days now days) in
  let results := group_by_version (rows_after cutoff_date (predictions mm)) in
  {| period_days := days;
     models := results;
     total_predictions :=
       fold_left (fun acc m => acc + prediction_count m) results 0 |}.

End ModelManager.

(** ** The monitor *)

(** Where a thread running [_monitor_loop] stands. *)
Inductive loop_pc : Type :=
  | AtWhile      (* about to test [while self.monitoring] *)
  | Checking     (* past the test, about to call [_check_model_health] *)
  | Sleeping     (* inside [time.sleep] *)
  | Finished.    (* the loop was left, the thread ended *)

Record MLMonitor : Type := {
  check_interval : Z;
  monitoring : bool;
  performance_threshold : float;
  (** The threads [start_monitoring] has started, oldest first. *)
  monitor_threads : list loop_pc
}.

(** [MLMonitor.__init__] with the default interval. *)
Definition MLMonitor_init : MLMonitor :=
  {| check_interval := 3600; monitoring := false;
     performance_threshold := default_performance_threshold;
     monitor_threads := [] |}.

(** [MLMonitor.start_monitoring]: sets the flag and starts a thread. *)
Definition start_monitoring (mon : MLMonitor) : MLMonitor :=
  {| check_interval := check_interval mon; monitoring := true;
     performance_threshold := performance_threshold mon;
     monitor_threads := monitor_threads mon ++ [AtWhile] |}.

(** [MLMonitor.stop_monitoring]. *)
Definition stop_monitoring (mon : MLMonitor) : MLMonitor :=
  {| check_interval := check_interval mon; monitoring := false;
     performance_threshold := performance_threshold mon;
     monitor_threads := monitor_threads mon |}.

Definition loop_running (pc : loop_pc) : bool :=
  match pc with
  | Finished => false
  | _ => true
  end.

(** The threads that have not left their loop: the periodic checkers. *)
Definition running_checkers (mon : MLMonitor) : nat :=
  length (List.filter loop_running (monitor_threads mon)).

Definition with_threads (ts : list loop_pc) (mon : MLMonitor) : MLMonitor :=
  {| check_interval := check_interval mon; monitoring := monitoring mon;
     performance_threshold := performance_threshold mon;
     monitor_threads := ts |}.

Section System.
Context `{Libraries}.

(** [MLMonitor._log_performance_alert]. *)
Definition _log_performance_alert (now : datetime) (conf : float)
    (mm : ModelManager) : ModelManager :=
  with_model_performance
    (model_performance mm ++
       [{| a_timestamp := isoformat now;
           a_model_version := current_version mm;
           a_metric_name := "confidence_alert";
           a_metric_value := conf |}])
    mm.

(** [MLMonitor._check_model_health]. *)
Definition _check_model_health (now_query now_alert : datetime)
    (mon : MLMonitor) (mm : ModelManager) : ModelManager :=
  let performance := get_model_performance now_query 1 mm in
  if 50 <? total_predictions performance
  then
    let avg := np_mean (map avg_confidence (models performance)) in
    if PrimFloat.ltb avg (performance_threshold mon)
    then _log_performance_alert now_alert avg mm
    else mm
  else mm.

(** One move of the thread [i] of [_monitor_loop]: the loop test of line
    259, the check of line 261, or the end of a sleep.  The test and the
    check are two moves: the flag can be cleared between them.  The check
    cannot raise here (the storage is assumed available), so the [except]
    branch and its one-minute sleep do not appear. *)
Definition _monitor_loop_step (now_query now_alert : datetime) (i : nat)
    (mon : MLMonitor) (mm : ModelManager) : MLMonitor * ModelManager :=
  match monitor_threads mon !! i with
  | Some AtWhile =>
      if monitoring mon
      then (with_threads (<[i := Checking]> (monitor_threads mon)) mon, mm)
      else (with_threads (<[i := Finished]> (monitor_threads mon)) mon, mm)
  | Some Checking =>
      (with_threads (<[i := Sleeping]> (monitor_threads mon)) mon,
       _check_model_health now_query now_alert mon mm)
  | Some Sleeping =>
      (with_threads (<[i := AtWhile]> (monitor_threads mon)) mon, mm)
  | _ => (mon, mm)
  end.

(** The moves of the loop threads in the order a schedule gives: each entry
    holds the two clock readings of the move and the thread that makes it. *)
Definition _monitor_loop_run (schedule : list (datetime * datetime * nat))
    (mon : MLMonitor) (mm : ModelManager) : MLMonitor * ModelManager :=
  fold_left
    (fun st move =>
       let '(now_query, now_alert, i) := move in
       _monitor_loop_step now_query now_alert i (fst st) (snd st))
    schedule (mon, mm).

Record ProductionMLSystem : Type := {
  model_manager : ModelManager;
  monitor : MLMonitor;
  (** [None] until [scaler.fit] has run. *)
  scaler : option Scaler;
  is_initialized : bool
}.

(** [ProductionMLSystem.__init__]. *)
Definition ProductionMLSystem_init : ProductionMLSystem :=
  {| model_manager := ModelManager_init; monitor := MLMonitor_init;
     scaler := None; is_initialized := false |}.

Definition with_model_manager (mm : ModelManager) (s : ProductionMLSystem) :=
  {| model_manager := mm; monitor := monitor s; scaler := scaler s;
     is_initialized := is_initialized s |}.

(** What [_get_training_data] returns:
    [(X_train, X_test, y_train, y_test)]. *)
Definition training_data : Type := (matrix * matrix * vector * vector)%type.

(** [ProductionMLSystem.initialize_system]. *)
Definition initialize_system (data : training_data)
    (now_version now_created : datetime) (s : ProductionMLSystem)
    : outcome unit * ProductionMLSystem :=
  let '(X_train, X_test, y_train, y_test) := data in
  let sc := StandardScaler_fit X_train in
  let X_train_scaled := StandardScaler_transform sc X_train in
  let X_test_scaled := StandardScaler_transform sc X_test in
  match train_new_model now_version now_created
          X_train_scaled y_train X_test_scaled y_test (model_manager s) with
  | (Raised e, mm) =>
      (Raised e,
       {| model_manager := mm; monitor := monitor s; scaler := Some sc;
          is_initialized := is_initialized s |})
  | (Returned v, mm) =>
      let mm' := snd (deploy_model v mm) in
      (Returned tt,
       {| model_manager := mm'; monitor := start_monitoring (monitor s);
          scaler := Some sc; is_initialized := true |})
  end.

(** The business rule of lines 382-384. *)
Definition clamp (result : Prediction) : Prediction :=
  if PrimFloat.ltb (prediction result) fzero
  then {| prediction := minimum_reasonable_price;
          confidence := PrimFloat.mul (confidence result) one_half;
          model_version := model_version result;
          timestamp := timestamp result;
          input := input result |}
  else result.

Definition with_input (i : float * float * float) (result : Prediction) :=
  {| prediction := prediction result; confidence := confidence result;
     model_version := model_version result; timestamp := timestamp result;
     input := Some i |}.

(** [ProductionMLSystem.predict_house_price]. *)
Definition predict_house_price (size bedrooms age : float) (now : datetime)
    (s : ProductionMLSystem) : outcome Prediction * ProductionMLSystem :=
  if negb (is_initialized s)
  then (Raised (RuntimeError
                  "System not initialized. Call initialize_system() first."),
        s)
  else
    let features := [[size; bedrooms; age]] in
    match scaler s with
    | None => (Raised NotFittedError, s)
    | Some sc =>
        let features_scaled := StandardScaler_transform sc features in
        match predict now features_scaled true (model_manager s) with
        | (Raised e, mm) => (Raised e, with_model_manager mm s)
        | (Returned result, mm) =>
            (Returned (with_input (size, bedrooms, age) (clamp result)),
             with_model_manager mm s)
        end
    end.

(** [ProductionMLSystem._should_deploy_new_model]: [new_r2 > current_r2 +
    improvement_threshold]. *)
Definition _should_deploy_new_model (new_version : string)
    (mm : ModelManager) : outcome bool :=
  match current_version mm with
  | None | Some EmptyString => Returned true
  | Some _ =>
      match models_dir_json mm !! new_version with
      | None => Raised FileNotFoundError
      | Some Unreadable => Raised JSONDecodeError
      | Some (Loadable new_metadata) =>
          let current_r2 :=
            match model_metadata mm with
            | Some md => md_r2_score md
            | None => fzero
            end in
          let new_r2 := md_r2_score new_metadata in
          Returned
            (PrimFloat.ltb (PrimFloat.add current_r2 improvement_threshold)
               new_r2)
      end
  end.

(** [ProductionMLSystem.retrain_model]. *)
Definition retrain_model (data : training_data)
    (now_version now_created : datetime) (s : ProductionMLSystem)
    : outcome string * ProductionMLSystem :=
  let '(X_train, X_test, y_train, y_test) := data in
  match scaler s with
  | None => (Raised NotFittedError, s)
  | Some sc =>
      let X_train_scaled := StandardScaler_transform sc X_train in
      let X_test_scaled := StandardScaler_transform sc X_test in
      match train_new_model now_version now_created
              X_train_scaled y_train X_test_scaled y_test
              (model_manager s) with
      | (Raised e, mm) => (Raised e, with_model_manager mm s)
      | (Returned new_version, mm) =>
          match _should_deploy_new_model new_version mm with
          | Raised e => (Raised e, with_model_manager mm s)
          | Returned true =>
              (Returned new_version,
               with_model_manager (snd (deploy_model new_version mm)) s)
          | Returned false =>
              (Returned new_version, with_model_manager mm s)
          end
      end
  end.

(** [ProductionMLSystem.shutdown]: the flag of the monitor is cleared.
    Its second statement, [conn.close()], ends the use of the connection;
    the state holds no connection (every method assumes it open), so what
    a method does after [shutdown] -- it raises -- is outside the model. *)
Definition shutdown (s : ProductionMLSystem) : ProductionMLSystem :=
  {| model_manager := model_manager s;
     monitor := stop_monitoring (monitor s);
     scaler := scaler s; is_initialized := is_initialized s |}.

(** ** Histories of a model manager

    What can happen to the state a [ModelManager] works on: its methods,
    the monitor's alert, a file of [models/] that becomes unreadable, and
    a new process that opens the same directory and database. *)
Inductive event : Type :=
  | Train (now_version now_created : datetime)
      (X_train : matrix) (y_train : vector) (X_test : matrix) (y_test : vector)
  | Deploy (version : string)
  | Predict (now : datetime) (features : matrix) (log_prediction : bool)
  | Alert (now : datetime) (conf : float)
  | DamagePkl (version : string)
  | DamageJson (version : string)
  | Restart.

Definition step (e : event) (mm : ModelManager) : ModelManager :=
  match e with
  | Train t1 t2 X_train y_train X_test y_test =>
      snd (train_new_model t1 t2 X_train y_train X_test y_test mm)
  | Deploy v => snd (deploy_model v mm)
  | Predict t X l => snd (predict t X l mm)
  | Alert t c => _log_performance_alert t c mm
  | DamagePkl v =>
      with_pkl (alter (fun _ => Unreadable) v (models_dir_pkl mm)) mm
  | DamageJson v =>
      with_json (alter (fun _ => Unreadable) v (models_dir_json mm)) mm
  | Restart =>
      with_model_metadata None
        (with_current_version None (with_current_model None mm))
  end.

Definition run (es : list event) (mm : ModelManager) : ModelManager :=
  fold_left (fun st e => step e st) es mm.

(** The states a manager can be in, starting from an empty directory and
    database. *)
Definition reachable (mm : ModelManager) : Prop :=
  exists es, mm = run es ModelManager_init.

End System.

(** ** The connection, statement by statement

    The manager and the thread of the monitor share the connection
    [self.conn] ([check_same_thread=False]).  A statement changes what the
    connection sees; [commit] makes that the content of the database file,
    which is what any other connection sees. *)

(** The three tables of [ml_system.db]. *)
Record database : Type := {
  db_model_versions : gmap string VersionRow;
  db_predictions : list PredictionRow;
  db_model_performance : list PerformanceRow
}.

Record connection : Type := {
  (** What the statements of the connection see. *)
  in_transaction : database;
  (** What is committed. *)
  committed : database
}.

(** The statements of [deploy_model] and of [_log_performance_alert]. *)
Inductive statement : Type :=
  | UpdateSetActive (version : string)           (* lines 152-154 *)
  | UpdateSetOthersInactive (version : string)   (* lines 155-157 *)
  | InsertAlert (row : PerformanceRow)           (* lines 284-292 *)
  | Commit.                                      (* lines 158 and 293 *)

Definition with_db_model_versions (t : gmap string VersionRow)
    (d : database) : database :=
  {| db_model_versions := t; db_predictions := db_predictions d;
     db_model_performance := db_model_performance d |}.

Definition execute (st : statement) (c : connection) : connection :=
  let d := in_transaction c in
  match st with
  | UpdateSetActive v =>
      {| in_transaction :=
           with_db_model_versions
             (update_set_active v (db_model_versions d)) d;
         committed := committed c |}
  | UpdateSetOthersInactive v =>
      {| in_transaction :=
           with_db_model_versions
             (update_set_others_inactive v (db_model_versions d)) d;
         committed := committed c |}
  | InsertAlert row =>
      {| in_transaction :=
           {| db_model_versions := db_model_versions d;
              db_predictions := db_predictions d;
              db_model_performance := db_model_performance d ++ [row] |};
         committed := committed c |}
  | Commit => {| in_transaction := d; committed := d |}
  end.

Definition execute_all (sts : list statement) (c : connection) : connection :=
  fold_left (fun c' st => execute st c') sts c.

(** The connection of a manager between two calls: every method commits
    what it has written before it returns. *)
Definition connection_of (mm : ModelManager) : connection :=
  let d := {| db_model_versions := model_versions mm;
              db_predictions := predictions mm;
              db_model_performance := model_performance mm |} in
  {| in_transaction := d; committed := d |}.

(** The statements of a [deploy_model] whose files have loaded. *)
Definition deploy_statements (version : string) : list statement :=
  [UpdateSetActive version; UpdateSetOthersInactive version; Commit].

(** The statements of one [_log_performance_alert]. *)
Definition alert_statements (row : PerformanceRow) : list statement :=
  [InsertAlert row; Commit].

(** The statements of the monitor thread for the alerts it records. *)
Definition monitor_statements (alerts : list PerformanceRow)
    : list statement :=
  flat_map alert_statements alerts.

(** The statements of two threads, each in its order, as they reach the
    connection. *)
Inductive interleaving {A : Type} : list A -> list A -> list A -> Prop :=
  | interleaving_nil : interleaving [] [] []
  | interleaving_left x l r m :
      interleaving l r m -> interleaving (x :: l) r (x :: m)
  | interleaving_right y l r m :
      interleaving l r m -> interleaving l (y :: r) (y :: m).

(** The version [v] has status [active] in a table. *)
Definition active_in (t : gmap string VersionRow) (v : string) : Prop :=
  exists r, t !! v = Some r /\ status r = active.

(** The statement is one of a deploy of [v], or one of the monitor. *)
Definition during_deploy (v : string) (st : statement) : Prop :=
  match st with
  | UpdateSetActive w | UpdateSetOthersInactive w => w = v
  | InsertAlert _ | Commit => True
  end.

(** The statement is one of the monitor. *)
Definition of_monitor (st : statement) : Prop :=
  match st with
  | InsertAlert _ | Commit => True
  | _ => False
  end.

(** Only [v] and what was active in [t0] is active in the two tables of
    the connection. *)
Definition active_within (v : string) (t0 : gmap string VersionRow)
    (c : connection) : Prop :=
  forall k,
    active_in (db_model_versions (committed c)) k \/
    active_in (db_model_versions (in_transaction c)) k ->
    k = v \/ active_in t0 k.

(** ** Vocabulary of the properties *)

(** The version [v] has status [active] in the store. *)
Definition is_active (mm : ModelManager) (v : string) : Prop :=
  exists r, model_versions mm !! v = Some r /\ status r = active.

Definition at_most_one_active (mm : ModelManager) : Prop :=
  forall v1 v2, is_active mm v1 -> is_active mm v2 -> v1 = v2.

(** Every metadata file of [models/] belongs to a recorded version. *)
Definition files_recorded (mm : ModelManager) : Prop :=
  forall v, is_Some (models_dir_json mm !! v) ->
            is_Some (model_versions mm !! v).

Definition status_of (mm : ModelManager) (v : string) : option Status :=
  status <$> model_versions mm !! v.

(** The R² the deploy policy reads for the deployed version
    ([model_metadata.get('r2_score', 0)]). *)
Definition current_r2 (mm : ModelManager) : float :=
  match model_metadata mm with
  | Some md => md_r2_score md
  | None => fzero
  end.

(** The row [predict] appends for a result. *)
Definition logged_row (features : matrix) (result : Prediction)
    : PredictionRow :=
  {| p_timestamp := timestamp result;
     p_model_version := model_version result;
     p_input_features := features;
     p_prediction := prediction result;
     p_confidence := confidence result |}.

(** *** The performance query as the specification words it

    A PredictionRecord carries the instant it was made; the store keeps
    [isoformat] of that instant. *)
Record PredictionRecord : Type := {
  made_at : datetime;
  made_by : option string;
  made_from : matrix;
  predicted_value : float;
  confidence_score : float
}.

Definition stored (r : PredictionRecord) : PredictionRow :=
  {| p_timestamp := isoformat (made_at r);
     p_model_version := made_by r;
     p_input_features := made_from r;
     p_prediction := predicted_value r;
     p_confidence := confidence_score r |}.

(** The record is strictly later than [cutoff]. *)
Definition in_window (cutoff : datetime) (r : PredictionRecord) : bool :=
  datetime_ltb cutoff (made_at r).

(** The in-window records of one version. *)
Definition window_of_version (cutoff : datetime) (v : option string)
    (log : list PredictionRecord) : list PredictionRecord :=
  List.filter (fun r => in_window cutoff r && bool_decide (made_by r = v)) log.

(** The invariant of the reachable states of a manager. *)
Definition store_inv (mm : ModelManager) : Prop :=
  at_most_one_active mm /\ files_recorded mm.

(** The four ways [deploy_model] can end: a file is missing, the model file
    does not load, the model loads and the metadata does not, both load. *)
Inductive deploy_result (v : string) (mm : ModelManager)
    : outcome bool * ModelManager -> Prop :=
  | deploy_missing :
      models_dir_pkl mm !! v = None \/ models_dir_json mm !! v = None ->
      deploy_result v mm (Returned false, mm)
  | deploy_unpickle json :
      models_dir_pkl mm !! v = Some Unreadable ->
      models_dir_json mm !! v = Some json ->
      deploy_result v mm (Returned false, mm)
  | deploy_half model :
      models_dir_pkl mm !! v = Some (Loadable model) ->
      models_dir_json mm !! v = Some Unreadable ->
      deploy_result v mm
        (Returned false, with_current_model (Some model) mm)
  | deploy_done model md :
      models_dir_pkl mm !! v = Some (Loadable model) ->
      models_dir_json mm !! v = Some (Loadable md) ->
      deploy_result v mm
        (Returned true,
         with_model_versions (update_status_on_deploy v (model_versions mm))
           (with_current_version (Some v)
              (with_model_metadata (Some md)
                 (with_current_model (Some model) mm)))).

(** The clock reading of a [Predict] event is a datetime. *)
Definition valid_event (e : event) : Prop :=
  match e with
  | Predict t _ _ => valid_datetime t
  | _ => True
  end.

(** The rows of [predictions] are the stored form of records made at valid
    instants. *)
Definition log_inv (mm : ModelManager) : Prop :=
  exists log,
    predictions mm = map stored log /\
    Forall (fun r => valid_datetime (made_at r)) log.

(** The event is a call of [deploy_model]. *)
Definition is_deploy (e : event) : bool :=
  match e with
  | Deploy _ => true
  | _ => false
  end.

(** Two clock readings in the same second. *)
Definition same_second (a b : datetime) : Prop :=
  year a = year b /\ month a = month b /\ day a = day b /\
  hour a = hour b /\ minute a = minute b /\ second a = second b.

(** The sum of [f] over a list of keys. *)
Fixpoint zsum {K : Type} (f : K -> Z) (ks : list K) : Z :=
  match ks with
  | [] => 0
  | v :: ks' => f v + zsum f ks'
  end.

(** ** A concrete instance, for evaluating the definitions *)

(** A model that predicts the constant [c] for every row. *)
Definition constant_model (c : float) (importances : option vector) : Model :=
  {| model_predict := fun X => Some (map (fun _ => c) X);
     feature_importances_ := importances |}.

Definition arithmetic_mean (l : list float) : float :=
  PrimFloat.div (fold_left PrimFloat.add l fzero)
    (PrimFloat.of_uint63 (Uint63.of_Z (Z.of_nat (length l)))).

(** Fitting returns the constant model of the first label, with the given
    feature importances; R² is read off the first test label, so that
    examples can choose it.  The two metrics raise when the test labels do
    not line up with the predictions, or when there is none. *)
Definition demo_libraries_with (importances : vector) : Libraries :=
  {| Scaler := unit;
     RandomForestRegressor_fit := fun X y =>
       match y with
       | [] => None
       | c :: _ => Some (constant_model c (Some importances))
       end;
     sk_r2_score := fun y_test y_pred =>
       if Nat.eqb (length y_test) (length y_pred)
       then head y_test
       else None;
     mean_squared_error := fun y_test y_pred =>
       if Nat.eqb (length y_test) (length y_pred)
       then match y_test with [] => None | _ => Some 4%float end
       else None;
     np_mean := arithmetic_mean;
     StandardScaler_fit := fun _ => tt;
     StandardScaler_transform := fun _ X => X;
     sql_avg := arithmetic_mean;
     minus_days := fun d n =>
       {| year := year d; month := month d; day := day d - n;
          hour := hour d; minute := minute d; second := second d;
          microsecond := microsecond d |} |}.

Definition demo_libraries : Libraries :=
  demo_libraries_with [0.5; 0.25; 0.25]%float.

(** 2025-03-[d] 12:00:[s].[us]. *)
Definition march (d s us : Z) : datetime :=
  {| year := 2025; month := 3; day := d; hour := 12; minute := 0;
     second := s; microsecond := us |}.

(** 2025-03-15 12:00:00 plus [s] seconds and [us] microseconds. *)
Definition noon (s us : Z) : datetime := march 15 s us.

Definition demo_X : matrix := [[2500; 3; 5]%float].

(** A training set whose fitted model predicts [c] and scores R² [r2]. *)
Definition demo_data (c r2 : float) : training_data :=
  (demo_X, demo_X, [c], [r2]).

Definition demo_train (t : datetime) (c r2 : float) : event :=
  Train t t demo_X [c] demo_X [r2].

Definition demo_run : list event -> ModelManager -> ModelManager :=
  run (H := demo_libraries).

Definition demo_system (L : Libraries) (c r2 : float)
    : ProductionMLSystem (H := L) :=
  snd (initialize_system (H := L) (demo_data c r2) (noon 0 0) (noon 0 250)
         (ProductionMLSystem_init (H := L))).

(** The libraries whose fitted models have all importances zero, as a
    forest of single-node trees has. *)
Definition stump_libraries : Libraries :=
  demo_libraries_with [0; 0; 0]%float.

(** The double Python reads for [0.9]. *)
Definition r2_090 : float := 0x1.ccccccccccccdp-1%float.

(** An R² exactly at the boundary of the deploy policy over [r2_090]. *)
Definition boundary_r2 : float := PrimFloat.add r2_090 improvement_threshold.

Definition v0 : string := "20250315_120000".
Definition v1 : string := "20250315_120001".

(** Two versions trained one second apart, none deployed. *)
Definition two_trained : ModelManager :=
  demo_run [demo_train (noon 0 0) 1 r2_090; demo_train (noon 1 0) 2 r2_090]
    ModelManager_init.

(** The first version is deployed, the second is trained and its metadata
    file has become unreadable. *)
Definition second_unreadable : ModelManager :=
  demo_run [demo_train (noon 0 0) 1 r2_090; Deploy v0;
            demo_train (noon 1 0) 2 r2_090; DamageJson v1]
    ModelManager_init.

(** One version is trained and its metadata file has become unreadable;
    no deploy has been attempted. *)
Definition first_unreadable : ModelManager :=
  demo_run [demo_train (noon 0 0) 1 r2_090; DamageJson v0] ModelManager_init.

(** One version is trained and its model file has become unreadable. *)
Definition pkl_unreadable : ModelManager :=
  demo_run [demo_train (noon 0 0) 1 r2_090; DamagePkl v0] ModelManager_init.

(** The model in the file [model_<v>.pkl], when it loads. *)
Definition model_on_disk (mm : ModelManager) (v : string) : option Model :=
  match models_dir_pkl mm !! v with
  | Some (Loadable model) => Some model
  | _ => None
  end.

(** Two training calls 800 milliseconds apart, in the same second. *)
Definition trained_once : outcome string * ModelManager :=
  train_new_model (H := demo_libraries) (noon 0 100000) (noon 0 100500)
    demo_X [1%float] demo_X [r2_090] ModelManager_init.

Definition trained_twice : outcome string * ModelManager :=
  train_new_model (H := demo_libraries) (noon 0 900000) (noon 0 900500)
    demo_X [2%float] demo_X [r2_090] (snd trained_once).

(** The value the model predicts for one empty row is [x]. *)
Definition predicts_on_empty_row (x : float) (m : option Model) : bool :=
  match m with
  | Some model =>
      match model_predict model [[]] with
      | Some (y :: _) => PrimFloat.eqb y x
      | _ => false
      end
  | None => false
  end.

(** A week of service: version [v7] is trained and deployed on March 7 and
    serves three predictions, version [v14] is trained and deployed on
    March 14 and serves one. *)
Definition v7 : string := "20250307_120000".
Definition v14 : string := "20250314_120000".

Definition demo_week : list event :=
  [demo_train (march 7 0 0) 1 r2_090; Deploy v7;
   Predict (march 7 0 5) demo_X true;
   Predict (march 8 0 0) demo_X true;
   Predict (march 8 0 1) demo_X true;
   demo_train (march 14 0 0) 2 r2_090; Deploy v14;
   Predict (march 14 0 7) demo_X true].

Definition demo_logged : ModelManager := demo_run demo_week ModelManager_init.

Definition demo_record (t : datetime) (v : string) (p : float)
    : PredictionRecord :=
  {| made_at := t; made_by := Some v; made_from := demo_X;
     predicted_value := p;
     confidence_score := arithmetic_mean [0.5; 0.25; 0.25]%float |}.

(** The records behind the rows of [demo_logged]: seen from March 15 noon
    with a window of 7 days, the first is older than the window, the second
    is exactly at its start, the last two are inside. *)
Definition demo_log : list PredictionRecord :=
  [demo_record (march 7 0 5) v7 1; demo_record (march 8 0 0) v7 1;
   demo_record (march 8 0 1) v7 1; demo_record (march 14 0 7) v14 2]%float.

(** ** The status report, the stopped loop and [main] *)

(** Two rows of [model_versions] agree on every column but [status]. *)
Definition same_metrics (r r' : VersionRow) : Prop :=
  created_at r' = created_at r /\ r2_score r' = r2_score r /\
  rmse r' = rmse r /\ training_samples r' = training_samples r.

(** What the in-memory fields of a manager say agrees with the directory
    and the store: a loadable metadata file carries the version it is named
    after, and the current version is active in the store and is the
    version of the metadata in memory. *)
Definition memory_inv (mm : ModelManager) : Prop :=
  (forall v md, models_dir_json mm !! v = Some (Loadable md) ->
                md_version md = v) /\
  (forall v, current_version mm = Some v ->
             is_active mm v /\
             exists md, model_metadata mm = Some md /\ md_version md = v).

(** How a thread of [_monitor_loop] moves once the flag is cleared: a
    thread that is past the loop test runs its check and goes to sleep, a
    sleeping thread wakes up at the loop test, a thread at the loop test
    leaves the loop. *)
Definition loop_next_stopped (pc : loop_pc) : loop_pc :=
  match pc with
  | Checking => Sleeping
  | Sleeping => AtWhile
  | _ => Finished
  end.

Definition is_checking (pc : loop_pc) : bool :=
  match pc with
  | Checking => true
  | _ => false
  end.

(** The threads that are past the loop test and have not run their check
    yet. *)
Definition pending_checks (mon : MLMonitor) : nat :=
  length (List.filter is_checking (monitor_threads mon)).

(** The number of moves a schedule gives to the thread [i]. *)
Definition moves_of (i : nat) (schedule : list (datetime * datetime * nat))
    : nat :=
  length (List.filter (fun move => Nat.eqb (snd move) i) schedule).

(** What [strftime("%Y%m%d_%H%M%S")] keeps of a clock reading. *)
Definition second_key (d : datetime) : list Z :=
  [year d; month d; day d; hour d; minute d; second d].

(** The dictionary [get_system_status] returns. *)
Record SystemStatus : Type := {
  initialized : bool;
  current_model_version : option string;
  (** [None] for the empty dictionary. *)
  reported_metadata : option Metadata;
  monitoring_active : bool;
  recent_performance : Performance;
  system_uptime : string
}.

(** How [main] ends: it returns, an exception of the system escapes, or
    line 492 finds no ['r2_score'] in an empty metadata dictionary. *)
Inductive main_result : Type :=
  | MainReturned
  | MainRaised (e : exn)
  | MainKeyError.

(** The four houses of [main]: size, bedrooms, age. *)
Definition test_houses : list (float * float * float) :=
  [(2500, 3, 5); (1200, 2, 25); (3000, 4, 2); (1800, 3, 15)]%float.

(** [ModelManager.__init__] over the directory and the database an earlier
    process has left: nothing is loaded. *)
Definition ModelManager_open (persisted : ModelManager) : ModelManager :=
  with_model_metadata None
    (with_current_version None (with_current_model None persisted)).

Section Main.
Context `{Libraries}.

(** [ProductionMLSystem.get_system_status]; [now_query] is the clock
    reading inside [get_model_performance], [now_uptime] that of line 403. *)
Definition get_system_status (now_query now_uptime : datetime)
    (s : ProductionMLSystem) : SystemStatus :=
  {| initialized := is_initialized s;
     current_model_version := current_version (model_manager s);
     reported_metadata := model_metadata (model_manager s);
     monitoring_active := monitoring (monitor s);
     recent_performance := get_model_performance now_query 7 (model_manager s);
     system_uptime := isoformat now_uptime |}.

(** [ProductionMLSystem.__init__] over what an earlier process has left. *)
Definition ProductionMLSystem_open (persisted : ModelManager)
    : ProductionMLSystem :=
  {| model_manager := ModelManager_open persisted; monitor := MLMonitor_init;
     scaler := None; is_initialized := false |}.

(** The [for] loop of lines 479-485; [now_predict k] is the clock reading
    of the prediction for the house number [k]. *)
Fixpoint predict_houses (houses : list (float * float * float)) (k : nat)
    (now_predict : nat -> datetime) (s : ProductionMLSystem)
    : outcome unit * ProductionMLSystem :=
  match houses with
  | [] => (Returned tt, s)
  | (size, bedrooms, age) :: rest =>
      match predict_house_price size bedrooms age (now_predict k) s with
      | (Raised e, s') => (Raised e, s')
      | (Returned _, s') => predict_houses rest (S k) now_predict s'
      end
  end.

(** [main], without its printing and without the moves of the loop thread,
    which touch the alert table only.  The two data sets are what
    [_get_training_data] returns to [initialize_system] and to
    [retrain_model]. *)
Definition main (data_init data_retrain : training_data)
    (now_init_version now_init_created : datetime)
    (now_predict : nat -> datetime)
    (now_status_query now_status_uptime : datetime)
    (now_retrain_version now_retrain_created : datetime)
    (persisted : ModelManager) : main_result * ProductionMLSystem :=
  let ml_system := ProductionMLSystem_open persisted in
  match initialize_system data_init now_init_version now_init_created
          ml_system with
  | (Raised e, s1) => (MainRaised e, s1)
  | (Returned _, s1) =>
      match predict_houses test_houses 0 now_predict s1 with
      | (Raised e, s2) => (MainRaised e, s2)
      | (Returned _, s2) =>
          let status := get_system_status now_status_query now_status_uptime
                          s2 in
          match reported_metadata status with
          | None => (MainKeyError, s2)
          | Some _ =>
              match retrain_model data_retrain now_retrain_version
                      now_retrain_created s2 with
              | (Raised e, s3) => (MainRaised e, s3)
              | (Returned _, s3) => (MainReturned, shutdown s3)
              end
          end
      end
  end.

End Main.

(** *** Instances for evaluating them *)

(** The row of [v0] in [two_trained]. *)
Definition v0_row : VersionRow :=
  {| created_at := isoformat (noon 0 0); r2_score := r2_090;
     rmse := PrimFloat.sqrt 4; training_samples := 1; status := trained |}.

(** [two_trained] after a deploy of its first version. *)
Definition two_trained_deployed : ModelManager :=
  snd (deploy_model v0 two_trained).

(** A busy day: the first version is deployed, a second one is trained,
    and the first serves 51 predictions, one a second. *)
Definition busy_day : list event :=
  [demo_train (noon 0 0) 1 r2_090; Deploy v0; demo_train (noon 1 0) 2 r2_090]
  ++ map (fun k => Predict (noon (2 + Z.of_nat k) 0) demo_X true) (seq 0 51).

Definition busy : ModelManager := demo_run busy_day ModelManager_init.

(** The alert the health check of 12:00:55 records on [busy]. *)
Definition demo_alert : PerformanceRow :=
  {| a_timestamp := isoformat (noon 55 1);
     a_model_version := Some v0;
     a_metric_name := "confidence_alert";
     a_metric_value :=
       arithmetic_mean
         (map avg_confidence
            (models (get_model_performance (H := demo_libraries) (noon 55 0) 1
                       busy))) |}.

(** A deploy of [v1] with that alert between its two [UPDATE]s. *)
Definition demo_moves : list statement :=
  [UpdateSetActive v1; InsertAlert demo_alert; Commit;
   UpdateSetOthersInactive v1; Commit].

(** The directory of [trained_once] with a new, empty database. *)
Definition orphaned : ModelManager :=
  with_model_versions ∅ (snd trained_once).

(** A system whose initialisation has failed in [fit]: the scaler is
    fitted, nothing is trained. *)
Definition failed_start : ProductionMLSystem (H := demo_libraries) :=
  snd (initialize_system (H := demo_libraries) (demo_X, demo_X, [], [r2_090])
         (noon 0 0) (noon 0 250) (ProductionMLSystem_init (H := demo_libraries))).

(** A monitor whose one thread has passed the loop test and has not run
    its check yet. *)
Definition checking_monitor : MLMonitor :=
  fst (_monitor_loop_step (H := demo_libraries) (noon 4 0) (noon 4 1) 0
         (start_monitoring MLMonitor_init) demo_logged).

(** The loop thread [0] is given three moves. *)
Definition three_moves : list (datetime * datetime * nat) :=
  [(noon 5 0, noon 5 1, 0%nat); (noon 6 0, noon 6 1, 0%nat);
   (noon 7 0, noon 7 1, 0%nat)].

(** A run of [main] on an empty directory whose retraining starts [s]
    seconds after its initialisation. *)
Definition demo_main (s : Z)
    : main_result * ProductionMLSystem (H := demo_libraries) :=
  main (H := demo_libraries) (demo_data 1 r2_090) (demo_data 2 1)
    (noon 0 100000) (noon 0 100500)
    (fun k => noon 0 (200000 + Z.of_nat k))
    (noon 0 300000) (noon 0 300100)
    (noon s 900000) (noon s 900500)
    ModelManager_init.

(** * Lemmas *)

(** ** Texts of instants *)

Lemma digit_compare a b :
  0 <= a < 10 -> 0 <= b < 10 -> Ascii.compare (digit a) (digit b) = (a ?= b).
Proof.
  intros Ha Hb. unfold Ascii.compare, digit.
  rewrite !N_ascii_embedding by lia.
  rewrite Z2N.inj_compare by lia.
  apply Z.add_compare_mono_l.
Qed.

Lemma compare_same_head c s t :
  String.compare (String c s) (String c t) = String.compare s t.
Proof.
  simpl. unfold Ascii.compare. now rewrite N.compare_refl.
Qed.

Lemma append_cons c r s : (String c r +:+ s)%string = String c (r +:+ s).
Proof. reflexivity. Qed.

Lemma compare_cons c1 s1 c2 s2 :
  String.compare (String c1 s1) (String c2 s2) =
  match Ascii.compare c1 c2 with Eq => String.compare s1 s2 | c => c end.
Proof. simpl. now destruct (Ascii.compare c1 c2). Qed.

Lemma pad_compare w : forall a b s t,
  0 <= a < 10 ^ Z.of_nat w -> 0 <= b < 10 ^ Z.of_nat w ->
  String.compare (pad w a +:+ s) (pad w b +:+ t) =
  match a ?= b with Eq => String.compare s t | c => c end.
Proof.
  induction w as [|w IH]; intros a b s t Ha Hb.
  - simpl in *. assert (a = 0) by lia. assert (b = 0) by lia. subst. reflexivity.
  - rewrite Nat2Z.inj_succ, Z.pow_succ_r in Ha, Hb by lia.
    set (P := 10 ^ Z.of_nat w) in *.
    assert (HP : 0 < P) by (apply Z.pow_pos_nonneg; lia).
    pose proof (Z.div_mod a P ltac:(lia)) as Ea.
    pose proof (Z.div_mod b P ltac:(lia)) as Eb.
    pose proof (Z.mod_pos_bound a P HP) as Ra.
    pose proof (Z.mod_pos_bound b P HP) as Rb.
    assert (Qa : 0 <= a / P < 10).
    { split; [apply Z.div_pos; lia | apply Z.div_lt_upper_bound; lia]. }
    assert (Qb : 0 <= b / P < 10).
    { split; [apply Z.div_pos; lia | apply Z.div_lt_upper_bound; lia]. }
    change (pad (S w) a) with (String (digit (a / P)) (pad w (a mod P))).
    change (pad (S w) b) with (String (digit (b / P)) (pad w (b mod P))).
    rewrite !append_cons, compare_cons, digit_compare by assumption.
    destruct (Z.compare_spec (a / P) (b / P)) as [E|L|G].
    + rewrite IH by assumption.
      replace (a ?= b) with (a mod P ?= b mod P); [reflexivity|].
      rewrite Ea, Eb at 2. rewrite E. symmetry. apply Z.add_compare_mono_l.
    + assert (Hlt : a < b) by nia.
      apply Z.compare_lt_iff in Hlt. now rewrite Hlt.
    + assert (Hgt : b < a) by nia.
      apply Z.compare_gt_iff in Hgt. now rewrite Hgt.
Qed.

Lemma compare_separator c s t :
  String.compare (String c "" +:+ s) (String c "" +:+ t) = String.compare s t.
Proof. apply compare_same_head. Qed.

Lemma append_empty_r s : (s +:+ "")%string = s.
Proof. induction s as [|c s IH]; [reflexivity|]. rewrite append_cons. now f_equal. Qed.

Lemma pad_compare_end w a b :
  0 <= a < 10 ^ Z.of_nat w -> 0 <= b < 10 ^ Z.of_nat w ->
  String.compare (pad w a) (pad w b) = (a ?= b).
Proof.
  intros Ha Hb.
  rewrite <- (append_empty_r (pad w a)), <- (append_empty_r (pad w b)).
  rewrite pad_compare by assumption. now destruct (a ?= b).
Qed.

(** [isoformat] turns the order of instants into the bytewise order of
    their texts. *)
Lemma isoformat_compare a b :
  valid_datetime a -> valid_datetime b ->
  String.compare (isoformat a) (isoformat b) = datetime_compare a b.
Proof.
  intros (Hy & Hm & Hd & HH & HM & HS & Hu) (Hy' & Hm' & Hd' & HH' & HM' & HS' & Hu').
  unfold isoformat, datetime_compare, datetime_key. cbn [lex_compare].
  rewrite pad_compare by (simpl; lia).
  destruct (year a ?= year b); try reflexivity.
  rewrite compare_separator, pad_compare by (simpl; lia).
  destruct (month a ?= month b); try reflexivity.
  rewrite compare_separator, pad_compare by (simpl; lia).
  destruct (day a ?= day b); try reflexivity.
  rewrite compare_separator, pad_compare by (simpl; lia).
  destruct (hour a ?= hour b); try reflexivity.
  rewrite compare_separator, pad_compare by (simpl; lia).
  destruct (minute a ?= minute b); try reflexivity.
  rewrite compare_separator, pad_compare by (simpl; lia).
  destruct (second a ?= second b); try reflexivity.
  destruct (Z.eqb_spec (microsecond a) 0) as [Ea|Na],
           (Z.eqb_spec (microsecond b) 0) as [Eb|Nb].
  - now rewrite Ea, Eb.
  - rewrite Ea. assert (Hlt : 0 < microsecond b) by lia.
    apply Z.compare_lt_iff in Hlt. now rewrite Hlt.
  - rewrite Eb. assert (Hgt : 0 < microsecond a) by lia.
    apply Z.compare_gt_iff in Hgt. now rewrite Hgt.
  - rewrite compare_separator, pad_compare_end by (simpl; lia).
    now destruct (microsecond a ?= microsecond b).
Qed.

Lemma sql_text_gt_isoformat c d :
  valid_datetime c -> valid_datetime d ->
  sql_text_gt (isoformat d) (isoformat c) = datetime_ltb c d.
Proof.
  intros Hc Hd. unfold sql_text_gt, datetime_ltb.
  rewrite String.compare_antisym, (isoformat_compare c d) by assumption.
  now destruct (datetime_compare c d).
Qed.

Lemma lex_compare_refl l : lex_compare l l = Eq.
Proof. induction l as [|x l IH]; [reflexivity|]. simpl. now rewrite Z.compare_refl. Qed.

Lemma datetime_ltb_irrefl d : datetime_ltb d d = false.
Proof. unfold datetime_ltb, datetime_compare. now rewrite lex_compare_refl. Qed.

(** ** Comparisons of floats *)

Lemma SFcompare_antisym x y :
  SFcompare y x = CompOpp <$> SFcompare x y.
Proof.
  destruct x as [sx|sx| |sx mx ex], y as [sy|sy| |sy my ey]; simpl;
    try reflexivity; try (destruct sx; reflexivity);
    try (destruct sy; reflexivity); try (destruct sx, sy; reflexivity).
  f_equal. rewrite (Z.compare_antisym ex ey).
  destruct sx, sy; try reflexivity; destruct (ex ?= ey); simpl; try reflexivity.
  - rewrite CompOpp_involutive. rewrite Pos.compare_cont_antisym. reflexivity.
  - rewrite Pos.compare_cont_antisym. reflexivity.
Qed.

(** [x <= y] rules out [y < x]. *)
Lemma float_leb_not_gt x y :
  PrimFloat.leb x y = true -> PrimFloat.ltb y x = false.
Proof.
  rewrite leb_spec, ltb_spec. unfold SFleb, SFltb.
  rewrite (SFcompare_antisym (Prim2SF x) (Prim2SF y)).
  destruct (SFcompare (Prim2SF x) (Prim2SF y)) as [[]|]; simpl; congruence.
Qed.

Lemma float_ltb_irrefl x : PrimFloat.ltb x x = false.
Proof.
  rewrite ltb_spec. unfold SFltb.
  pose proof (SFcompare_antisym (Prim2SF x) (Prim2SF x)) as E.
  destruct (SFcompare (Prim2SF x) (Prim2SF x)) as [[]|]; simpl in *; congruence.
Qed.

Lemma negative_is_not_the_floor x :
  PrimFloat.ltb x fzero = true -> x <> minimum_reasonable_price.
Proof. intros Hx ->. vm_compute in Hx. discriminate. Qed.

(** ** Deployment and the invariant of the store *)

Section DeployFacts.
Context `{Libraries}.

Lemma lookup_update_status_on_deploy v (t : gmap string VersionRow) k :
  update_status_on_deploy v t !! k =
  (if decide (k = v) then set_status active else set_status inactive)
    <$> t !! k.
Proof.
  unfold update_status_on_deploy, update_set_others_inactive,
    update_set_active.
  rewrite map_lookup_imap, lookup_alter.
  destruct (decide (k = v)) as [->|Hne].
  - rewrite decide_True by done. now destruct (t !! v).
  - rewrite decide_False by done. now destruct (t !! k).
Qed.

Lemma deploy_model_cases v mm : deploy_result v mm (deploy_model v mm).
Proof.
  unfold deploy_model, deploy_model_try.
  destruct (models_dir_pkl mm !! v) as [[model|]|] eqn:Ep;
    destruct (models_dir_json mm !! v) as [[md|]|] eqn:Ej;
    try (apply deploy_missing; auto; fail).
  - exact (deploy_done v mm model md Ep Ej).
  - exact (deploy_half v mm model Ep Ej).
  - exact (deploy_unpickle v mm _ Ep Ej).
  - exact (deploy_unpickle v mm _ Ep Ej).
Qed.

Lemma is_active_after_deploy v (t : gmap string VersionRow) mm k :
  is_active (with_model_versions (update_status_on_deploy v t) mm) k <->
  k = v /\ is_Some (t !! v).
Proof.
  unfold is_active. cbn. split.
  - intros (r & Hr & Hs). rewrite lookup_update_status_on_deploy in Hr.
    destruct (t !! k) as [r0|] eqn:E; [|discriminate].
    destruct (decide (k = v)) as [->|]; simpl in Hr.
    + split; [done | eauto].
    + inversion Hr; subst. discriminate.
  - intros [-> [r Hr]]. exists (set_status active r).
    rewrite lookup_update_status_on_deploy, Hr, decide_True by done. done.
Qed.

(** ** Invariants of the reachable states *)

Lemma store_inv_init : store_inv ModelManager_init.
Proof.
  split.
  - intros v1 v2 (r & Hr & _). cbn in Hr. now rewrite lookup_empty in Hr.
  - intros v [x Hx]. cbn in Hx. now rewrite lookup_empty in Hx.
Qed.

Lemma store_inv_same_tables mm mm' :
  model_versions mm' = model_versions mm ->
  (forall v, is_Some (models_dir_json mm' !! v) ->
             is_Some (models_dir_json mm !! v)) ->
  store_inv mm -> store_inv mm'.
Proof.
  intros Ht Hf [Ha Hr]. split.
  - intros v1 v2. unfold is_active. rewrite Ht. apply Ha.
  - intros v Hv. rewrite Ht. apply Hr, Hf, Hv.
Qed.

Lemma store_inv_train t1 t2 X_train y_train X_test y_test mm :
  store_inv mm ->
  store_inv (snd (train_new_model t1 t2 X_train y_train X_test y_test mm)).
Proof.
  intros Hinv. unfold train_new_model.
  destruct (RandomForestRegressor_fit X_train y_train) as [model|]; [|done].
  destruct (model_predict model X_test) as [y_pred|]; [|done].
  destruct (sk_r2_score _ y_pred) as [score|] eqn:Escore; [|done].
  destruct (mean_squared_error _ y_pred) as [mse|] eqn:Emse; [|done].
  cbn [model_versions with_json with_pkl models_dir_json models_dir].
  set (v := strftime_version t1).
  destruct (model_versions mm !! v) as [r|] eqn:Ev; cbn [snd].
  - destruct Hinv as [Ha Hr]. split.
    + exact Ha.
    + intros k. cbn. destruct (decide (k = v)) as [->|Hne].
      * intros _. rewrite Ev. eauto.
      * rewrite lookup_insert_ne by done. apply Hr.
  - destruct Hinv as [Ha Hr]. split.
    + intros k1 k2 (r1 & H1 & S1) (r2 & H2 & S2). cbn in H1, H2.
      destruct (decide (k1 = v)) as [->|N1].
      { rewrite lookup_insert_eq in H1. inversion H1; subst. discriminate. }
      destruct (decide (k2 = v)) as [->|N2].
      { rewrite lookup_insert_eq in H2. inversion H2; subst. discriminate. }
      rewrite lookup_insert_ne in H1, H2 by done.
      apply Ha; [exists r1 | exists r2]; done.
    + intros k. cbn. destruct (decide (k = v)) as [->|Hne].
      * intros _. rewrite lookup_insert_eq. eauto.
      * rewrite !lookup_insert_ne by done. apply Hr.
Qed.

Lemma store_inv_deploy v mm :
  store_inv mm -> store_inv (snd (deploy_model v mm)).
Proof.
  intros Hinv. destruct (deploy_model_cases v mm); cbn [snd]; try done.
  destruct Hinv as [Ha Hr]. split.
  - intros k1 k2 A1 A2.
    apply is_active_after_deploy in A1 as [-> _].
    apply is_active_after_deploy in A2 as [-> _]. done.
  - intros k Hk. cbn in *. rewrite lookup_update_status_on_deploy.
    apply fmap_is_Some, Hr, Hk.
Qed.

Lemma store_inv_step e mm : store_inv mm -> store_inv (step e mm).
Proof.
  destruct e as [t1 t2 Xa ya Xb yb|v|now X l|t c|v|v|]; cbn [step].
  - apply store_inv_train.
  - apply store_inv_deploy.
  - unfold predict.
    destruct (current_model mm) as [model|]; [|done].
    destruct (model_predict model X) as [[|raw ?]|]; try done.
    destruct l; [|done].
    apply store_inv_same_tables; done.
  - apply store_inv_same_tables; done.
  - apply store_inv_same_tables; done.
  - apply store_inv_same_tables; [done|].
    intros k. cbn. rewrite lookup_alter. case_decide; [subst|done].
    apply fmap_is_Some.
  - apply store_inv_same_tables; done.
Qed.

Lemma store_inv_run es : forall mm, store_inv mm -> store_inv (run es mm).
Proof.
  induction es as [|e es IH]; intros mm Hinv; [done|].
  cbn. apply IH, store_inv_step, Hinv.
Qed.

Lemma reachable_store_inv mm : reachable mm -> store_inv mm.
Proof. intros [es ->]. apply store_inv_run, store_inv_init. Qed.

End DeployFacts.

(** ** Training and prediction *)

Section TrainFacts.
Context `{Libraries}.

Lemma train_new_model_returned t1 t2 X_train y_train X_test y_test mm v mm1 :
  train_new_model t1 t2 X_train y_train X_test y_test mm = (Returned v, mm1) ->
  v = strftime_version t1 /\
  model_versions mm !! v = None /\
  exists row md model,
    model_versions mm1 = <[v := row]> (model_versions mm) /\
    status row = trained /\
    models_dir_json mm1 !! v = Some (Loadable md) /\
    models_dir_pkl mm1 !! v = Some (Loadable model) /\
    md_r2_score md = r2_score row /\
    current_model mm1 = current_model mm /\
    current_version mm1 = current_version mm /\
    model_metadata mm1 = model_metadata mm /\
    predictions mm1 = predictions mm.
Proof.
  unfold train_new_model.
  destruct (RandomForestRegressor_fit X_train y_train) as [model|]; [|discriminate].
  destruct (model_predict model X_test) as [y_pred|]; [|discriminate].
  destruct (sk_r2_score _ y_pred) as [score|] eqn:Escore; [|discriminate].
  destruct (mean_squared_error _ y_pred) as [mse|] eqn:Emse; [|discriminate].
  cbn [model_versions with_json with_pkl].
  destruct (model_versions mm !! strftime_version t1) eqn:E; [discriminate|].
  intros Heq. inversion Heq; subst. repeat split; try assumption.
  eexists _, _, _. cbn. rewrite !lookup_insert_eq. repeat split; reflexivity.
Qed.

Lemma predict_returned now X mm raw mm' :
  predict now X true mm = (Returned raw, mm') ->
  mm' = with_predictions (predictions mm ++ [logged_row X raw]) mm /\
  model_version raw = current_version mm /\
  timestamp raw = isoformat now /\
  is_Some (current_model mm).
Proof.
  unfold predict.
  destruct (current_model mm) as [model|]; [|discriminate].
  destruct (model_predict model X) as [[|p ?]|]; try discriminate.
  intros Heq. inversion Heq; subst. repeat split; eauto.
Qed.
End TrainFacts.

Lemma length_filter_insert {A} (P : A -> bool) (l : list A) (i : nat) (x y : A) :
  l !! i = Some x -> P y = P x ->
  length (List.filter P (<[i := y]> l)) = length (List.filter P l).
Proof.
  revert i. induction l as [|a l IH]; intros [|i] Hl Hp; try discriminate.
  - cbn in Hl. inversion Hl; subst. cbn. rewrite Hp. now destruct (P x).
  - cbn in Hl. specialize (IH i Hl Hp).
    change (<[S i := y]> (a :: l)) with (a :: <[i := y]> l).
    cbn [List.filter]. destruct (P a); cbn [length]; congruence.
Qed.

(** ** The loop threads of the monitor *)

Section MonitorFacts.
Context `{Libraries}.

(** With the flag set, a move of a loop thread ends no checker. *)
Lemma monitor_loop_step_keeps_checkers now_query now_alert i mon mm :
  monitoring mon = true ->
  monitoring (fst (_monitor_loop_step now_query now_alert i mon mm)) = true /\
  running_checkers (fst (_monitor_loop_step now_query now_alert i mon mm))
    = running_checkers mon.
Proof.
  intros Hflag. unfold _monitor_loop_step.
  destruct (monitor_threads mon !! i) as [[| | |]|] eqn:E;
    rewrite ?Hflag; cbn [fst monitoring with_threads]; try (split; done).
  - split; [exact Hflag|]. unfold running_checkers.
    cbn [monitor_threads with_threads].
    apply (length_filter_insert _ _ _ _ _ E). reflexivity.
  - split; [exact Hflag|]. unfold running_checkers.
    cbn [monitor_threads with_threads].
    apply (length_filter_insert _ _ _ _ _ E). reflexivity.
  - split; [exact Hflag|]. unfold running_checkers.
    cbn [monitor_threads with_threads].
    apply (length_filter_insert _ _ _ _ _ E). reflexivity.
Qed.

Lemma monitor_loop_run_keeps_checkers schedule : forall mon mm,
  monitoring mon = true ->
  monitoring (fst (_monitor_loop_run schedule mon mm)) = true /\
  running_checkers (fst (_monitor_loop_run schedule mon mm))
    = running_checkers mon.
Proof.
  unfold _monitor_loop_run.
  induction schedule as [|[[tq ta] i] schedule IH]; intros mon mm Hflag.
  - split; [exact Hflag | reflexivity].
  - cbn [fold_left fst snd].
    destruct (monitor_loop_step_keeps_checkers tq ta i mon mm Hflag)
      as [Hflag' Hsame].
    destruct (_monitor_loop_step tq ta i mon mm) as [mon' mm'] eqn:E.
    cbn [fst] in Hflag', Hsame.
    destruct (IH mon' mm' Hflag') as [Hf Hr].
    split; [exact Hf | congruence].
Qed.
End MonitorFacts.

(** ** Grouping and filtering the prediction log *)

Lemma fold_left_zsum {M : Type} (g : M -> Z) (l : list M) (a : Z) :
  fold_left (fun acc m => acc + g m) l a = a + zsum g l.
Proof.
  revert a. induction l as [|m l IH]; intros a; cbn.
  - lia.
  - rewrite IH. lia.
Qed.

Lemma zsum_map {K M : Type} (g : M -> Z) (f : K -> M) (ks : list K) :
  zsum g (map f ks) = zsum (fun v => g (f v)) ks.
Proof. induction ks as [|k ks IH]; cbn; [reflexivity|]. now rewrite IH. Qed.

Lemma zsum_zero {K : Type} (ks : list K) : zsum (fun _ => 0) ks = 0.
Proof. induction ks as [|k ks IH]; cbn; [reflexivity | now rewrite IH]. Qed.

Lemma zsum_ext {K : Type} (f g : K -> Z) (ks : list K) :
  (forall v, f v = g v) -> zsum f ks = zsum g ks.
Proof.
  intros E. induction ks as [|k ks IH]; cbn; [reflexivity|].
  now rewrite E, IH.
Qed.

Lemma zsum_add {K : Type} (f g : K -> Z) (ks : list K) :
  zsum (fun v => f v + g v) ks = zsum f ks + zsum g ks.
Proof. induction ks as [|k ks IH]; cbn; [reflexivity|]. rewrite IH. lia. Qed.

Lemma zsum_indicator {K : Type} `{EqDecision K} (k : K) (ks : list K) :
  NoDup ks -> k ∈ ks ->
  zsum (fun v => if bool_decide (k = v) then 1 else 0) ks = 1.
Proof.
  induction 1 as [|v ks Hv Hnd IH]; intros Hin.
  - now apply not_elem_of_nil in Hin.
  - cbn [zsum]. destruct (decide (k = v)) as [->|Hne].
    + rewrite bool_decide_eq_true_2 by reflexivity.
      assert (E : zsum (fun u => if bool_decide (v = u) then 1 else 0) ks = 0).
      { clear IH Hnd Hin. induction ks as [|u ks IHk]; [reflexivity|].
        cbn [zsum]. apply not_elem_of_cons in Hv as [Hvu Hv].
        rewrite bool_decide_eq_false_2 by assumption. now rewrite IHk. }
      rewrite E. reflexivity.
    + rewrite bool_decide_eq_false_2 by assumption.
      apply elem_of_cons in Hin as [?|Hin]; [contradiction|].
      now rewrite IH.
Qed.

(** The sizes of the groups add up to the size of the table. *)
Lemma zsum_group_sizes {A K : Type} `{EqDecision K} (key : A -> K)
    (ks : list K) (l : list A) :
  NoDup ks -> (forall x, x ∈ l -> key x ∈ ks) ->
  zsum (fun v => Z.of_nat
                   (length (List.filter (fun r => bool_decide (key r = v)) l)))
    ks = Z.of_nat (length l).
Proof.
  intros Hnd. induction l as [|x l IH]; intros Hin.
  - cbn. apply zsum_zero.
  - assert (Hx : key x ∈ ks) by (apply Hin; left).
    specialize (IH (fun y Hy => Hin y (proj2 (elem_of_cons _ _ _) (or_intror Hy)))).
    cbn [length]. rewrite Nat2Z.inj_succ, <- IH, <- Z.add_1_l.
    rewrite <- (zsum_indicator (key x) ks Hnd Hx), <- zsum_add.
    apply zsum_ext. intros v. cbn [List.filter].
    destruct (bool_decide (key x = v)); cbn [length]; lia.
Qed.

Lemma filter_filter {A : Type} (p q : A -> bool) (l : list A) :
  List.filter q (List.filter p l) = List.filter (fun r => p r && q r) l.
Proof.
  induction l as [|x l IH]; cbn; [reflexivity|].
  destruct (p x); cbn; [destruct (q x)|]; now rewrite IH.
Qed.

Lemma filter_version_stored v (l : list PredictionRecord) :
  List.filter (fun r => bool_decide (p_model_version r = v)) (map stored l) =
  map stored (List.filter (fun r => bool_decide (made_by r = v)) l).
Proof.
  induction l as [|x l IH]; cbn; [reflexivity|].
  destruct (bool_decide (made_by x = v)); cbn; now rewrite IH.
Qed.

Lemma rows_after_stored cutoff (log : list PredictionRecord) :
  valid_datetime cutoff ->
  Forall (fun r => valid_datetime (made_at r)) log ->
  rows_after (isoformat cutoff) (map stored log) =
  map stored (List.filter (in_window cutoff) log).
Proof.
  intros Hc. induction 1 as [|x l Hx Hl IH]; cbn; [reflexivity|].
  unfold in_window at 1. rewrite sql_text_gt_isoformat by assumption.
  fold (rows_after (isoformat cutoff) (map stored l)). rewrite IH.
  destruct (datetime_ltb cutoff (made_at x)); reflexivity.
Qed.

(** ** The prediction log of a history *)

Section LogFacts.
Context `{Libraries}.

Lemma log_inv_same mm mm' :
  predictions mm' = predictions mm -> log_inv mm -> log_inv mm'.
Proof. intros E (log & Hl & Hv). exists log. now rewrite E. Qed.

Lemma log_inv_step e mm : valid_event e -> log_inv mm -> log_inv (step e mm).
Proof.
  destruct e as [t1 t2 Xa ya Xb yb|v|now X l|t c|v|v|];
    cbn [step valid_event]; intros He Hinv;
    try (revert Hinv; apply log_inv_same; reflexivity).
  - revert Hinv. apply log_inv_same. unfold train_new_model.
    destruct (RandomForestRegressor_fit Xa ya) as [model|]; [|done].
    destruct (model_predict model Xb) as [y_pred|]; [|done].
    destruct (sk_r2_score _ y_pred) as [score|] eqn:Escore; [|done].
    destruct (mean_squared_error _ y_pred) as [mse|] eqn:Emse; [|done].
    cbn [model_versions with_json with_pkl].
    destruct (model_versions mm !! strftime_version t1); reflexivity.
  - revert Hinv. apply log_inv_same.
    destruct (deploy_model_cases v mm); reflexivity.
  - unfold predict.
    destruct (current_model mm) as [model|]; [|exact Hinv].
    destruct (model_predict model X) as [[|raw rest]|]; try exact Hinv.
    destruct l; [|exact Hinv].
    destruct Hinv as (log & Hl & Hv). cbn [snd predictions with_predictions].
    exists (log ++ [{| made_at := now; made_by := current_version mm;
                       made_from := X; predicted_value := raw;
                       confidence_score :=
                         match feature_importances_ model with
                         | Some importances => np_mean importances
                         | None => default_confidence
                         end |}]).
    split.
    + rewrite map_app, Hl. reflexivity.
    + apply Forall_app. split; [exact Hv|]. constructor; [exact He|constructor].
Qed.

(** In every state reached with valid clock readings the prediction log is
    the stored form of a list of records. *)
Lemma log_inv_run es :
  Forall valid_event es -> log_inv (run es ModelManager_init).
Proof.
  assert (Hinit : log_inv ModelManager_init).
  { exists []. split; [reflexivity | constructor]. }
  revert Hinit. generalize ModelManager_init.
  induction es as [|e es IH]; intros mm Hinv Hes; [exact Hinv|].
  inversion Hes; subst. cbn. apply IH; [|assumption].
  now apply log_inv_step.
Qed.
End LogFacts.

(** ** The statements of a deploy *)

Lemma lookup_update_set_active v (t : gmap string VersionRow) k :
  update_set_active v t !! k =
  (if decide (k = v) then set_status active else id) <$> t !! k.
Proof.
  unfold update_set_active. rewrite lookup_alter.
  destruct (decide (k = v)) as [->|Hne].
  - now rewrite decide_True by done.
  - rewrite decide_False by done. now destruct (t !! k).
Qed.

Lemma lookup_update_set_others_inactive v (t : gmap string VersionRow) k :
  update_set_others_inactive v t !! k =
  (if decide (k = v) then id else set_status inactive) <$> t !! k.
Proof.
  unfold update_set_others_inactive. rewrite map_lookup_imap.
  destruct (t !! k) as [r|]; [|reflexivity]. cbn.
  now destruct (decide (k = v)).
Qed.

(** After the first [UPDATE] the named version is active, if it has a
    row, beside whatever was active. *)
Lemma active_in_update_set_active v (t : gmap string VersionRow) k :
  active_in (update_set_active v t) k <->
  k = v /\ is_Some (t !! v) \/ active_in t k.
Proof.
  unfold active_in. rewrite lookup_update_set_active. split.
  - intros (r & Hr & Hs). destruct (t !! k) as [r0|] eqn:E; [|discriminate].
    destruct (decide (k = v)) as [->|Hne].
    + left. split; [reflexivity | eauto].
    + right. cbn in Hr. inversion Hr; subst. eauto.
  - intros [[-> [r0 E]]|(r0 & E & Hs)].
    + rewrite E, decide_True by done. cbn. eauto.
    + rewrite E. destruct (decide (k = v)); cbn; eauto.
Qed.

Lemma active_in_update_set_others_inactive v (t : gmap string VersionRow) k :
  active_in (update_set_others_inactive v t) k <-> k = v /\ active_in t k.
Proof.
  unfold active_in. rewrite lookup_update_set_others_inactive. split.
  - intros (r & Hr & Hs). destruct (t !! k) as [r0|] eqn:E; [|discriminate].
    destruct (decide (k = v)) as [->|Hne]; cbn in Hr; inversion Hr; subst.
    + split; [reflexivity | eauto].
    + discriminate.
  - intros [-> (r0 & E & Hs)]. rewrite E, decide_True by done. cbn. eauto.
Qed.

Lemma execute_all_app l1 l2 c :
  execute_all (l1 ++ l2) c = execute_all l2 (execute_all l1 c).
Proof. unfold execute_all. apply fold_left_app. Qed.

Lemma execute_all_cons st l c :
  execute_all (st :: l) c = execute_all l (execute st c).
Proof. reflexivity. Qed.

Lemma active_within_execute v t0 st c :
  during_deploy v st -> active_within v t0 c ->
  active_within v t0 (execute st c).
Proof.
  intros Hst Hc k. destruct st as [w|w|row|]; cbn in Hst; subst; cbn.
  - intros [Hk|Hk]; [apply Hc; now left|].
    apply active_in_update_set_active in Hk as [[-> _]|Hk]; [now left|].
    apply Hc. now right.
  - intros [Hk|Hk]; [apply Hc; now left|].
    apply active_in_update_set_others_inactive in Hk as [-> _]. now left.
  - intros [Hk|Hk]; apply Hc; [now left | now right].
  - intros [Hk|Hk]; apply Hc; now right.
Qed.

Lemma active_within_execute_all v t0 sts : forall c,
  Forall (during_deploy v) sts -> active_within v t0 c ->
  active_within v t0 (execute_all sts c).
Proof.
  induction sts as [|st sts IH]; intros c Hsts Hc; [exact Hc|].
  inversion Hsts; subst. rewrite execute_all_cons.
  apply IH; [assumption|]. now apply active_within_execute.
Qed.

Lemma of_monitor_monitor_statements alerts :
  Forall of_monitor (monitor_statements alerts).
Proof.
  induction alerts as [|a alerts IH]; [constructor|].
  cbn. repeat constructor. exact IH.
Qed.

(** The statements of the monitor leave the table of the versions as the
    connection sees it, and commit it or not. *)
Lemma of_monitor_execute_all sts : forall c,
  Forall of_monitor sts ->
  db_model_versions (in_transaction (execute_all sts c)) =
    db_model_versions (in_transaction c) /\
  (db_model_versions (committed (execute_all sts c)) =
     db_model_versions (committed c) \/
   db_model_versions (committed (execute_all sts c)) =
     db_model_versions (in_transaction c)).
Proof.
  induction sts as [|st sts IH]; intros c Hsts; [split; [|left]; reflexivity|].
  inversion Hsts as [|? ? Hst Hrest]; subst. rewrite execute_all_cons.
  destruct (IH (execute st c) Hrest) as [Hv Hc].
  destruct st as [w|w|row|]; try destruct Hst; cbn in Hv, Hc.
  - split; [exact Hv | exact Hc].
  - split; [exact Hv|]. right. now destruct Hc.
Qed.

Lemma interleaving_nil_l {A} (r m : list A) : interleaving [] r m -> m = r.
Proof.
  intros Hi. remember [] as l eqn:El. induction Hi; try discriminate.
  - reflexivity.
  - f_equal. now apply IHHi.
Qed.

Lemma interleaving_cons_l {A} (x : A) l r m :
  interleaving (x :: l) r m ->
  exists r1 r2 m',
    r = r1 ++ r2 /\ m = r1 ++ x :: m' /\ interleaving l r2 m'.
Proof.
  intros Hi. remember (x :: l) as xl eqn:El. revert x l El.
  induction Hi as [|x' l' r m Hi IH|y l' r m Hi IH]; intros x l El;
    try discriminate.
  - inversion El; subst. exists [], r, m. repeat split. exact Hi.
  - destruct (IH x l El) as (r1 & r2 & m' & -> & -> & Hi').
    exists (y :: r1), r2, m'. repeat split. exact Hi'.
Qed.

Lemma interleaving_Forall {A} (P : A -> Prop) l r m :
  interleaving l r m -> Forall P l -> Forall P r -> Forall P m.
Proof.
  induction 1; intros Hl Hr; [constructor| |].
  - inversion Hl; subst. constructor; auto.
  - inversion Hr; subst. constructor; auto.
Qed.

(** The statements of a deploy, with those of the monitor anywhere in
    between, leave the table the call leaves, committed. *)
Lemma deploy_statements_interleaved v r moves c :
  Forall of_monitor r ->
  interleaving (deploy_statements v) r moves ->
  db_model_versions (in_transaction (execute_all moves c)) =
    update_status_on_deploy v (db_model_versions (in_transaction c)) /\
  db_model_versions (committed (execute_all moves c)) =
    update_status_on_deploy v (db_model_versions (in_transaction c)).
Proof.
  intros Hr Hi. unfold deploy_statements in Hi.
  apply interleaving_cons_l in Hi as (r1 & ra & m1 & -> & -> & Hi).
  apply interleaving_cons_l in Hi as (r2 & rb & m2 & -> & -> & Hi).
  apply interleaving_cons_l in Hi as (r3 & r4 & m3 & -> & -> & Hi).
  apply interleaving_nil_l in Hi as ->.
  apply Forall_app in Hr as [H1 Hr]. apply Forall_app in Hr as [H2 Hr].
  apply Forall_app in Hr as [H3 H4].
  rewrite !execute_all_app, !execute_all_cons, !execute_all_app,
    !execute_all_cons, !execute_all_app, !execute_all_cons.
  destruct (of_monitor_execute_all r1 c H1) as [E1 _].
  set (c1 := execute (UpdateSetActive v) (execute_all r1 c)).
  destruct (of_monitor_execute_all r2 c1 H2) as [E2 _].
  set (c2 := execute (UpdateSetOthersInactive v) (execute_all r2 c1)).
  destruct (of_monitor_execute_all r3 c2 H3) as [E3 _].
  set (c3 := execute Commit (execute_all r3 c2)).
  destruct (of_monitor_execute_all r4 c3 H4) as [E4 C4].
  assert (Hfinal : db_model_versions (in_transaction c3) =
                   update_status_on_deploy v
                     (db_model_versions (in_transaction c))).
  { unfold c3. cbn [execute in_transaction]. rewrite E3.
    unfold c2. cbn [execute in_transaction with_db_model_versions
                      db_model_versions].
    rewrite E2.
    unfold c1. cbn [execute in_transaction with_db_model_versions
                      db_model_versions].
    now rewrite E1. }
  split; [now rewrite E4|].
  destruct C4 as [->| ->]; exact Hfinal.
Qed.

Section ActiveFacts.
Context `{Libraries}.

Lemma at_most_one_active_step e mm :
  at_most_one_active mm -> at_most_one_active (step e mm).
Proof.
  intros Ha.
  assert (Hsame : forall mm', model_versions mm' = model_versions mm ->
                              at_most_one_active mm').
  { intros mm' E k1 k2. unfold is_active. rewrite E. apply Ha. }
  destruct e as [t1 t2 Xa ya Xb yb|v|now X l|t c|v|v|]; cbn [step];
    try (apply Hsame; reflexivity).
  - unfold train_new_model.
    destruct (RandomForestRegressor_fit Xa ya) as [model|]; [|exact Ha].
    destruct (model_predict model Xb) as [y_pred|]; [|exact Ha].
    destruct (sk_r2_score yb y_pred) as [score|]; [|exact Ha].
    destruct (mean_squared_error yb y_pred) as [mse|]; [|exact Ha].
    cbn [model_versions with_json with_pkl].
    set (v := strftime_version t1).
    destruct (model_versions mm !! v) as [r|] eqn:Ev; cbn [snd];
      [apply Hsame; reflexivity|].
    intros k1 k2 (r1 & H1 & S1) (r2 & H2 & S2). cbn in H1, H2.
    destruct (decide (k1 = v)) as [->|N1].
    { rewrite lookup_insert_eq in H1. inversion H1; subst. discriminate. }
    destruct (decide (k2 = v)) as [->|N2].
    { rewrite lookup_insert_eq in H2. inversion H2; subst. discriminate. }
    rewrite lookup_insert_ne in H1, H2 by done.
    apply Ha; [exists r1 | exists r2]; done.
  - destruct (deploy_model_cases v mm); cbn [snd];
      try (apply Hsame; reflexivity).
    intros k1 k2 A1 A2.
    apply is_active_after_deploy in A1 as [-> _].
    apply is_active_after_deploy in A2 as [-> _]. reflexivity.
  - unfold predict. destruct (current_model mm) as [model|];
      [|apply Hsame; reflexivity].
    destruct (model_predict model X) as [[|raw rest]|];
      try (apply Hsame; reflexivity).
    destruct l; apply Hsame; reflexivity.
Qed.

Lemma at_most_one_active_run es : forall mm,
  at_most_one_active mm -> at_most_one_active (run es mm).
Proof.
  induction es as [|e es IH]; intros mm Ha; [exact Ha|].
  cbn. apply IH, at_most_one_active_step, Ha.
Qed.
End ActiveFacts.

(** ** Tactics for closed statements *)

Ltac split_conj := repeat match goal with |- _ /\ _ => split end.
Ltac by_evaluation := vm_compute; reflexivity.

(** * The properties of the specification *)

Section Claims.
Context `{Libraries}.

(** C1 (as amended).  A successful [deploy_model v] makes [v] the current
    version, and when [v] has a row in the store -- as it has whenever
    every metadata file belongs to a recorded version -- it leaves exactly
    one version with status [active], namely [v].  From then on, and from
    any store with at most one active version, at most one version is
    active between two calls.  During the call the statements of the
    monitor thread can come anywhere between those of the deploy: the
    table ends as the call leaves it, committed, and at every moment, in
    what the connection sees and in what is committed, the only versions
    that can be active are [v] and what was active before the call. *)
Theorem deploy_exactly_one_active (es : list event) (v : string)
    (mm mm' : ModelManager) (alerts : list PerformanceRow)
    (moves : list statement) :
  deploy_model v mm = (Returned true, mm') ->
  interleaving (deploy_statements v) (monitor_statements alerts) moves ->
  current_version mm' = Some v /\
  (is_Some (model_versions mm !! v) -> forall k, is_active mm' k <-> k = v) /\
  (files_recorded mm -> forall k, is_active mm' k <-> k = v) /\
  at_most_one_active (run es mm') /\
  (at_most_one_active mm -> at_most_one_active (run es mm)) /\
  db_model_versions (in_transaction (execute_all moves (connection_of mm)))
    = model_versions mm' /\
  db_model_versions (committed (execute_all moves (connection_of mm)))
    = model_versions mm' /\
  (forall done k,
     done `prefix_of` moves ->
     active_in (db_model_versions
                  (committed (execute_all done (connection_of mm)))) k \/
     active_in (db_model_versions
                  (in_transaction (execute_all done (connection_of mm)))) k ->
     k = v \/ is_active mm k).
Proof.
  intros Hd Hi.
  pose proof (deploy_model_cases v mm) as Hc. rewrite Hd in Hc.
  inversion Hc as [| | |model md Hp Hj]; subst. clear Hc.
  assert (Hrow : is_Some (model_versions mm !! v) ->
                 forall k,
                   is_active
                     (with_model_versions
                        (update_status_on_deploy v (model_versions mm))
                        (with_current_version (Some v)
                           (with_model_metadata (Some md)
                              (with_current_model (Some model) mm)))) k
                   <-> k = v).
  { intros Hv k. rewrite is_active_after_deploy. split; [tauto|].
    intros ->. split; [reflexivity | exact Hv]. }
  split; [reflexivity|]. split; [exact Hrow|]. split.
  { intros Hrec. apply Hrow, Hrec. rewrite Hj. eauto. }
  split.
  { apply at_most_one_active_run. intros k1 k2 A1 A2.
    apply is_active_after_deploy in A1 as [-> _].
    apply is_active_after_deploy in A2 as [-> _]. reflexivity. }
  split; [apply at_most_one_active_run|].
  destruct (deploy_statements_interleaved v (monitor_statements alerts) moves
              (connection_of mm) (of_monitor_monitor_statements alerts) Hi)
    as [Hview Hdisk].
  split; [exact Hview|]. split; [exact Hdisk|].
  intros done k [rest ->] Hk.
  assert (Hall : Forall (during_deploy v) (done ++ rest)).
  { apply (interleaving_Forall _ _ _ _ Hi).
    - repeat constructor.
    - eapply Forall_impl; [apply of_monitor_monitor_statements|].
      intros [w|w|row|] Hm; try destruct Hm; exact I. }
  apply Forall_app in Hall as [Hdone _].
  apply (active_within_execute_all v (model_versions mm) done
           (connection_of mm) Hdone); [|exact Hk].
  intros k' [Hk'|Hk']; right; exact Hk'.
Qed.

(** C2 (as amended). When [deploy_model] does not succeed it returns
    [False] -- it never raises, and a missing file is not told apart from a
    failed load -- and the statuses in the store are exactly as they were;
    when a file is missing or the model parameters do not load, the whole
    manager (in-memory model, version, metadata) is unchanged. *)
Theorem deploy_failure_returns_false (v : string) (mm mm' : ModelManager)
    (r : outcome bool) :
  deploy_model v mm = (r, mm') -> r <> Returned true ->
  r = Returned false /\
  model_versions mm' = model_versions mm /\
  (models_dir_pkl mm !! v = None \/ models_dir_json mm !! v = None \/
   models_dir_pkl mm !! v = Some Unreadable -> mm' = mm).
Proof.
  intros Hd Hr. pose proof (deploy_model_cases v mm) as Hc. rewrite Hd in Hc.
  inversion Hc as [Hm|json Hp Hj|model Hp Hj|model md Hp Hj]; subst;
    try (repeat split; reflexivity || (intros _; reflexivity); fail).
  - repeat split. intros [E|[E|E]]; congruence.
  - congruence.
Qed.

(** C3. With a version deployed, [retrain_model] returns the identifier of
    the version it has trained, recorded with status [trained]; the state it
    leaves is that of a deploy of the new version exactly when the new R²
    is strictly greater than the current R² plus 0.02 -- the new version is
    then the active and the current one -- and is the state right after
    training -- current model, current version and active version
    untouched -- whenever the new R² is less than or equal to that sum, in
    particular when it is equal to it.  The comparison is the binary64
    comparison of the code. *)
Theorem retrain_deploy_policy (X_train X_test : matrix)
    (y_train y_test : vector) (t1 t2 : datetime) (s : ProductionMLSystem)
    (sc : Scaler) (cv new_version : string) (mm1 : ModelManager) :
  scaler s = Some sc ->
  current_version (model_manager s) = Some cv -> cv <> EmptyString ->
  train_new_model t1 t2 (StandardScaler_transform sc X_train) y_train
    (StandardScaler_transform sc X_test) y_test (model_manager s)
    = (Returned new_version, mm1) ->
  exists row,
    model_versions mm1 !! new_version = Some row /\
    status row = trained /\
    current_version mm1 = Some cv /\
    current_model mm1 = current_model (model_manager s) /\
    (forall k, is_active mm1 k <-> is_active (model_manager s) k) /\
    fst (retrain_model (X_train, X_test, y_train, y_test) t1 t2 s)
      = Returned new_version /\
    snd (retrain_model (X_train, X_test, y_train, y_test) t1 t2 s)
      = with_model_manager
          (if PrimFloat.ltb
                (PrimFloat.add (current_r2 (model_manager s))
                   improvement_threshold) (r2_score row)
           then snd (deploy_model new_version mm1) else mm1) s /\
    fst (deploy_model new_version mm1) = Returned true /\
    is_active (snd (deploy_model new_version mm1)) new_version /\
    (PrimFloat.leb (r2_score row)
       (PrimFloat.add (current_r2 (model_manager s)) improvement_threshold)
       = true ->
     snd (retrain_model (X_train, X_test, y_train, y_test) t1 t2 s)
       = with_model_manager mm1 s) /\
    (r2_score row =
       PrimFloat.add (current_r2 (model_manager s)) improvement_threshold ->
     snd (retrain_model (X_train, X_test, y_train, y_test) t1 t2 s)
       = with_model_manager mm1 s).
Proof.
  intros Hs Hcv Hne Ht.
  destruct (train_new_model_returned _ _ _ _ _ _ _ _ _ Ht)
    as (Hv & Hfresh & row & md & model & Htab & Hst & Hjson & Hpkl & Hr2 &
        Hcm & Hcur & Hmd & _).
  assert (Hpol : _should_deploy_new_model new_version mm1 =
                 Returned (PrimFloat.ltb
                   (PrimFloat.add (current_r2 (model_manager s))
                      improvement_threshold) (r2_score row))).
  { unfold _should_deploy_new_model, current_r2.
    rewrite Hcur, Hcv, Hjson, Hmd, Hr2.
    destruct cv; [congruence | reflexivity]. }
  assert (Hre : retrain_model (X_train, X_test, y_train, y_test) t1 t2 s =
                (Returned new_version,
                 with_model_manager
                   (if PrimFloat.ltb
                         (PrimFloat.add (current_r2 (model_manager s))
                            improvement_threshold) (r2_score row)
                    then snd (deploy_model new_version mm1) else mm1) s)).
  { unfold retrain_model. rewrite Hs, Ht, Hpol.
    destruct (PrimFloat.ltb _ _); reflexivity. }
  assert (Hrow : model_versions mm1 !! new_version = Some row).
  { rewrite Htab. apply lookup_insert_eq. }
  assert (Hdep : fst (deploy_model new_version mm1) = Returned true /\
                 is_active (snd (deploy_model new_version mm1)) new_version).
  { destruct (deploy_model_cases new_version mm1)
      as [[E|E]|json E _|m' E E'|m' md' _ _]; try congruence.
    split; [reflexivity|]. cbn [snd]. apply is_active_after_deploy.
    split; [reflexivity|]. cbn. rewrite Hrow. eauto. }
  exists row. rewrite Hre. cbn [fst snd].
  split; [exact Hrow|].
  split; [exact Hst|]. split; [congruence|]. split; [exact Hcm|].
  split.
  { intros k. unfold is_active. rewrite Htab.
    destruct (decide (k = new_version)) as [->|Hk].
    - rewrite lookup_insert_eq, Hfresh. split.
      + intros (r & Er & Sr). inversion Er; subst. congruence.
      + intros (r & Er & _). discriminate.
    - rewrite lookup_insert_ne by done. reflexivity. }
  split; [reflexivity|]. split; [reflexivity|].
  split; [apply Hdep|]. split; [apply Hdep|]. split.
  - intros Hle. apply float_leb_not_gt in Hle. rewrite Hle. reflexivity.
  - intros Heq. rewrite <- Heq, float_ltb_irrefl. reflexivity.
Qed.

(** C4. [predict_house_price] returns the floor 50000 and half of the
    confidence (the binary64 product with 0.5) when the prediction
    [ModelManager.predict] returned is negative, and returns prediction and
    confidence as they are when it is non-negative. *)
Theorem predict_house_price_clamps (size bedrooms age : float)
    (now : datetime) (s : ProductionMLSystem) (sc : Scaler)
    (raw : Prediction) (mm' : ModelManager) :
  is_initialized s = true -> scaler s = Some sc ->
  predict now (StandardScaler_transform sc [[size; bedrooms; age]]) true
    (model_manager s) = (Returned raw, mm') ->
  exists result,
    predict_house_price size bedrooms age now s =
      (Returned result, with_model_manager mm' s) /\
    (PrimFloat.ltb (prediction raw) fzero = true ->
       prediction result = minimum_reasonable_price /\
       confidence result = PrimFloat.mul (confidence raw) one_half) /\
    (PrimFloat.leb fzero (prediction raw) = true ->
       prediction result = prediction raw /\
       confidence result = confidence raw).
Proof.
  intros Hi Hs Hp. unfold predict_house_price.
  rewrite Hi, Hs. cbv zeta. cbn [negb]. rewrite Hp.
  eexists. split; [reflexivity|]. unfold clamp. split.
  - intros Hneg. rewrite Hneg. split; reflexivity.
  - intros Hpos. apply float_leb_not_gt in Hpos. rewrite Hpos.
    split; reflexivity.
Qed.

(** C7 (as amended). A successful [deploy_model v] sets the status of [v]
    to [active] and the status of every other recorded version to
    [inactive], whatever it was -- a version that is [trained] and was never
    deployed becomes [inactive] too; the other columns are kept and no row
    is added or removed. *)
Theorem deploy_sets_all_others_inactive (v k : string)
    (mm mm' : ModelManager) :
  deploy_model v mm = (Returned true, mm') ->
  model_versions mm' !! k =
    (if decide (k = v) then set_status active else set_status inactive)
      <$> model_versions mm !! k.
Proof.
  intros Hd. pose proof (deploy_model_cases v mm) as Hc. rewrite Hd in Hc.
  inversion Hc; subst. cbn. apply lookup_update_status_on_deploy.
Qed.

(** C8 (as amended). [start_monitoring] leaves the monitor Running and
    starts one more thread on [_monitor_loop], also when the monitor is
    already Running: the number of periodic checkers grows by one with
    every call, [n] calls on a new monitor leave [n] of them, and however
    the loop threads move afterwards none of them ends while the flag
    stays set. *)
Theorem start_monitoring_adds_a_checker (mon : MLMonitor) (n : nat)
    (schedule : list (datetime * datetime * nat)) (mm : ModelManager) :
  monitoring (start_monitoring mon) = true /\
  running_checkers (start_monitoring mon) = S (running_checkers mon) /\
  running_checkers (Nat.iter n start_monitoring MLMonitor_init) = n /\
  monitoring (fst (_monitor_loop_run schedule (start_monitoring mon) mm))
    = true /\
  running_checkers (fst (_monitor_loop_run schedule (start_monitoring mon) mm))
    = S (running_checkers mon).
Proof.
  assert (Hrun : forall m,
            running_checkers (start_monitoring m) = S (running_checkers m)).
  { intros m. unfold running_checkers, start_monitoring. cbn.
    rewrite List.filter_app, length_app. cbn. lia. }
  split; [reflexivity|]. split; [apply Hrun|]. split.
  { induction n as [|n IH]; [reflexivity|].
    now rewrite Nat.iter_succ, Hrun, IH. }
  rewrite <- Hrun.
  apply (monitor_loop_run_keeps_checkers schedule (start_monitoring mon) mm).
  reflexivity.
Qed.

(** C10 (as amended). When the prediction [ModelManager.predict] returns
    is negative, the row appended to [predictions] holds that negative
    prediction and the confidence as computed; the caller receives the
    floor, which differs from the logged prediction, and the logged
    confidence multiplied by 0.5. *)
Theorem negative_prediction_logged_raw (size bedrooms age : float)
    (now : datetime) (s : ProductionMLSystem) (sc : Scaler)
    (raw : Prediction) (mm' : ModelManager) :
  is_initialized s = true -> scaler s = Some sc ->
  predict now (StandardScaler_transform sc [[size; bedrooms; age]]) true
    (model_manager s) = (Returned raw, mm') ->
  PrimFloat.ltb (prediction raw) fzero = true ->
  exists result row,
    predict_house_price size bedrooms age now s =
      (Returned result, with_model_manager mm' s) /\
    predictions mm' = predictions (model_manager s) ++ [row] /\
    p_prediction row = prediction raw /\
    p_confidence row = confidence raw /\
    prediction result = minimum_reasonable_price /\
    prediction result <> p_prediction row /\
    confidence result = PrimFloat.mul (p_confidence row) one_half.
Proof.
  intros Hi Hs Hp Hneg.
  destruct (predict_returned _ _ _ _ _ Hp) as (Hmm & _).
  unfold predict_house_price.
  rewrite Hi, Hs. cbv zeta. cbn [negb]. rewrite Hp.
  eexists _, (logged_row _ raw). split; [reflexivity|].
  split; [rewrite Hmm; reflexivity|].
  unfold clamp. rewrite Hneg. cbn.
  repeat split. intros E. symmetry in E.
  exact (negative_is_not_the_floor _ Hneg E).
Qed.

End Claims.

Section PerformanceWindow.
Context `{Libraries}.

Lemma group_by_version_stored (kept : list PredictionRecord) :
  group_by_version (map stored kept) =
  map (fun v =>
         {| version := v;
            prediction_count :=
              Z.of_nat (length (List.filter
                                  (fun r => bool_decide (made_by r = v)) kept));
            avg_confidence :=
              sql_avg (map confidence_score
                         (List.filter
                            (fun r => bool_decide (made_by r = v)) kept)) |})
      (remove_dups (map made_by kept)).
Proof.
  unfold group_by_version. rewrite map_map. cbn [stored p_model_version].
  apply map_ext. intros v. rewrite filter_version_stored.
  rewrite length_map, map_map. reflexivity.
Qed.

(** C6. Over a log whose rows are the stored form of prediction records,
    [get_model_performance now days] has one entry per version that has a
    record strictly later than [now - days]; the entry holds the number of
    those records and the mean of their confidences, and the total is the
    number of all records strictly later than the cutoff.  A record made
    exactly at the cutoff, or earlier, is not counted.  (The query tests no
    upper end: with records made no later than [now], the window is the
    interval from the cutoff, excluded, to [now].) *)
Theorem performance_counts_window (now : datetime) (days : Z)
    (mm : ModelManager) (log : list PredictionRecord) :
  predictions mm = map stored log ->
  Forall (fun r => valid_datetime (made_at r)) log ->
  valid_datetime (minus_days now days) ->
  (forall m, In m (models (get_model_performance now days mm)) ->
     window_of_version (minus_days now days) (version m) log <> [] /\
     prediction_count m =
       Z.of_nat (length (window_of_version (minus_days now days)
                           (version m) log)) /\
     avg_confidence m =
       sql_avg (map confidence_score
                  (window_of_version (minus_days now days) (version m) log))) /\
  (forall v, window_of_version (minus_days now days) v log <> [] ->
     exists m, In m (models (get_model_performance now days mm)) /\
               version m = v) /\
  NoDup (map version (models (get_model_performance now days mm))) /\
  total_predictions (get_model_performance now days mm) =
    Z.of_nat (length (List.filter (in_window (minus_days now days)) log)) /\
  (forall r, In r (window_of_version (minus_days now days) (made_by r) log) <->
             In r log /\
             datetime_compare (minus_days now days) (made_at r) = Lt) /\
  (forall r, made_at r = minus_days now days ->
             ~ In r (window_of_version (minus_days now days) (made_by r) log)).
Proof.
  intros Hlog Hvalid Hcut.
  set (cutoff := minus_days now days) in *.
  set (kept := List.filter (in_window cutoff) log).
  assert (Hw : forall v, window_of_version cutoff v log =
                         List.filter (fun r => bool_decide (made_by r = v)) kept).
  { intros v. unfold window_of_version, kept. now rewrite filter_filter. }
  assert (Hmodels : models (get_model_performance now days mm) =
                    map (fun v =>
                           {| version := v;
                              prediction_count :=
                                Z.of_nat (length (window_of_version cutoff v log));
                              avg_confidence :=
                                sql_avg (map confidence_score
                                           (window_of_version cutoff v log)) |})
                        (remove_dups (map made_by kept))).
  { unfold get_model_performance. cbn [models]. fold cutoff.
    rewrite Hlog, rows_after_stored by assumption. fold kept.
    rewrite group_by_version_stored. apply map_ext. intros v.
    now rewrite Hw. }
  assert (Hkey : forall v, v ∈ remove_dups (map made_by kept) <->
                           window_of_version cutoff v log <> []).
  { intros v. rewrite elem_of_remove_dups, list_elem_of_In, in_map_iff, Hw.
    split.
    - intros (r & Hr & Hin) E.
      assert (Hf : In r (List.filter (fun r => bool_decide (made_by r = v)) kept)).
      { apply filter_In. split; [assumption|]. now apply bool_decide_eq_true_2. }
      rewrite E in Hf. destruct Hf.
    - intros Hne.
      destruct (List.filter (fun r => bool_decide (made_by r = v)) kept)
        as [|r l] eqn:E; [congruence|].
      assert (Hf : In r (List.filter (fun r => bool_decide (made_by r = v)) kept))
        by (rewrite E; now left).
      apply filter_In in Hf as [Hin Hb]. apply bool_decide_eq_true_1 in Hb.
      exists r. split; assumption. }
  split_conj.
  - intros m Hm. rewrite Hmodels in Hm. apply in_map_iff in Hm as (v & <- & Hv).
    cbn [version prediction_count avg_confidence].
    split_conj; try reflexivity.
    apply Hkey, list_elem_of_In, Hv.
  - intros v Hv. apply Hkey, list_elem_of_In in Hv.
    eexists. split; [rewrite Hmodels; apply in_map_iff; eexists; split;
                     [reflexivity | exact Hv] | reflexivity].
  - rewrite Hmodels, map_map. cbn [version]. rewrite map_id.
    apply NoDup_remove_dups.
  - unfold get_model_performance at 1. cbn [total_predictions].
    change (group_by_version _)
      with (models (get_model_performance now days mm)).
    rewrite fold_left_zsum, Hmodels, zsum_map. cbn [prediction_count].
    rewrite Z.add_0_l.
    rewrite (zsum_ext _ (fun v => Z.of_nat (length (List.filter
               (fun r => bool_decide (made_by r = v)) kept)))).
    + apply zsum_group_sizes; [apply NoDup_remove_dups|].
      intros x Hx. apply elem_of_remove_dups, list_elem_of_In, in_map.
      now apply list_elem_of_In.
    + intros v. now rewrite Hw.
  - intros r. unfold window_of_version. rewrite filter_In.
    unfold in_window, datetime_ltb.
    rewrite bool_decide_eq_true_2 by reflexivity. rewrite andb_true_r.
    destruct (datetime_compare cutoff (made_at r)); intuition congruence.
  - intros r Hr Hin. unfold window_of_version in Hin.
    apply filter_In in Hin as [_ Hb]. unfold in_window in Hb.
    rewrite Hr, datetime_ltb_irrefl in Hb. discriminate.
Qed.
End PerformanceWindow.

(** ** The life cycle around the claims *)

Section Lifecycle.
Context `{Libraries}.

Lemma current_model_none_step e mm :
  is_deploy e = false -> current_model mm = None ->
  current_model (step e mm) = None.
Proof.
  destruct e as [t1 t2 Xa ya Xb yb|v|now X l|t c|v|v|];
    cbn [is_deploy step]; intros He Hm; try discriminate; try assumption.
  - unfold train_new_model.
    destruct (RandomForestRegressor_fit Xa ya) as [model|]; [|done].
    destruct (model_predict model Xb) as [y_pred|]; [|done].
    destruct (sk_r2_score _ y_pred) as [score|] eqn:Escore; [|done].
    destruct (mean_squared_error _ y_pred) as [mse|] eqn:Emse; [|done].
    cbn [model_versions with_json with_pkl].
    destruct (model_versions mm !! strftime_version t1); exact Hm.
  - unfold predict. rewrite Hm. exact Hm.
  - reflexivity.
Qed.

(** Before any call of [deploy_model], whatever else has happened,
    [predict] raises [ValueError("No model deployed")] and changes nothing. *)
Theorem predict_before_any_deploy (es : list event) (now : datetime)
    (features : matrix) (log_prediction : bool) :
  forallb (fun e => negb (is_deploy e)) es = true ->
  predict now features log_prediction (run es ModelManager_init) =
    (Raised (ValueError "No model deployed"), run es ModelManager_init).
Proof.
  intros Hes.
  assert (Hnone : current_model (run es ModelManager_init) = None).
  { assert (Hinit : current_model ModelManager_init = None) by reflexivity.
    revert Hes Hinit. generalize ModelManager_init.
    induction es as [|e es IH]; intros mm Hes Hm; [exact Hm|].
    cbn in Hes. apply andb_true_iff in Hes as [He Hes].
    apply negb_true_iff in He.
    cbn. apply IH; [exact Hes|]. now apply current_model_none_step. }
  unfold predict. now rewrite Hnone.
Qed.

(** After a successful [deploy_model v], [predict] on features the model
    accepts returns the model's first prediction, its confidence, the
    version [v] and the text of the clock reading, and appends the same
    values to the prediction log. *)
Theorem predict_after_deploy (v : string) (mm mm1 : ModelManager)
    (now : datetime) (features : matrix) :
  deploy_model v mm = (Returned true, mm1) ->
  exists model,
    current_model mm1 = Some model /\
    forall p ps,
      model_predict model features = Some (p :: ps) ->
      exists result,
        predict now features true mm1 =
          (Returned result,
           with_predictions (predictions mm1 ++ [logged_row features result])
             mm1) /\
        prediction result = p /\
        model_version result = Some v /\
        timestamp result = isoformat now.
Proof.
  intros Hd. pose proof (deploy_model_cases v mm) as Hc. rewrite Hd in Hc.
  inversion Hc as [| | |model md Hp Hj]; subst.
  exists model. split; [reflexivity|].
  intros p ps Hpred. unfold predict.
  cbn [current_model with_model_versions with_current_version
       with_model_metadata with_current_model].
  rewrite Hpred.
  exists {| prediction := p;
            confidence :=
              match feature_importances_ model with
              | Some importances => np_mean importances
              | None => default_confidence
              end;
            model_version := Some v;
            timestamp := isoformat now;
            input := None |}.
  repeat split.
Qed.

(** Two training calls whose first clock readings fall in the same second
    compute the same version identifier, and the second call does not
    return: when training and evaluation go through, it raises
    [IntegrityError] on the primary key. *)
Theorem same_second_collision (t1 t1' t2 t2' : datetime)
    (X1 X1' X2 X2' : matrix) (y1 y1' y2 y2' : vector)
    (mm mm1 : ModelManager) (v : string) :
  same_second t1 t2 ->
  train_new_model t1 t1' X1 y1 X1' y1' mm = (Returned v, mm1) ->
  strftime_version t2 = v /\
  forall v', fst (train_new_model t2 t2' X2 y2 X2' y2' mm1) <> Returned v'.
Proof.
  intros (Ey & Em & Ed & EH & EM & ES) Ht.
  destruct (train_new_model_returned _ _ _ _ _ _ _ _ _ Ht)
    as (Hv & _ & row & md & model1 & Htab & _).
  assert (Hsame : strftime_version t2 = v).
  { rewrite Hv. unfold strftime_version. now rewrite Ey, Em, Ed, EH, EM, ES. }
  split; [exact Hsame|]. intros v'. unfold train_new_model.
  destruct (RandomForestRegressor_fit X2 y2) as [model|]; [|discriminate].
  destruct (model_predict model X2') as [y_pred|]; [|discriminate].
  destruct (sk_r2_score _ y_pred) as [score|] eqn:Escore; [|discriminate].
  destruct (mean_squared_error _ y_pred) as [mse|] eqn:Emse; [|discriminate].
  cbn [model_versions with_json with_pkl].
  rewrite Hsame, Htab, lookup_insert_eq. discriminate.
Qed.
End Lifecycle.

(** ** The properties on concrete histories *)

(** C1 as stated fails.  On [busy] the health check records an alert.  In
    the middle of a deploy of the second version over the first, after the
    first [UPDATE], both versions are active, and the alert of the monitor
    thread at that moment commits this state.  And for a version whose
    files exist and that has no row in the store, [deploy_model] returns
    [True] and no version is active. *)
Lemma deploy_two_active_between_updates :
  _check_model_health (H := demo_libraries) (noon 55 0) (noon 55 1)
    MLMonitor_init busy
    = with_model_performance (model_performance busy ++ [demo_alert]) busy /\
  status_of busy v0 = Some active /\
  status_of busy v1 = Some trained /\
  status <$> db_model_versions
               (committed
                  (execute_all
                     [UpdateSetActive v1; InsertAlert demo_alert; Commit]
                     (connection_of busy))) !! v0
    = Some active /\
  status <$> db_model_versions
               (committed
                  (execute_all
                     [UpdateSetActive v1; InsertAlert demo_alert; Commit]
                     (connection_of busy))) !! v1
    = Some active /\
  fst (deploy_model v0 orphaned) = Returned true /\
  model_versions (snd (deploy_model v0 orphaned)) = ∅.
Proof. split_conj; by_evaluation. Qed.

(** C1 as amended, on a deploy of the second version over the first with
    the alert of the monitor thread between the two [UPDATE]s. *)
Lemma deploy_exactly_one_active_witness :
  fst (deploy_model v1 busy) = Returned true /\
  is_active (snd (deploy_model v1 busy)) v1 /\
  current_version (snd (deploy_model v1 busy)) = Some v1 /\
  db_model_versions (committed (execute_all demo_moves (connection_of busy)))
    = model_versions (snd (deploy_model v1 busy)).
Proof.
  destruct (deploy_exactly_one_active (H := demo_libraries) [] v1
              busy (snd (deploy_model v1 busy)) [demo_alert] demo_moves)
    as (Hcur & _ & Hone & _ & _ & _ & Hdisk & _).
  - by_evaluation.
  - apply interleaving_left, interleaving_right, interleaving_right,
      interleaving_left, interleaving_left, interleaving_nil.
  - split; [by_evaluation|]. split.
    + apply Hone; [|reflexivity].
      apply (store_inv_run (H := demo_libraries)), store_inv_init.
    + split; [exact Hcur | exact Hdisk].
Defined.

(** C2 as stated fails.  With no file for the version, [deploy_model]
    returns [False] where an error was to reach the caller; and when the
    model file loads and the metadata file does not, it returns [False]
    again and the in-memory model is no longer the one that was deployed
    (it predicted 1, it now predicts 2). *)
Lemma deploy_failure_counterexample :
  deploy_model v0 ModelManager_init = (Returned false, ModelManager_init) /\
  fst (deploy_model v1 second_unreadable) = Returned false /\
  predicts_on_empty_row 1 (current_model second_unreadable) = true /\
  predicts_on_empty_row 2
    (current_model (snd (deploy_model v1 second_unreadable))) = true /\
  current_model (snd (deploy_model v1 second_unreadable)) <>
  current_model second_unreadable.
Proof.
  assert (E1 : predicts_on_empty_row 1 (current_model second_unreadable)
               = true) by by_evaluation.
  assert (E2 : predicts_on_empty_row 1
                 (current_model (snd (deploy_model v1 second_unreadable)))
               = false) by by_evaluation.
  split_conj; try by_evaluation.
  intros E. rewrite E in E2. congruence.
Qed.

(** C2 as amended, on a version whose model file does not load. *)
Lemma deploy_failure_returns_false_witness :
  fst (deploy_model v0 pkl_unreadable) = Returned false /\
  snd (deploy_model v0 pkl_unreadable) = pkl_unreadable.
Proof.
  destruct (deploy_failure_returns_false v0 pkl_unreadable
              (snd (deploy_model v0 pkl_unreadable))
              (fst (deploy_model v0 pkl_unreadable)))
    as (Hfalse & _ & Hsame).
  - by_evaluation.
  - intros E. vm_compute in E. discriminate.
  - split; [exact Hfalse|]. apply Hsame. right. right. by_evaluation.
Defined.

(** C3 at the boundary: the deployed version scores [r2_090], the retrained
    one exactly [r2_090 + 0.02]; it is recorded as [trained], its identifier
    is returned, and the current version stays. *)
Lemma retrain_deploy_policy_witness :
  exists row,
    model_versions
      (snd (train_new_model (H := demo_libraries) (noon 5 0) (noon 5 10)
              demo_X [1%float] demo_X [boundary_r2]
              (model_manager (demo_system demo_libraries 1 r2_090))))
      !! "20250315_120005" = Some row /\
    status row = trained /\
    r2_score row = boundary_r2 /\
    fst (retrain_model (H := demo_libraries) (demo_data 1 boundary_r2)
           (noon 5 0) (noon 5 10) (demo_system demo_libraries 1 r2_090))
      = Returned "20250315_120005" /\
    current_version
      (model_manager
         (snd (retrain_model (H := demo_libraries) (demo_data 1 boundary_r2)
                 (noon 5 0) (noon 5 10)
                 (demo_system demo_libraries 1 r2_090))))
      = Some v0.
Proof.
  destruct (retrain_deploy_policy (H := demo_libraries)
              demo_X demo_X [1%float] [boundary_r2] (noon 5 0) (noon 5 10)
              (demo_system demo_libraries 1 r2_090) tt v0
              "20250315_120005"
              (snd (train_new_model (H := demo_libraries) (noon 5 0) (noon 5 10)
                      demo_X [1%float] demo_X [boundary_r2]
                      (model_manager (demo_system demo_libraries 1 r2_090)))))
    as (row & Hrow & Hst & Hcv & _ & _ & Hfst & _ & _ & _ & _ & Heq).
  - reflexivity.
  - by_evaluation.
  - discriminate.
  - by_evaluation.
  - assert (Hr : r2_score row = boundary_r2).
    { vm_compute in Hrow. inversion Hrow. reflexivity. }
    exists row. split; [exact Hrow|]. split; [exact Hst|]. split; [exact Hr|].
    split; [exact Hfst|].
    assert (Hb : r2_score row =
                 PrimFloat.add
                   (current_r2 (model_manager (demo_system demo_libraries 1 r2_090)))
                   improvement_threshold).
    { rewrite Hr. by_evaluation. }
    exact (eq_trans
             (f_equal (fun s => current_version (model_manager s)) (Heq Hb))
             Hcv).
Defined.

(** C4 on a model that predicts -10 with confidence 1/3: the caller gets
    50000 and 1/6. *)
Lemma predict_house_price_clamps_witness :
  exists result,
    predict_house_price (H := demo_libraries) 2500 3 5 (noon 2 0)
      (demo_system demo_libraries (-10) r2_090)
    = (Returned result,
       with_model_manager
         (snd (predict (H := demo_libraries) (noon 2 0) demo_X true
                 (model_manager (demo_system demo_libraries (-10) r2_090))))
         (demo_system demo_libraries (-10) r2_090)) /\
    prediction result = minimum_reasonable_price /\
    PrimFloat.eqb (confidence result) 0x1.5555555555555p-3 = true.
Proof.
  destruct (predict_house_price_clamps (H := demo_libraries) 2500 3 5 (noon 2 0)
              (demo_system demo_libraries (-10) r2_090) tt
              {| prediction := (-10)%float;
                 confidence := arithmetic_mean [0.5; 0.25; 0.25]%float;
                 model_version := Some v0;
                 timestamp := isoformat (noon 2 0);
                 input := None |}
              (snd (predict (H := demo_libraries) (noon 2 0) demo_X true
                      (model_manager
                         (demo_system demo_libraries (-10) r2_090)))))
    as (result & Hres & Hneg & _).
  - reflexivity.
  - reflexivity.
  - by_evaluation.
  - exists result. split; [exact Hres|].
    destruct Hneg as [Hp Hc]; [by_evaluation|].
    split; [exact Hp|]. rewrite Hc. by_evaluation.
Defined.

(** C5 on a concrete history: the metadata file of the only trained version
    is unreadable, [deploy_model] returns [False] and leaves the version
    [trained], and yet [predict] then returns a result, with no version
    attached to it. *)
Lemma predict_after_failed_deploy :
  current_model first_unreadable = None /\
  current_version first_unreadable = None /\
  fst (deploy_model v0 first_unreadable) = Returned false /\
  status_of (snd (deploy_model v0 first_unreadable)) v0 = Some trained /\
  exists result,
    fst (predict (H := demo_libraries) (noon 2 0) demo_X true
           (snd (deploy_model v0 first_unreadable))) = Returned result /\
    model_version result = None /\
    PrimFloat.eqb (prediction result) 1 = true.
Proof.
  split_conj; try by_evaluation.
  eexists. split_conj; by_evaluation.
Qed.

(** C7 as stated fails: the second version is [trained] and was never
    deployed; deploying the first makes it [inactive]. *)
Lemma deploy_demotes_never_deployed_version :
  status_of two_trained v1 = Some trained /\
  fst (deploy_model v0 two_trained) = Returned true /\
  status_of (snd (deploy_model v0 two_trained)) v0 = Some active /\
  status_of (snd (deploy_model v0 two_trained)) v1 = Some inactive.
Proof. split_conj; by_evaluation. Qed.

(** C7 as amended, on the same history. *)
Lemma deploy_sets_all_others_inactive_witness :
  model_versions (snd (deploy_model v0 two_trained)) !! v1 =
    (if decide (v1 = v0) then set_status active else set_status inactive)
      <$> model_versions two_trained !! v1.
Proof.
  apply (deploy_sets_all_others_inactive v0 v1 two_trained).
  by_evaluation.
Defined.

(** C8 as stated fails: a second [start_monitoring] on a Running monitor
    leaves two periodic checkers running. *)
Lemma second_start_adds_a_checker :
  monitoring (start_monitoring MLMonitor_init) = true /\
  running_checkers (start_monitoring MLMonitor_init) = 1%nat /\
  monitoring (start_monitoring (start_monitoring MLMonitor_init)) = true /\
  running_checkers (start_monitoring (start_monitoring MLMonitor_init)) = 2%nat.
Proof. split_conj; by_evaluation. Qed.

(** C9 on a concrete history: two training calls whose clock readings fall
    in the same second get the same identifier; the second call replaces
    the model file of the first (which predicted 1) by its own (which
    predicts 2) and then fails on the primary key, leaving one row. *)
Lemma same_second_training_collides :
  strftime_version (noon 0 100000) = v0 /\
  strftime_version (noon 0 900000) = v0 /\
  fst trained_once = Returned v0 /\
  predicts_on_empty_row 1 (model_on_disk (snd trained_once) v0) = true /\
  fst trained_twice =
    Raised (IntegrityError "UNIQUE constraint failed: model_versions.version") /\
  predicts_on_empty_row 2 (model_on_disk (snd trained_twice) v0) = true /\
  size (model_versions (snd trained_twice)) = 1%nat.
Proof. split_conj; by_evaluation. Qed.

(** C10 as stated fails: with all feature importances zero the confidence
    is 0, and for a negative prediction the logged confidence and the
    returned one are the same number. *)
Lemma logged_confidence_equals_returned :
  exists result row,
    fst (predict_house_price (H := stump_libraries) 2500 3 5 (noon 2 0)
           (demo_system stump_libraries (-10) r2_090)) = Returned result /\
    last (predictions
            (model_manager
               (snd (predict_house_price (H := stump_libraries) 2500 3 5
                       (noon 2 0)
                       (demo_system stump_libraries (-10) r2_090)))))
      = Some row /\
    PrimFloat.ltb (p_prediction row) fzero = true /\
    prediction result = minimum_reasonable_price /\
    p_confidence row = confidence result.
Proof.
  eexists _, _. split_conj; by_evaluation.
Qed.

(** C10 as amended, on a model that predicts -10. *)
Lemma negative_prediction_logged_raw_witness :
  exists result row,
    predict_house_price (H := demo_libraries) 2500 3 5 (noon 2 0)
      (demo_system demo_libraries (-10) r2_090)
    = (Returned result,
       with_model_manager
         (snd (predict (H := demo_libraries) (noon 2 0) demo_X true
                 (model_manager (demo_system demo_libraries (-10) r2_090))))
         (demo_system demo_libraries (-10) r2_090)) /\
    predictions
      (snd (predict (H := demo_libraries) (noon 2 0) demo_X true
              (model_manager (demo_system demo_libraries (-10) r2_090))))
    = predictions (model_manager (demo_system demo_libraries (-10) r2_090))
        ++ [row] /\
    PrimFloat.eqb (p_prediction row) (-10) = true /\
    prediction result = minimum_reasonable_price /\
    prediction result <> p_prediction row /\
    confidence result = PrimFloat.mul (p_confidence row) one_half.
Proof.
  destruct (negative_prediction_logged_raw (H := demo_libraries) 2500 3 5
              (noon 2 0) (demo_system demo_libraries (-10) r2_090) tt
              {| prediction := (-10)%float;
                 confidence := arithmetic_mean [0.5; 0.25; 0.25]%float;
                 model_version := Some v0;
                 timestamp := isoformat (noon 2 0);
                 input := None |}
              (snd (predict (H := demo_libraries) (noon 2 0) demo_X true
                      (model_manager (demo_system demo_libraries (-10) r2_090)))))
    as (result & row & Hres & Hlog & Hp & _ & Hfloor & Hdiff & Hconf).
  - reflexivity.
  - reflexivity.
  - by_evaluation.
  - by_evaluation.
  - exists result, row. split_conj; try assumption.
    rewrite Hp. by_evaluation.
Defined.

(** C6 on the week of [demo_week], queried on March 15 at noon with a
    window of 7 days: of the four logged predictions the one made exactly 7
    days before and the older one are left out. *)
Lemma performance_counts_window_witness :
  total_predictions
    (get_model_performance (H := demo_libraries) (noon 0 0) 7 demo_logged) = 2 /\
  map version
    (models (get_model_performance (H := demo_libraries) (noon 0 0) 7
               demo_logged)) = [Some v7; Some v14] /\
  map prediction_count
    (models (get_model_performance (H := demo_libraries) (noon 0 0) 7
               demo_logged)) = [1; 1].
Proof.
  destruct (performance_counts_window (H := demo_libraries) (noon 0 0) 7
              demo_logged demo_log) as (_ & _ & _ & Htotal & _).
  - by_evaluation.
  - repeat constructor; cbn; lia.
  - repeat split; cbn; lia.
  - split; [rewrite Htotal; by_evaluation|].
    split; by_evaluation.
Defined.

(** Before any deploy: a trained version, a damaged file, and [predict]
    raises. *)
Lemma predict_before_any_deploy_witness :
  predict (H := demo_libraries) (noon 2 0) demo_X true first_unreadable =
    (Raised (ValueError "No model deployed"), first_unreadable).
Proof.
  apply (predict_before_any_deploy (H := demo_libraries)
           [demo_train (noon 0 0) 1%float r2_090; DamageJson v0]).
  reflexivity.
Defined.

(** After a successful deploy the in-memory model is the deployed one. *)
Lemma predict_after_deploy_witness :
  exists model,
    current_model (snd (deploy_model v0 two_trained)) = Some model /\
    PrimFloat.eqb (hd fzero (default [] (model_predict model demo_X))) 1 = true.
Proof.
  destruct (predict_after_deploy (H := demo_libraries) v0 two_trained
              (snd (deploy_model v0 two_trained)) (noon 2 0) demo_X)
    as (model & Hm & _).
  - by_evaluation.
  - exists model. split; [exact Hm|].
    assert (E : current_model (snd (deploy_model v0 two_trained))
                = Some (constant_model 1 (Some [0.5; 0.25; 0.25]%float)))
      by by_evaluation.
    rewrite E in Hm. inversion Hm. by_evaluation.
Defined.

(** The collision of [trained_once] and [trained_twice]. *)
Lemma same_second_collision_witness :
  strftime_version (noon 0 900000) = v0 /\
  fst trained_twice <> Returned v0.
Proof.
  destruct (same_second_collision (H := demo_libraries)
              (noon 0 100000) (noon 0 100500) (noon 0 900000) (noon 0 900500)
              demo_X demo_X demo_X demo_X [1%float] [r2_090] [2%float] [r2_090]
              ModelManager_init (snd trained_once) v0) as [Hv Hno].
  - repeat split.
  - by_evaluation.
  - split; [exact Hv | apply Hno].
Defined.

(** * The rest of the program *)

(** ** What a history changes and what it keeps *)

Section HistoryFacts.
Context `{Libraries}.

(** What a training call leaves behind, whether it returns or raises. *)
Lemma train_new_model_effect t1 t2 Xa ya Xb yb mm :
  let mm' := snd (train_new_model t1 t2 Xa ya Xb yb mm) in
  let v := strftime_version t1 in
  predictions mm' = predictions mm /\
  model_performance mm' = model_performance mm /\
  current_model mm' = current_model mm /\
  current_version mm' = current_version mm /\
  model_metadata mm' = model_metadata mm /\
  (model_versions mm' = model_versions mm \/
   model_versions mm !! v = None /\
   exists row, status row = trained /\
               model_versions mm' = <[v := row]> (model_versions mm)) /\
  (models_dir_json mm' = models_dir_json mm \/
   exists md, md_version md = v /\
              models_dir_json mm' = <[v := Loadable md]> (models_dir_json mm)).
Proof.
  cbv zeta. unfold train_new_model.
  destruct (RandomForestRegressor_fit Xa ya) as [model|];
    [|cbn; repeat split; auto].
  destruct (model_predict model Xb) as [y_pred|]; [|cbn; repeat split; auto].
  destruct (sk_r2_score _ y_pred) as [score|] eqn:Escore;
    [|cbn; repeat split; auto].
  destruct (mean_squared_error _ y_pred) as [mse|] eqn:Emse;
    [|cbn; repeat split; auto].
  cbn [model_versions with_json with_pkl].
  destruct (model_versions mm !! strftime_version t1) eqn:E; cbn.
  - split_conj; try reflexivity; [left; reflexivity|].
    right. eexists. split; [|reflexivity]. reflexivity.
  - split_conj; try reflexivity.
    + right. split; [reflexivity|]. eexists. split; [|reflexivity]. reflexivity.
    + right. eexists. split; [|reflexivity]. reflexivity.
Qed.

Lemma step_logs_grow e mm :
  (exists rows, predictions (step e mm) = predictions mm ++ rows) /\
  (exists alerts,
     model_performance (step e mm) = model_performance mm ++ alerts /\
     Forall (fun a => a_metric_name a = "confidence_alert"%string) alerts).
Proof.
  destruct e as [t1 t2 Xa ya Xb yb|v|now X l|t c|v|v|]; cbn [step].
  - destruct (train_new_model_effect t1 t2 Xa ya Xb yb mm) as (-> & -> & _).
    split; exists []; rewrite app_nil_r; auto.
  - destruct (deploy_model_cases v mm); cbn;
      (split; exists []; rewrite app_nil_r; auto).
  - unfold predict.
    destruct (current_model mm) as [model|];
      [|cbn; split; exists []; rewrite app_nil_r; auto].
    destruct (model_predict model X) as [[|raw rest]|];
      try (cbn; split; exists []; rewrite app_nil_r; auto; fail).
    destruct l; cbn.
    + split; [eexists; reflexivity | exists []; rewrite app_nil_r; auto].
    + split; exists []; rewrite app_nil_r; auto.
  - cbn. split; [exists []; now rewrite app_nil_r|].
    eexists. split; [reflexivity|]. repeat constructor.
  - cbn. split; exists []; rewrite app_nil_r; auto.
  - cbn. split; exists []; rewrite app_nil_r; auto.
  - cbn. split; exists []; rewrite app_nil_r; auto.
Qed.

Lemma step_keeps_rows e mm v r :
  model_versions mm !! v = Some r ->
  exists r', model_versions (step e mm) !! v = Some r' /\
             same_metrics r r' /\
             (status r <> trained -> status r' <> trained).
Proof.
  intros Hr.
  assert (Hsame : exists r', model_versions mm !! v = Some r' /\
                             same_metrics r r' /\
                             (status r <> trained -> status r' <> trained)).
  { exists r. repeat split; auto. }
  destruct e as [t1 t2 Xa ya Xb yb|w|now X l|t c|w|w|]; cbn [step];
    try exact Hsame.
  - destruct (train_new_model_effect t1 t2 Xa ya Xb yb mm)
      as (_ & _ & _ & _ & _ & [->|(Hfresh & row & _ & ->)] & _);
      [exact Hsame|].
    rewrite lookup_insert_ne by congruence. exact Hsame.
  - destruct (deploy_model_cases w mm); cbn [snd]; try exact Hsame.
    cbn. rewrite lookup_update_status_on_deploy, Hr.
    eexists. split; [reflexivity|].
    destruct (decide (v = w)); cbn; repeat split; intros _; discriminate.
  - unfold predict. destruct (current_model mm) as [model|]; [|exact Hsame].
    destruct (model_predict model X) as [[|raw rest]|]; try exact Hsame.
    destruct l; exact Hsame.
Qed.

Lemma memory_inv_step e mm :
  files_recorded mm -> memory_inv mm -> memory_inv (step e mm).
Proof.
  intros Hrec [Hfile Hcur].
  destruct e as [t1 t2 Xa ya Xb yb|w|now X l|t c|w|w|]; cbn [step].
  - destruct (train_new_model_effect t1 t2 Xa ya Xb yb mm)
      as (_ & _ & _ & Ecv & Emd & Htab & Hjson).
    split.
    + intros v md. destruct Hjson as [->|(md' & Hv & ->)]; [apply Hfile|].
      destruct (decide (v = strftime_version t1)) as [->|Hne].
      * rewrite lookup_insert_eq. intros E. inversion E; subst. exact Hv.
      * rewrite lookup_insert_ne by congruence. apply Hfile.
    + intros v Hv. rewrite Ecv in Hv. destruct (Hcur v Hv) as [Hact Hmd].
      split; [|now rewrite Emd].
      destruct Hact as (r & Hr & Hs). unfold is_active.
      destruct Htab as [->|(Hfresh & row & _ & ->)]; [eauto|].
      rewrite lookup_insert_ne by congruence. eauto.
  - destruct (deploy_model_cases w mm) as [| | |model md Hp Hj]; cbn [snd];
      try (split; assumption).
    split; [exact Hfile|]. intros v Hv. cbn in Hv. inversion Hv; subst.
    split.
    + apply is_active_after_deploy. split; [reflexivity|].
      apply Hrec. rewrite Hj. eauto.
    + exists md. split; [reflexivity|]. now apply Hfile.
  - unfold predict. destruct (current_model mm) as [model|];
      [|split; assumption].
    destruct (model_predict model X) as [[|raw rest]|]; try (split; assumption).
    destruct l; split; assumption.
  - split; assumption.
  - split; assumption.
  - split; [|exact Hcur]. intros v md. cbn. rewrite lookup_alter.
    case_decide; [subst|apply Hfile].
    destruct (models_dir_json mm !! v); cbn; discriminate.
  - split; [exact Hfile|]. intros v Hv. discriminate.
Qed.

Lemma memory_inv_run es : forall mm,
  store_inv mm -> memory_inv mm -> memory_inv (run es mm).
Proof.
  induction es as [|e es IH]; intros mm Hs Hm; [exact Hm|].
  cbn. apply IH; [now apply store_inv_step|].
  apply memory_inv_step; [apply Hs | exact Hm].
Qed.

Lemma memory_inv_init : memory_inv ModelManager_init.
Proof.
  split.
  - intros v md E. cbn in E. now rewrite lookup_empty in E.
  - intros v E. discriminate.
Qed.

Lemma run_cons e es mm : run (e :: es) mm = run es (step e mm).
Proof. reflexivity. Qed.

(** The two logs only grow: whatever happens to a manager -- training,
    deploys, predictions, alerts, damaged files, restarts -- the rows of
    [predictions] and of [model_performance] it started with stay where
    they are, new rows come after them, and every new row of
    [model_performance] is a [confidence_alert]. *)
Theorem logs_are_append_only (es : list event) (mm : ModelManager) :
  (exists rows, predictions (run es mm) = predictions mm ++ rows) /\
  (exists alerts,
     model_performance (run es mm) = model_performance mm ++ alerts /\
     Forall (fun a => a_metric_name a = "confidence_alert"%string) alerts).
Proof.
  revert mm. induction es as [|e es IH]; intros mm.
  - split; exists []; rewrite app_nil_r; auto.
  - rewrite run_cons.
    destruct (IH (step e mm)) as [(rows & Hp) (alerts & Ha & Hn)].
    destruct (step_logs_grow e mm) as [(rows0 & Hp0) (alerts0 & Ha0 & Hn0)].
    split.
    + exists (rows0 ++ rows). now rewrite Hp, Hp0, app_assoc.
    + exists (alerts0 ++ alerts). split.
      * now rewrite Ha, Ha0, app_assoc.
      * apply Forall_app. split; assumption.
Qed.

(** A recorded version is never deleted and its metrics are never
    rewritten: after any history the row of the version is still there
    with the creation time, R², RMSE and sample count it was recorded
    with; only its status can differ. *)
Theorem recorded_metrics_never_change (es : list event) (mm : ModelManager)
    (v : string) (r : VersionRow) :
  model_versions mm !! v = Some r ->
  exists r', model_versions (run es mm) !! v = Some r' /\ same_metrics r r'.
Proof.
  revert mm r. induction es as [|e es IH]; intros mm r Hr.
  - exists r. repeat split; auto.
  - rewrite run_cons.
    destruct (step_keeps_rows e mm v r Hr) as (r1 & H1 & M1 & _).
    destruct (IH _ _ H1) as (r2 & H2 & M2).
    exists r2. split; [exact H2|].
    destruct M1 as (?&?&?&?), M2 as (?&?&?&?). repeat split; congruence.
Qed.

(** The status [trained] is only the status of a version no deploy
    has touched: once the store says [active] or [inactive] for a version,
    it never says [trained] for it again. *)
Theorem status_never_back_to_trained (es : list event) (mm : ModelManager)
    (v : string) (s : Status) :
  status_of mm v = Some s -> s <> trained ->
  exists s', status_of (run es mm) v = Some s' /\ s' <> trained.
Proof.
  unfold status_of. revert mm s. induction es as [|e es IH]; intros mm s Hs Hn.
  - eauto.
  - rewrite run_cons.
    destruct (model_versions mm !! v) as [r|] eqn:Hr; [|discriminate].
    cbn in Hs. inversion Hs; subst.
    destruct (step_keeps_rows e mm v r Hr) as (r1 & H1 & _ & S1).
    apply (IH (step e mm) (status r1)); [now rewrite H1 | auto].
Qed.

(** What [get_system_status] reports as the current version is, in
    every state a manager can reach, a version that is active in the
    store, and the metadata it reports is the metadata of that version. *)
Theorem status_reports_active_version (es : list event)
    (s : ProductionMLSystem) (now_query now_uptime : datetime) (v : string) :
  model_manager s = run es ModelManager_init ->
  current_model_version (get_system_status now_query now_uptime s) = Some v ->
  is_active (model_manager s) v /\
  exists md,
    reported_metadata (get_system_status now_query now_uptime s) = Some md /\
    md_version md = v.
Proof.
  intros Hs Hv. cbn in Hv |- *.
  destruct (memory_inv_run es ModelManager_init store_inv_init memory_inv_init)
    as [_ Hcur].
  rewrite Hs in *. exact (Hcur v Hv).
Qed.
End HistoryFacts.

(** ** Training, deploying and predicting in sequence *)

Section OperationFacts.
Context `{Libraries}.

Lemma update_status_on_deploy_twice v (t : gmap string VersionRow) :
  update_status_on_deploy v (update_status_on_deploy v t) =
  update_status_on_deploy v t.
Proof.
  apply map_eq. intros k. rewrite !lookup_update_status_on_deploy.
  destruct (t !! k) as [r|]; [|reflexivity]. cbn.
  destruct (decide (k = v)); reflexivity.
Qed.

(** A deploy of the version a training call has just returned goes
    through. *)
Lemma deploy_after_training t1 t2 X_train y_train X_test y_test mm v mm1 :
  train_new_model t1 t2 X_train y_train X_test y_test mm = (Returned v, mm1) ->
  exists model md,
    md_version md = v /\
    deploy_model v mm1 =
      (Returned true,
       with_model_versions (update_status_on_deploy v (model_versions mm1))
         (with_current_version (Some v)
            (with_model_metadata (Some md)
               (with_current_model (Some model) mm1)))).
Proof.
  unfold train_new_model.
  destruct (RandomForestRegressor_fit X_train y_train) as [model|]; [|discriminate].
  destruct (model_predict model X_test) as [y_pred|]; [|discriminate].
  destruct (sk_r2_score _ y_pred) as [score|] eqn:Escore; [|discriminate].
  destruct (mean_squared_error _ y_pred) as [mse|] eqn:Emse; [|discriminate].
  cbn [model_versions with_json with_pkl].
  destruct (model_versions mm !! strftime_version t1); [discriminate|].
  intros Heq. inversion Heq; subst. clear Heq.
  unfold deploy_model, deploy_model_try. cbn. rewrite !lookup_insert_eq.
  eexists _, _. split; [|reflexivity]. reflexivity.
Qed.

Lemma predict_raised now X l mm e :
  fst (predict now X l mm) = Raised e -> snd (predict now X l mm) = mm.
Proof.
  unfold predict. destruct (current_model mm) as [model|]; [|reflexivity].
  destruct (model_predict model X) as [[|raw rest]|]; try reflexivity.
  discriminate.
Qed.

(** Deploying the version that a deploy has just handled changes
    nothing more and gives the same answer, whether that deploy went
    through or failed. *)
Theorem deploy_model_idempotent (v : string) (mm : ModelManager) :
  deploy_model v (snd (deploy_model v mm)) = deploy_model v mm.
Proof.
  destruct (deploy_model_cases v mm) as [Hm|json Hp Hj|model Hp Hj|model md Hp Hj];
    cbn [snd].
  - unfold deploy_model, deploy_model_try.
    destruct Hm as [-> | Hj]; [reflexivity|]. rewrite Hj.
    now destruct (models_dir_pkl mm !! v).
  - unfold deploy_model, deploy_model_try. now rewrite Hp, Hj.
  - unfold deploy_model, deploy_model_try. cbn. now rewrite Hp, Hj.
  - unfold deploy_model, deploy_model_try. cbn. rewrite Hp, Hj. cbn.
    unfold with_model_versions. cbn.
    now rewrite update_status_on_deploy_twice.
Qed.

(** What was trained is what a deploy of the new version serves: the
    deploy succeeds, the model in memory is the fitted one, and the
    metadata in memory is the one written at training time -- the R² of
    the fitted model on the test set, the size of the training set, the
    second clock reading -- with the same metrics as the row of the store.
    The metadata still reads [trained] where the store says [active]. *)
Theorem train_then_deploy (t1 t2 : datetime) (X_train X_test : matrix)
    (y_train y_test : vector) (mm mm1 : ModelManager) (v : string) :
  train_new_model t1 t2 X_train y_train X_test y_test mm = (Returned v, mm1) ->
  exists model y_pred md row,
    RandomForestRegressor_fit X_train y_train = Some model /\
    model_predict model X_test = Some y_pred /\
    fst (deploy_model v mm1) = Returned true /\
    current_model (snd (deploy_model v mm1)) = Some model /\
    current_version (snd (deploy_model v mm1)) = Some v /\
    model_metadata (snd (deploy_model v mm1)) = Some md /\
    md_version md = v /\
    sk_r2_score y_test y_pred = Some (md_r2_score md) /\
    md_training_samples md = Z.of_nat (length X_train) /\
    md_created_at md = isoformat t2 /\
    md_status md = trained /\
    model_versions (snd (deploy_model v mm1)) !! v = Some row /\
    status row = active /\
    r2_score row = md_r2_score md /\
    rmse row = md_rmse md /\
    training_samples row = md_training_samples md /\
    created_at row = md_created_at md.
Proof.
  unfold train_new_model.
  destruct (RandomForestRegressor_fit X_train y_train) as [model|]; [|discriminate].
  destruct (model_predict model X_test) as [y_pred|] eqn:Ep; [|discriminate].
  destruct (sk_r2_score _ y_pred) as [score|] eqn:Escore; [|discriminate].
  destruct (mean_squared_error _ y_pred) as [mse|] eqn:Emse; [|discriminate].
  cbn [model_versions with_json with_pkl].
  destruct (model_versions mm !! strftime_version t1) eqn:E; [discriminate|].
  intros Heq. inversion Heq; subst. clear Heq.
  unfold deploy_model, deploy_model_try. cbn. rewrite !lookup_insert_eq. cbn.
  rewrite lookup_update_status_on_deploy, lookup_insert_eq. cbn.
  rewrite decide_True by reflexivity.
  eexists model, y_pred, _, _.
  split_conj; first [reflexivity | exact Ep | exact Escore].
Qed.

(** [predict] touches nothing but the prediction log: it answers the
    same with and without logging, leaves the manager as it was when it is
    not asked to log or when it raises, and otherwise appends the one row
    of its result. *)
Theorem predict_only_appends (now : datetime) (features : matrix)
    (mm : ModelManager) :
  fst (predict now features false mm) = fst (predict now features true mm) /\
  snd (predict now features false mm) = mm /\
  (forall e, fst (predict now features true mm) = Raised e ->
             snd (predict now features true mm) = mm) /\
  (forall result, fst (predict now features true mm) = Returned result ->
     snd (predict now features true mm) =
       with_predictions (predictions mm ++ [logged_row features result]) mm /\
     model_version result = current_version mm /\
     timestamp result = isoformat now).
Proof.
  unfold predict.
  destruct (current_model mm) as [model|];
    [|split_conj; try reflexivity; intros ? E; discriminate].
  destruct (model_predict model features) as [[|raw rest]|];
    try (split_conj; try reflexivity; intros ? E; discriminate; fail).
  cbn [fst snd]. split_conj; try reflexivity.
  - intros e E. discriminate.
  - intros result E. inversion E; subst. split_conj; reflexivity.
Qed.

(** [predict_house_price] never hands out a price below zero; it
    echoes its three inputs, logs one row -- holding the scaled features,
    not the inputs -- and leaves the rest of the system alone. *)
Theorem predict_house_price_not_negative (size bedrooms age : float)
    (now : datetime) (s s' : ProductionMLSystem) (result : Prediction) :
  predict_house_price size bedrooms age now s = (Returned result, s') ->
  PrimFloat.ltb (prediction result) fzero = false /\
  input result = Some (size, bedrooms, age) /\
  is_initialized s = true /\
  exists sc row,
    scaler s = Some sc /\
    s' = with_model_manager
           (with_predictions (predictions (model_manager s) ++ [row])
              (model_manager s)) s /\
    p_input_features row = StandardScaler_transform sc [[size; bedrooms; age]] /\
    p_timestamp row = timestamp result /\
    p_model_version row = model_version result.
Proof.
  unfold predict_house_price.
  destruct (is_initialized s) eqn:Hi; [|discriminate]. cbn [negb]. cbv zeta.
  destruct (scaler s) as [sc|] eqn:Hs; [|discriminate].
  destruct (predict now (StandardScaler_transform sc [[size; bedrooms; age]])
              true (model_manager s)) as [[raw|e] mm'] eqn:Hp; [|discriminate].
  intros Heq. inversion Heq; subst. clear Heq.
  destruct (predict_returned _ _ _ _ _ Hp) as (-> & _).
  split.
  { unfold clamp. cbn.
    destruct (PrimFloat.ltb (prediction raw) fzero) eqn:Hneg; cbn.
    - reflexivity.
    - exact Hneg. }
  split; [reflexivity|]. split; [reflexivity|].
  exists sc, (logged_row (StandardScaler_transform sc [[size; bedrooms; age]]) raw).
  split_conj; try reflexivity.
  - unfold clamp. now destruct (PrimFloat.ltb (prediction raw) fzero).
  - unfold clamp. now destruct (PrimFloat.ltb (prediction raw) fzero).
Qed.

(** With no version current -- as after an initialisation that
    failed -- [retrain_model] deploys what it has trained, whatever its
    R²: the deploy policy is not consulted. *)
Theorem retrain_without_current_version (X_train X_test : matrix)
    (y_train y_test : vector) (t1 t2 : datetime) (s : ProductionMLSystem)
    (sc : Scaler) (new_version : string) (mm1 : ModelManager) :
  scaler s = Some sc ->
  current_version (model_manager s) = None ->
  train_new_model t1 t2 (StandardScaler_transform sc X_train) y_train
    (StandardScaler_transform sc X_test) y_test (model_manager s)
    = (Returned new_version, mm1) ->
  retrain_model (X_train, X_test, y_train, y_test) t1 t2 s =
    (Returned new_version,
     with_model_manager (snd (deploy_model new_version mm1)) s) /\
  fst (deploy_model new_version mm1) = Returned true /\
  current_version (snd (deploy_model new_version mm1)) = Some new_version /\
  is_active (snd (deploy_model new_version mm1)) new_version.
Proof.
  intros Hs Hcv Ht.
  destruct (deploy_after_training _ _ _ _ _ _ _ _ _ Ht) as (model & md & _ & Hd).
  destruct (train_new_model_returned _ _ _ _ _ _ _ _ _ Ht)
    as (_ & _ & row & _ & _ & Htab & _ & _ & _ & _ & _ & Hcur1 & _).
  split.
  - unfold retrain_model. rewrite Hs, Ht. unfold _should_deploy_new_model.
    rewrite Hcur1, Hcv. reflexivity.
  - rewrite Hd. cbn [fst snd]. split; [reflexivity|]. split; [reflexivity|].
    apply is_active_after_deploy. split; [reflexivity|].
    rewrite Htab, lookup_insert_eq. eauto.
Qed.

(** [initialize_system] on a new system: either fitting or
    evaluation raises, and the system stays uninitialised with an empty
    store and no checker; or it returns, and the system is initialised,
    the scaler is fitted on the training set, the trained version is
    current and the one active version, and one checker runs. *)
Theorem initialize_new_system (data : training_data) (t1 t2 : datetime) :
  (forall e, fst (initialize_system data t1 t2 ProductionMLSystem_init)
               = Raised e ->
     is_initialized (snd (initialize_system data t1 t2 ProductionMLSystem_init))
       = false /\
     model_manager (snd (initialize_system data t1 t2 ProductionMLSystem_init))
       = ModelManager_init /\
     monitor (snd (initialize_system data t1 t2 ProductionMLSystem_init))
       = MLMonitor_init) /\
  (fst (initialize_system data t1 t2 ProductionMLSystem_init) = Returned tt ->
     let s := snd (initialize_system data t1 t2 ProductionMLSystem_init) in
     is_initialized s = true /\
     scaler s = Some (StandardScaler_fit (fst (fst (fst data)))) /\
     monitoring (monitor s) = true /\
     running_checkers (monitor s) = 1%nat /\
     current_version (model_manager s) = Some (strftime_version t1) /\
     (forall k, is_active (model_manager s) k <-> k = strftime_version t1) /\
     is_Some (current_model (model_manager s))).
Proof.
  destruct data as [[[X_train X_test] y_train] y_test]. cbn [fst].
  unfold initialize_system. cbv zeta.
  destruct (train_new_model t1 t2
              (StandardScaler_transform (StandardScaler_fit X_train) X_train)
              y_train
              (StandardScaler_transform (StandardScaler_fit X_train) X_test)
              y_test (model_manager ProductionMLSystem_init))
    as [[v|e] mm1] eqn:Ht.
  - split; [intros e E; discriminate|]. intros _. cbn [snd].
    destruct (deploy_after_training _ _ _ _ _ _ _ _ _ Ht)
      as (model & md & _ & Hd).
    destruct (train_new_model_returned _ _ _ _ _ _ _ _ _ Ht)
      as (Hv & _ & row1 & _ & _ & Htab & _).
    cbn [is_initialized scaler monitor model_manager].
    rewrite Hd. cbn [snd].
    split_conj; try reflexivity.
    + cbn. congruence.
    + intros k. rewrite is_active_after_deploy. rewrite <- Hv.
      split; [tauto|]. intros ->. split; [reflexivity|].
      rewrite Htab, lookup_insert_eq. eauto.
    + cbn. eauto.
  - split; [|intros E; discriminate]. intros e' _. cbn [snd].
    cbn [is_initialized model_manager monitor]. split_conj; try reflexivity.
    revert Ht. unfold train_new_model.
    destruct (RandomForestRegressor_fit _ y_train) as [model|];
      [|intros E; now inversion E].
    destruct (model_predict model _) as [y_pred|]; [|intros E; now inversion E].
    destruct (sk_r2_score _ y_pred) as [score|] eqn:Escore;
      [|intros E; now inversion E].
    destruct (mean_squared_error _ y_pred) as [mse|] eqn:Emse;
      [|intros E; now inversion E].
    cbn. rewrite lookup_empty. discriminate.
Qed.
End OperationFacts.

(** ** Version identifiers *)

Lemma strftime_version_compare a b :
  valid_datetime a -> valid_datetime b ->
  String.compare (strftime_version a) (strftime_version b) =
  lex_compare (second_key a) (second_key b).
Proof.
  intros (Hy & Hm & Hd & HH & HM & HS & Hu) (Hy' & Hm' & Hd' & HH' & HM' & HS' & Hu').
  unfold strftime_version, second_key. cbn [lex_compare].
  rewrite pad_compare by (simpl; lia).
  destruct (year a ?= year b); try reflexivity.
  rewrite pad_compare by (simpl; lia).
  destruct (month a ?= month b); try reflexivity.
  rewrite pad_compare by (simpl; lia).
  destruct (day a ?= day b); try reflexivity.
  rewrite compare_separator, pad_compare by (simpl; lia).
  destruct (hour a ?= hour b); try reflexivity.
  rewrite pad_compare by (simpl; lia).
  destruct (minute a ?= minute b); try reflexivity.
  rewrite pad_compare_end by (simpl; lia).
  now destruct (second a ?= second b).
Qed.

Lemma lex_compare_eq a b :
  length a = length b -> lex_compare a b = Eq -> a = b.
Proof.
  revert b. induction a as [|x a IH]; intros [|y b] Hl Hc; try discriminate.
  - reflexivity.
  - cbn in Hc. destruct (Z.compare_spec x y); try discriminate.
    subst. f_equal. apply IH; [now inversion Hl | exact Hc].
Qed.

Lemma same_second_strftime a b :
  same_second a b -> strftime_version a = strftime_version b.
Proof.
  intros (Ey & Em & Ed & EH & EM & ES). unfold strftime_version.
  now rewrite Ey, Em, Ed, EH, EM, ES.
Qed.

Lemma strftime_same_second a b :
  valid_datetime a -> valid_datetime b ->
  strftime_version a = strftime_version b -> same_second a b.
Proof.
  intros Ha Hb E.
  pose proof (strftime_version_compare a b Ha Hb) as Hc.
  rewrite E in Hc.
  assert (Hrefl : String.compare (strftime_version b) (strftime_version b) = Eq).
  { rewrite (strftime_version_compare b b Hb Hb). apply lex_compare_refl. }
  rewrite Hrefl in Hc. symmetry in Hc.
  apply lex_compare_eq in Hc; [|reflexivity].
  unfold second_key in Hc. inversion Hc. repeat split; assumption.
Qed.

Section VersionFacts.
Context `{Libraries}.

(** The version identifiers of two clock readings are equal exactly
    when the readings are in the same second, and as texts they sort as
    the seconds do: the newest version has the greatest identifier. *)
Theorem version_identifier_per_second (a b : datetime) :
  valid_datetime a -> valid_datetime b ->
  (strftime_version a = strftime_version b <-> same_second a b) /\
  String.compare (strftime_version a) (strftime_version b) =
    lex_compare (second_key a) (second_key b).
Proof.
  intros Ha Hb. split; [|now apply strftime_version_compare]. split.
  - now apply strftime_same_second.
  - apply same_second_strftime.
Qed.

(** A training call whose clock reading is in another second than
    that of the training call before it, and in a second no recorded
    version was made in, returns once fitting, the prediction on the test
    set and the two metric calls go through; both versions are then
    recorded as [trained].  When [r2_score] or [mean_squared_error]
    raises, the call raises and leaves everything as it was. *)
Theorem training_in_a_new_second_returns (t1 t1' t2 t2' : datetime)
    (X1 X1' X2 X2' : matrix) (y1 y1' y2 y2' : vector)
    (mm mm1 : ModelManager) (v : string) (model : Model) (y_pred : vector) :
  valid_datetime t1 -> valid_datetime t2 -> ~ same_second t1 t2 ->
  train_new_model t1 t1' X1 y1 X1' y1' mm = (Returned v, mm1) ->
  model_versions mm !! strftime_version t2 = None ->
  RandomForestRegressor_fit X2 y2 = Some model ->
  model_predict model X2' = Some y_pred ->
  strftime_version t2 <> v /\
  (forall score mse,
     sk_r2_score y2' y_pred = Some score ->
     mean_squared_error y2' y_pred = Some mse ->
     fst (train_new_model t2 t2' X2 y2 X2' y2' mm1) =
       Returned (strftime_version t2) /\
     status_of (snd (train_new_model t2 t2' X2 y2 X2' y2' mm1)) v
       = Some trained /\
     status_of (snd (train_new_model t2 t2' X2 y2 X2' y2' mm1))
       (strftime_version t2) = Some trained /\
     r2_score <$> model_versions
                    (snd (train_new_model t2 t2' X2 y2 X2' y2' mm1))
                    !! strftime_version t2 = Some score) /\
  (sk_r2_score y2' y_pred = None \/ mean_squared_error y2' y_pred = None ->
   snd (train_new_model t2 t2' X2 y2 X2' y2' mm1) = mm1 /\
   exists e, fst (train_new_model t2 t2' X2 y2 X2' y2' mm1) = Raised e).
Proof.
  intros Hv1 Hv2 Hsec Ht Hfresh Hfit Hpred.
  destruct (train_new_model_returned _ _ _ _ _ _ _ _ _ Ht)
    as (Hv & _ & row & md & model1 & Htab & Hst & _).
  assert (Hne : strftime_version t2 <> v).
  { rewrite Hv. intros E.
    apply (strftime_same_second t2 t1 Hv2 Hv1) in E.
    apply Hsec. destruct E as (?&?&?&?&?&?). repeat split; congruence. }
  split; [exact Hne|]. split.
  - intros score mse Hscore Hmse.
    unfold train_new_model, status_of. rewrite Hfit, Hpred, Hscore, Hmse.
    cbn [model_versions with_json with_pkl].
    rewrite Htab, lookup_insert_ne, Hfresh by congruence. cbn.
    split; [reflexivity|].
    rewrite lookup_insert_ne, !lookup_insert_eq by congruence.
    cbn. now rewrite Hst.
  - unfold train_new_model. rewrite Hfit, Hpred.
    destruct (sk_r2_score y2' y_pred) as [score|]; [|eauto].
    intros [E|E]; [discriminate|]. rewrite E. eauto.
Qed.
End VersionFacts.

(** ** The health check and the loop threads *)

Section HealthFacts.
Context `{Libraries}.

Lemma total_predictions_counts_rows now days mm :
  total_predictions (get_model_performance now days mm) =
  Z.of_nat (length (rows_after (isoformat (minus_days now days))
                      (predictions mm))).
Proof.
  unfold get_model_performance. cbn [total_predictions].
  set (t := rows_after _ _). unfold group_by_version.
  rewrite fold_left_zsum, zsum_map, Z.add_0_l. cbn [prediction_count].
  apply zsum_group_sizes; [apply NoDup_remove_dups|].
  intros x Hx. apply elem_of_remove_dups, list_elem_of_In, in_map.
  now apply list_elem_of_In.
Qed.

Lemma rows_after_length cutoff t :
  (length (rows_after cutoff t) <= length t)%nat.
Proof. unfold rows_after. apply List.filter_length_le. Qed.

Lemma check_model_health_cases now_query now_alert mon mm :
  _check_model_health now_query now_alert mon mm = mm \/
  exists avg,
    PrimFloat.ltb avg (performance_threshold mon) = true /\
    _check_model_health now_query now_alert mon mm =
      with_model_performance
        (model_performance mm ++
           [{| a_timestamp := isoformat now_alert;
               a_model_version := current_version mm;
               a_metric_name := "confidence_alert";
               a_metric_value := avg |}]) mm.
Proof.
  unfold _check_model_health.
  destruct (50 <? _); [|now left].
  destruct (PrimFloat.ltb _ _) eqn:E; [|now left].
  right. eexists. split; [exact E | reflexivity].
Qed.

(** The health check records an alert only above 50 predictions of
    the last day: at 50 or fewer -- and so whenever the whole log has 50
    rows or fewer -- it changes nothing, whatever the confidences; and
    when it changes something, it appends one alert whose value is below
    the threshold of the monitor. *)
Theorem health_check_needs_more_than_50 (now_query now_alert : datetime)
    (mon : MLMonitor) (mm : ModelManager) :
  ((length (rows_after (isoformat (minus_days now_query 1)) (predictions mm))
    <= 50)%nat ->
   _check_model_health now_query now_alert mon mm = mm) /\
  ((length (predictions mm) <= 50)%nat ->
   _check_model_health now_query now_alert mon mm = mm) /\
  (_check_model_health now_query now_alert mon mm = mm \/
   exists avg,
     PrimFloat.ltb avg (performance_threshold mon) = true /\
     _check_model_health now_query now_alert mon mm =
       with_model_performance
         (model_performance mm ++
            [{| a_timestamp := isoformat now_alert;
                a_model_version := current_version mm;
                a_metric_name := "confidence_alert";
                a_metric_value := avg |}]) mm).
Proof.
  assert (Hfew : (length (rows_after (isoformat (minus_days now_query 1))
                            (predictions mm)) <= 50)%nat ->
                 _check_model_health now_query now_alert mon mm = mm).
  { intros Hle. unfold _check_model_health.
    rewrite total_predictions_counts_rows.
    destruct (Z.ltb_spec 50 (Z.of_nat (length (rows_after
                (isoformat (minus_days now_query 1)) (predictions mm)))));
      [lia | reflexivity]. }
  split; [exact Hfew|]. split.
  - intros Hle. apply Hfew.
    pose proof (rows_after_length (isoformat (minus_days now_query 1))
                  (predictions mm)). lia.
  - apply check_model_health_cases.
Qed.

Lemma monitor_loop_step_frame tq ta i mon mm :
  let mm' := snd (_monitor_loop_step tq ta i mon mm) in
  exists alerts,
    mm' = with_model_performance (model_performance mm ++ alerts) mm /\
    Forall (fun a => a_metric_name a = "confidence_alert"%string /\
                     a_model_version a = current_version mm) alerts.
Proof.
  cbv zeta. unfold _monitor_loop_step.
  assert (Hnone : exists alerts,
            mm = with_model_performance (model_performance mm ++ alerts) mm /\
            Forall (fun a => a_metric_name a = "confidence_alert"%string /\
                             a_model_version a = current_version mm) alerts).
  { exists []. rewrite app_nil_r. split; [now destruct mm | constructor]. }
  destruct (monitor_threads mon !! i) as [[| | |]|]; cbn [snd];
    try exact Hnone.
  - destruct (monitoring mon); exact Hnone.
  - destruct (check_model_health_cases tq ta mon mm) as [->|(avg & _ & ->)];
      [exact Hnone|].
    eexists. split; [reflexivity|]. repeat constructor.
Qed.

(** Whatever the loop threads of the monitor do, all they change in
    the manager is the alert table, to which they append rows named
    [confidence_alert] that carry the current version. *)
Theorem monitor_only_appends_alerts
    (schedule : list (datetime * datetime * nat)) (mon : MLMonitor)
    (mm : ModelManager) :
  exists alerts,
    snd (_monitor_loop_run schedule mon mm) =
      with_model_performance (model_performance mm ++ alerts) mm /\
    Forall (fun a => a_metric_name a = "confidence_alert"%string /\
                     a_model_version a = current_version mm) alerts.
Proof.
  unfold _monitor_loop_run. revert mon mm.
  induction schedule as [|[[tq ta] i] schedule IH]; intros mon mm.
  - exists []. rewrite app_nil_r. split; [now destruct mm | constructor].
  - cbn [fold_left fst snd].
    destruct (monitor_loop_step_frame tq ta i mon mm) as (a0 & E0 & F0).
    destruct (_monitor_loop_step tq ta i mon mm) as [mon' mm'] eqn:E.
    cbn [snd] in E0. subst mm'.
    destruct (IH mon' (with_model_performance (model_performance mm ++ a0) mm))
      as (a1 & E1 & F1).
    exists (a0 ++ a1). split.
    + rewrite E1. cbn. now rewrite app_assoc.
    + apply Forall_app. split; [exact F0 | exact F1].
Qed.

Lemma length_filter_insert_drop {A} (P : A -> bool) (l : list A) (i : nat)
    (x y : A) :
  l !! i = Some x -> P x = true -> P y = false ->
  S (length (List.filter P (<[i := y]> l))) = length (List.filter P l).
Proof.
  revert i. induction l as [|a l IH]; intros [|i] Hl Hx Hy; try discriminate.
  - cbn in Hl. inversion Hl; subst. cbn. now rewrite Hx, Hy.
  - cbn in Hl. cbn.
    destruct (P a); cbn; rewrite <- (IH i Hl Hx Hy); reflexivity.
Qed.

Lemma list_insert_lookup_fmap (l : list loop_pc) (i j : nat)
    (pc pc' : loop_pc) :
  l !! i = Some pc ->
  <[i := pc']> l !! j =
  (if decide (j = i) then fun _ => pc' else id) <$> l !! j.
Proof.
  intros E. destruct (decide (j = i)) as [->|Hne].
  - rewrite list_lookup_insert_eq by (apply lookup_lt_Some in E; exact E).
    now rewrite E.
  - rewrite list_lookup_insert_ne by congruence. now destruct (l !! j).
Qed.

(** A move of a loop thread while the flag is cleared. *)
Lemma stopped_step tq ta i mon mm :
  monitoring mon = false ->
  monitoring (fst (_monitor_loop_step tq ta i mon mm)) = false /\
  (forall j,
     monitor_threads (fst (_monitor_loop_step tq ta i mon mm)) !! j =
     (if decide (j = i) then loop_next_stopped else id)
       <$> monitor_threads mon !! j) /\
  exists alerts,
    snd (_monitor_loop_step tq ta i mon mm) =
      with_model_performance (model_performance mm ++ alerts) mm /\
    (length alerts + pending_checks (fst (_monitor_loop_step tq ta i mon mm))
     <= pending_checks mon)%nat.
Proof.
  intros Hflag. unfold _monitor_loop_step.
  assert (Hsame : mm = with_model_performance (model_performance mm ++ []) mm)
    by (rewrite app_nil_r; now destruct mm).
  destruct (monitor_threads mon !! i) as [pc|] eqn:E.
  - pose proof (fun pc' j => list_insert_lookup_fmap _ i j pc pc' E) as Hset.
    destruct pc.
    + rewrite Hflag. cbn [fst snd monitoring with_threads monitor_threads].
      split; [exact Hflag|]. split.
      * intros j. rewrite Hset.
        destruct (decide (j = i)) as [->|Hne]; [now rewrite E | reflexivity].
      * exists []. split; [exact Hsame|]. unfold pending_checks.
        cbn [length monitor_threads with_threads].
        now rewrite (length_filter_insert is_checking _ _ _ _ E).
    + cbn [fst snd monitoring with_threads monitor_threads].
      split; [exact Hflag|]. split.
      * intros j. rewrite Hset.
        destruct (decide (j = i)) as [->|Hne]; [now rewrite E | reflexivity].
      * assert (Hdrop :
                  S (pending_checks
                       (with_threads (<[i := Sleeping]> (monitor_threads mon))
                          mon)) = pending_checks mon).
        { unfold pending_checks. cbn [monitor_threads with_threads].
          now apply (length_filter_insert_drop is_checking _ _ _ _ E). }
        destruct (check_model_health_cases tq ta mon mm)
          as [->|(avg & _ & ->)].
        -- exists []. split; [exact Hsame|]. cbn [length]. lia.
        -- eexists. split; [reflexivity|]. cbn [length]. lia.
    + cbn [fst snd monitoring with_threads monitor_threads].
      split; [exact Hflag|]. split.
      * intros j. rewrite Hset.
        destruct (decide (j = i)) as [->|Hne]; [now rewrite E | reflexivity].
      * exists []. split; [exact Hsame|]. unfold pending_checks.
        cbn [length monitor_threads with_threads].
        now rewrite (length_filter_insert is_checking _ _ _ _ E).
    + cbn [fst snd]. split; [exact Hflag|]. split.
      * intros j. destruct (decide (j = i)) as [->|Hne]; [now rewrite E|].
        now destruct (monitor_threads mon !! j).
      * exists []. split; [exact Hsame|]. cbn [length]. lia.
  - cbn [fst snd]. split; [exact Hflag|]. split.
    + intros j. destruct (decide (j = i)) as [->|Hne].
      * now rewrite E.
      * now destruct (monitor_threads mon !! j).
    + exists []. split; [exact Hsame|]. cbn [length]. lia.
Qed.

Lemma stopped_run schedule : forall mon mm,
  monitoring mon = false ->
  monitoring (fst (_monitor_loop_run schedule mon mm)) = false /\
  (forall j,
     monitor_threads (fst (_monitor_loop_run schedule mon mm)) !! j =
     Nat.iter (moves_of j schedule) loop_next_stopped
       <$> monitor_threads mon !! j) /\
  exists alerts,
    snd (_monitor_loop_run schedule mon mm) =
      with_model_performance (model_performance mm ++ alerts) mm /\
    (length alerts <= pending_checks mon)%nat.
Proof.
  unfold _monitor_loop_run.
  induction schedule as [|[[tq ta] i] schedule IH]; intros mon mm Hflag.
  - split; [exact Hflag|]. split.
    + intros j. cbn. now destruct (monitor_threads mon !! j).
    + exists []. split; [|cbn [length]; lia].
      cbn. rewrite app_nil_r. now destruct mm.
  - cbn [fold_left fst snd].
    destruct (stopped_step tq ta i mon mm Hflag)
      as (Hflag' & Hth & a0 & E0 & L0).
    destruct (_monitor_loop_step tq ta i mon mm) as [mon' mm'] eqn:E.
    cbn [fst snd] in Hflag', Hth, E0, L0. subst mm'.
    destruct (IH mon' (with_model_performance (model_performance mm ++ a0) mm)
                Hflag') as (F1 & T1 & a1 & E1 & L1).
    split; [exact F1|]. split.
    + intros j. rewrite T1, Hth. unfold moves_of. cbn [List.filter snd].
      destruct (monitor_threads mon !! j) as [pc|]; [|reflexivity]. cbn.
      f_equal. destruct (decide (j = i)) as [->|Hne].
      * rewrite Nat.eqb_refl. cbn [length]. now rewrite Nat.iter_succ_r.
      * destruct (Nat.eqb_spec i j); [congruence | reflexivity].
    + exists (a0 ++ a1). split.
      * rewrite E1. cbn. now rewrite app_assoc.
      * rewrite length_app. lia.
Qed.

Lemma loop_next_stopped_thrice n pc :
  (3 <= n)%nat -> Nat.iter n loop_next_stopped pc = Finished.
Proof.
  intros Hn. destruct n as [|[|[|n]]]; try lia. clear Hn.
  rewrite !Nat.iter_succ_r.
  assert (Hfin : loop_next_stopped (loop_next_stopped (loop_next_stopped pc))
                 = Finished) by now destruct pc.
  rewrite Hfin. induction n as [|n IH]; [reflexivity|].
  now rewrite Nat.iter_succ, IH.
Qed.

(** [stop_monitoring] clears the flag and leaves the threads where they
    are.  From then on the flag stays cleared; a thread that was past the
    loop test still runs its health check, once, so that the manager
    changes by at most that many alerts and by nothing else; and each
    thread has left its loop after three moves at the latest: the pending
    check, the end of the sleep, the loop test. *)
Theorem stopped_monitor_winds_down (mon : MLMonitor) (mm : ModelManager)
    (schedule : list (datetime * datetime * nat)) (i : nat) :
  monitoring (stop_monitoring mon) = false /\
  monitor_threads (stop_monitoring mon) = monitor_threads mon /\
  monitoring (fst (_monitor_loop_run schedule (stop_monitoring mon) mm))
    = false /\
  (exists alerts,
     snd (_monitor_loop_run schedule (stop_monitoring mon) mm) =
       with_model_performance (model_performance mm ++ alerts) mm /\
     (length alerts <= pending_checks mon)%nat) /\
  (pending_checks mon = 0%nat ->
   snd (_monitor_loop_run schedule (stop_monitoring mon) mm) = mm) /\
  ((3 <= moves_of i schedule)%nat ->
   (i < length (monitor_threads mon))%nat ->
   monitor_threads (fst (_monitor_loop_run schedule (stop_monitoring mon) mm))
     !! i = Some Finished).
Proof.
  split; [reflexivity|]. split; [reflexivity|].
  destruct (stopped_run schedule (stop_monitoring mon) mm eq_refl)
    as (Hflag & Hth & alerts & Emm & Hlen).
  change (pending_checks (stop_monitoring mon)) with (pending_checks mon)
    in Hlen.
  split; [exact Hflag|]. split; [eauto|]. split.
  - intros Hnone. rewrite Emm.
    destruct alerts; [|cbn [length] in Hlen; lia].
    rewrite app_nil_r. now destruct mm.
  - intros Hmoves Hi. rewrite Hth. cbn [stop_monitoring monitor_threads].
    destruct (lookup_lt_is_Some_2 _ _ Hi) as [pc Hpc]. rewrite Hpc. cbn.
    now rewrite loop_next_stopped_thrice.
Qed.
End HealthFacts.

(** ** The performance report *)

Section ReportFacts.
Context `{Libraries}.

Lemma map_version_group_by_version t :
  map version (group_by_version t) = remove_dups (map p_model_version t).
Proof.
  unfold group_by_version. rewrite map_map. cbn [version]. apply map_id.
Qed.

(** The report of [get_model_performance], whatever the rows hold: no
    version has two entries, no entry counts zero predictions, the total
    is the number of rows the [WHERE] clause keeps -- at most the length
    of the log -- and it is zero exactly when there is no entry. *)
Theorem performance_report_shape (now : datetime) (days : Z)
    (mm : ModelManager) :
  let report := get_model_performance now days mm in
  period_days report = days /\
  NoDup (map version (models report)) /\
  Forall (fun m => 1 <= prediction_count m) (models report) /\
  total_predictions report =
    Z.of_nat (length (rows_after (isoformat (minus_days now days))
                        (predictions mm))) /\
  total_predictions report <= Z.of_nat (length (predictions mm)) /\
  (total_predictions report = 0 <-> models report = []).
Proof.
  cbv zeta. split; [reflexivity|].
  pose proof (total_predictions_counts_rows now days mm) as Htotal.
  pose proof (rows_after_length (isoformat (minus_days now days))
                (predictions mm)) as Hle.
  unfold get_model_performance in *. cbn [models total_predictions] in *.
  set (t := rows_after (isoformat (minus_days now days)) (predictions mm)) in *.
  split; [rewrite map_version_group_by_version; apply NoDup_remove_dups|].
  split.
  { unfold group_by_version. apply List.Forall_map, List.Forall_forall.
    intros v Hv. cbn [prediction_count].
    apply list_elem_of_In, elem_of_remove_dups, list_elem_of_In, in_map_iff in Hv.
    destruct Hv as (row & Hrow & Hin).
    assert (Hmem : In row (List.filter
                             (fun r => bool_decide (p_model_version r = v)) t)).
    { apply filter_In. split; [exact Hin|]. now apply bool_decide_eq_true. }
    destruct (List.filter _ t); [destruct Hmem | cbn [length]; lia]. }
  split; [exact Htotal|]. split; [lia|].
  rewrite Htotal. unfold group_by_version. destruct t as [|row t'].
  - cbn. split; reflexivity.
  - split; [cbn [length]; lia|]. intros E.
    apply (f_equal (@length _)) in E. rewrite length_map in E.
    assert (Hin : p_model_version row ∈
                  remove_dups (map p_model_version (row :: t'))).
    { apply elem_of_remove_dups. cbn. left. }
    destruct (remove_dups _); [inversion Hin | discriminate].
Qed.
End ReportFacts.

(** ** [main] *)

Section MainFacts.
Context `{Libraries}.

Ltac frame_same :=
  split_conj; try reflexivity; try assumption;
  exists []; rewrite app_nil_r;
  split_conj; [reflexivity | reflexivity | constructor].

(** What [predict_house_price] leaves as it was, and the row it adds. *)
Lemma predict_house_price_frame size bedrooms age now s :
  let o := fst (predict_house_price size bedrooms age now s) in
  let s' := snd (predict_house_price size bedrooms age now s) in
  monitor s' = monitor s /\ scaler s' = scaler s /\
  is_initialized s' = is_initialized s /\
  model_versions (model_manager s') = model_versions (model_manager s) /\
  model_performance (model_manager s') = model_performance (model_manager s) /\
  current_version (model_manager s') = current_version (model_manager s) /\
  model_metadata (model_manager s') = model_metadata (model_manager s) /\
  exists rows,
    predictions (model_manager s') = predictions (model_manager s) ++ rows /\
    length rows = match o with Returned _ => 1%nat | Raised _ => 0%nat end /\
    Forall (fun row => p_model_version row = current_version (model_manager s))
      rows.
Proof.
  cbv zeta. unfold predict_house_price.
  destruct (is_initialized s) eqn:Hi; cbn [negb fst snd]; [|frame_same].
  cbv zeta. destruct (scaler s) as [sc|] eqn:Hsc; cbn [fst snd]; [|frame_same].
  destruct (predict now (StandardScaler_transform sc [[size; bedrooms; age]])
              true (model_manager s)) as [[raw|e] mm'] eqn:Hp; cbn [fst snd].
  - destruct (predict_returned _ _ _ _ _ Hp) as (-> & Hv & _).
    cbn. split_conj; try reflexivity; try assumption.
    eexists. split_conj; [reflexivity | reflexivity |].
    repeat constructor. exact Hv.
  - pose proof (predict_raised now
                  (StandardScaler_transform sc [[size; bedrooms; age]])
                  true (model_manager s) e) as Hr.
    rewrite Hp in Hr. cbn [fst snd] in Hr. rewrite (Hr eq_refl).
    cbn. frame_same.
Qed.

(** The loop over the houses adds one row for each house it gets through,
    all of them by the current version. *)
Lemma predict_houses_frame houses now_predict : forall k s,
  let o := fst (predict_houses houses k now_predict s) in
  let s' := snd (predict_houses houses k now_predict s) in
  monitor s' = monitor s /\ scaler s' = scaler s /\
  is_initialized s' = is_initialized s /\
  model_versions (model_manager s') = model_versions (model_manager s) /\
  model_performance (model_manager s') = model_performance (model_manager s) /\
  current_version (model_manager s') = current_version (model_manager s) /\
  model_metadata (model_manager s') = model_metadata (model_manager s) /\
  exists rows,
    predictions (model_manager s') = predictions (model_manager s) ++ rows /\
    (o = Returned tt -> length rows = length houses) /\
    Forall (fun row => p_model_version row = current_version (model_manager s))
      rows.
Proof.
  induction houses as [|[[size bedrooms] age] rest IH]; intros k s; cbv zeta.
  - cbn. frame_same.
  - cbn [predict_houses].
    destruct (predict_house_price_frame size bedrooms age (now_predict k) s)
      as (Hm & Hs & Hi & Hv & Ha & Hc & Hd & rows & Hp & Hl & Hf).
    destruct (predict_house_price size bedrooms age (now_predict k) s)
      as [[result|e] s1]; cbn [fst snd] in *.
    + destruct (IH (S k) s1)
        as (Hm' & Hs' & Hi' & Hv' & Ha' & Hc' & Hd' & rows' & Hp' & Hl' & Hf').
      split_conj; try congruence.
      exists (rows ++ rows'). split_conj.
      * rewrite Hp', Hp. now rewrite app_assoc.
      * intros E. rewrite length_app, Hl, (Hl' E). reflexivity.
      * apply Forall_app. split; [exact Hf|]. now rewrite <- Hc.
    + split_conj; try assumption.
      exists rows. split_conj; [exact Hp | discriminate | exact Hf].
Qed.

Lemma train_new_model_alerts t1 t2 Xa ya Xb yb mm o mm1 :
  train_new_model t1 t2 Xa ya Xb yb mm = (o, mm1) ->
  model_performance mm1 = model_performance mm.
Proof.
  intros Ht.
  destruct (train_new_model_effect t1 t2 Xa ya Xb yb mm) as (_ & Hperf & _).
  now rewrite Ht in Hperf.
Qed.

(** What a returning [initialize_system] has done. *)
Lemma initialize_system_returned data t1 t2 s u s1 :
  initialize_system data t1 t2 s = (Returned u, s1) ->
  let v := strftime_version t1 in
  is_initialized s1 = true /\ is_Some (scaler s1) /\
  monitor s1 = start_monitoring (monitor s) /\
  model_versions (model_manager s) !! v = None /\
  predictions (model_manager s1) = predictions (model_manager s) /\
  model_performance (model_manager s1) = model_performance (model_manager s) /\
  current_version (model_manager s1) = Some v /\
  is_Some (model_metadata (model_manager s1)) /\
  exists row,
    model_versions (model_manager s1) =
      update_status_on_deploy v (<[v := row]> (model_versions (model_manager s))).
Proof.
  destruct data as [[[X_train X_test] y_train] y_test].
  unfold initialize_system. cbv zeta.
  destruct (train_new_model t1 t2 _ y_train _ y_test (model_manager s))
    as [[v|e] mm1] eqn:Ht; [|discriminate].
  intros E. inversion E; subst. clear E.
  destruct (deploy_after_training _ _ _ _ _ _ _ _ _ Ht) as (model & md & _ & Hd).
  destruct (train_new_model_returned _ _ _ _ _ _ _ _ _ Ht)
    as (Hv & Hfresh & row & _ & _ & Htab & _ & _ & _ & _ & _ & _ & _ & Hpred).
  pose proof (train_new_model_alerts _ _ _ _ _ _ _ _ _ Ht) as Hperf.
  rewrite Hd. cbn. subst v.
  split_conj; eauto.
  exists row. now rewrite Htab.
Qed.

(** What a returning [retrain_model] has done. *)
Lemma retrain_model_returned data t1 t2 s new_version s3 :
  retrain_model data t1 t2 s = (Returned new_version, s3) ->
  let v := strftime_version t1 in
  new_version = v /\
  is_initialized s3 = is_initialized s /\ monitor s3 = monitor s /\
  model_versions (model_manager s) !! v = None /\
  predictions (model_manager s3) = predictions (model_manager s) /\
  model_performance (model_manager s3) = model_performance (model_manager s) /\
  exists row,
    status row = trained /\
    (current_version (model_manager s3) = current_version (model_manager s) /\
     model_versions (model_manager s3) =
       <[v := row]> (model_versions (model_manager s)) \/
     current_version (model_manager s3) = Some v /\
     model_versions (model_manager s3) =
       update_status_on_deploy v
         (<[v := row]> (model_versions (model_manager s)))).
Proof.
  destruct data as [[[X_train X_test] y_train] y_test].
  unfold retrain_model. cbv zeta.
  destruct (scaler s) as [sc|]; [|discriminate].
  destruct (train_new_model t1 t2 _ y_train _ y_test (model_manager s))
    as [[v|e] mm1] eqn:Ht; [|discriminate].
  destruct (deploy_after_training _ _ _ _ _ _ _ _ _ Ht) as (model & md & _ & Hd).
  destruct (train_new_model_returned _ _ _ _ _ _ _ _ _ Ht)
    as (Hv & Hfresh & row & _ & _ & Htab & Hst & _ & _ & _ & _ & Hcur & _ & Hpred).
  pose proof (train_new_model_alerts _ _ _ _ _ _ _ _ _ Ht) as Hperf.
  destruct (_should_deploy_new_model v mm1) as [[|]|e]; [| |discriminate];
    intros E; inversion E; subst; clear E.
  - rewrite Hd. cbn. split_conj; try reflexivity; try assumption.
    exists row. split; [exact Hst|]. right. split; [reflexivity|].
    now rewrite Htab.
  - cbn. split_conj; try reflexivity; try assumption.
    exists row. split; [exact Hst|]. left. split; assumption.
Qed.

(** A training call in the second of a recorded version raises. *)
Lemma train_new_model_recorded t1 t2 Xa ya Xb yb mm :
  is_Some (model_versions mm !! strftime_version t1) ->
  exists e, fst (train_new_model t1 t2 Xa ya Xb yb mm) = Raised e.
Proof.
  intros [r Hr]. unfold train_new_model.
  destruct (RandomForestRegressor_fit Xa ya) as [model|]; [|eauto].
  destruct (model_predict model Xb) as [y_pred|]; [|eauto].
  destruct (sk_r2_score _ y_pred) as [score|] eqn:Escore; [|eauto].
  destruct (mean_squared_error _ y_pred) as [mse|] eqn:Emse; [|eauto].
  cbn [model_versions with_json with_pkl]. rewrite Hr. eauto.
Qed.

(** A run of [main] that returns has recorded two new versions, made
    in two different seconds: the one of the initialisation, which served
    the four logged predictions, and the retrained one.  Either the first
    is still current and active and the second is [trained], or the second
    is current and active and the first is [inactive].  The monitor is
    stopped and no alert was written. *)
Theorem main_returned (data_init data_retrain : training_data)
    (now_init_version now_init_created : datetime)
    (now_predict : nat -> datetime)
    (now_status_query now_status_uptime : datetime)
    (now_retrain_version now_retrain_created : datetime)
    (persisted : ModelManager) :
  fst (main data_init data_retrain now_init_version now_init_created
         now_predict now_status_query now_status_uptime
         now_retrain_version now_retrain_created persisted) = MainReturned ->
  let s := snd (main data_init data_retrain now_init_version now_init_created
                  now_predict now_status_query now_status_uptime
                  now_retrain_version now_retrain_created persisted) in
  let mm := model_manager s in
  let v_init := strftime_version now_init_version in
  let v_new := strftime_version now_retrain_version in
  v_init <> v_new /\
  model_versions persisted !! v_init = None /\
  model_versions persisted !! v_new = None /\
  is_initialized s = true /\
  monitoring (monitor s) = false /\
  (exists rows,
     predictions mm = predictions persisted ++ rows /\
     length rows = 4%nat /\
     Forall (fun row => p_model_version row = Some v_init) rows) /\
  model_performance mm = model_performance persisted /\
  (current_version mm = Some v_init /\
   status_of mm v_init = Some active /\ status_of mm v_new = Some trained \/
   current_version mm = Some v_new /\
   status_of mm v_new = Some active /\ status_of mm v_init = Some inactive).
Proof.
  unfold main. cbv zeta.
  destruct (initialize_system data_init now_init_version now_init_created
              (ProductionMLSystem_open persisted)) as [[u|e] s1] eqn:Hinit;
    [|discriminate].
  destruct (initialize_system_returned _ _ _ _ _ _ Hinit)
    as (Hi1 & _ & Hm1 & Hfresh1 & Hp1 & Ha1 & Hc1 & _ & row1 & Ht1).
  cbn [ProductionMLSystem_open model_manager monitor] in Hm1, Hfresh1, Hp1, Ha1, Ht1.
  cbn in Hfresh1, Hp1, Ha1, Ht1.
  destruct (predict_houses_frame test_houses now_predict 0 s1)
    as (Hm2 & _ & Hi2 & Ht2 & Ha2 & Hc2 & _ & rows & Hp2 & Hl2 & Hf2).
  destruct (predict_houses test_houses 0 now_predict s1) as [[u2|e] s2];
    [|discriminate].
  cbn [fst snd] in Hm2, Hi2, Ht2, Ha2, Hc2, Hp2, Hl2, Hf2.
  destruct (reported_metadata _); [|discriminate].
  destruct (retrain_model data_retrain now_retrain_version now_retrain_created s2)
    as [[nv|e] s3] eqn:Hre; [|discriminate].
  destruct (retrain_model_returned _ _ _ _ _ _ Hre)
    as (_ & Hi3 & Hm3 & Hfresh3 & Hp3 & Ha3 & row3 & Hst3 & Hcase).
  intros _. cbn [snd shutdown model_manager monitor is_initialized
                   stop_monitoring monitoring].
  set (v_init := strftime_version now_init_version) in *.
  set (v_new := strftime_version now_retrain_version) in *.
  rewrite Ht2, Ht1 in Hfresh3.
  rewrite lookup_update_status_on_deploy in Hfresh3.
  assert (Hne : v_init <> v_new).
  { intros E. rewrite <- E, lookup_insert_eq in Hfresh3. discriminate. }
  rewrite lookup_insert_ne in Hfresh3 by exact Hne.
  split; [exact Hne|]. split; [exact Hfresh1|].
  split; [now destruct (model_versions persisted !! v_new)|].
  split; [congruence|]. split; [reflexivity|].
  split.
  { exists rows. split; [congruence|]. split; [destruct u2; exact (Hl2 eq_refl)|].
    now rewrite <- Hc1. }
  split; [congruence|].
  unfold status_of.
  destruct Hcase as [[Hc3 Ht3]|[Hc3 Ht3]]; rewrite Ht3, Ht2, Ht1.
  - left. split; [congruence|].
    rewrite lookup_insert_ne, lookup_update_status_on_deploy, lookup_insert_eq,
      lookup_insert_eq by congruence.
    cbn. rewrite decide_True by reflexivity. now rewrite Hst3.
  - right. split; [exact Hc3|].
    rewrite !lookup_update_status_on_deploy, lookup_insert_eq,
      lookup_insert_ne, lookup_update_status_on_deploy, lookup_insert_eq
      by congruence.
    cbn. rewrite decide_True by reflexivity.
    rewrite decide_False by exact Hne. cbn. auto.
Qed.

(** [main] cannot get through when its retraining starts in the
    second in which its initialisation started: the second training call
    is refused, the exception escapes, and [shutdown] is not reached.
    Whenever [main] fails after the initialisation, it leaves the monitor
    running.  Line 492 never fails on an empty metadata dictionary. *)
Theorem main_failures (data_init data_retrain : training_data)
    (now_init_version now_init_created : datetime)
    (now_predict : nat -> datetime)
    (now_status_query now_status_uptime : datetime)
    (now_retrain_version now_retrain_created : datetime)
    (persisted : ModelManager) :
  let run_of_main :=
    main data_init data_retrain now_init_version now_init_created
      now_predict now_status_query now_status_uptime
      now_retrain_version now_retrain_created persisted in
  fst run_of_main <> MainKeyError /\
  (same_second now_init_version now_retrain_version ->
   exists e, fst run_of_main = MainRaised e) /\
  (fst run_of_main <> MainReturned ->
   is_initialized (snd run_of_main) = true ->
   monitoring (monitor (snd run_of_main)) = true).
Proof.
  cbv zeta. unfold main. cbv zeta.
  destruct (initialize_system data_init now_init_version now_init_created
              (ProductionMLSystem_open persisted)) as [[u|e] s1] eqn:Hinit.
  2:{ cbn [fst snd]. split; [discriminate|]. split; [eauto|].
      intros _ Hi. revert Hinit. destruct data_init as [[[Xa Xb] ya] yb].
      unfold initialize_system. cbv zeta.
      destruct (train_new_model _ _ _ ya _ yb _) as [[v|e'] mm1];
        intros E; inversion E; subst; discriminate. }
  destruct (initialize_system_returned _ _ _ _ _ _ Hinit)
    as (Hi1 & Hs1 & Hm1 & _ & _ & _ & Hc1 & Hmd1 & row1 & Ht1).
  destruct (predict_houses_frame test_houses now_predict 0 s1)
    as (Hm2 & Hs2 & Hi2 & Ht2 & _ & Hc2 & Hmd2 & _).
  destruct (predict_houses test_houses 0 now_predict s1) as [[u2|e] s2];
    cbn [fst snd] in *.
  2:{ split; [discriminate|]. split; [eauto|]. intros _ _.
      now rewrite Hm2, Hm1. }
  cbn [get_system_status reported_metadata].
  destruct Hmd1 as [md Hmd1]. rewrite Hmd2, Hmd1.
  assert (Hfail : same_second now_init_version now_retrain_version ->
                  exists e, fst (retrain_model data_retrain now_retrain_version
                                   now_retrain_created s2) = Raised e).
  { intros Hsec. destruct data_retrain as [[[Xa Xb] ya] yb].
    unfold retrain_model. cbv zeta.
    destruct (scaler s2) as [sc|]; [|eauto].
    destruct (train_new_model_recorded now_retrain_version now_retrain_created
                (StandardScaler_transform sc Xa) ya
                (StandardScaler_transform sc Xb) yb (model_manager s2))
      as [e He].
    - rewrite Ht2, Ht1, lookup_update_status_on_deploy,
        <- (same_second_strftime _ _ Hsec), lookup_insert_eq. cbn. eauto.
    - destruct (train_new_model _ _ _ ya _ yb _) as [[v|e'] mm3];
        [discriminate|]. eauto. }
  assert (Hmon : monitor (snd (retrain_model data_retrain now_retrain_version
                                 now_retrain_created s2)) = monitor s2).
  { destruct data_retrain as [[[Xa Xb] ya] yb].
    unfold retrain_model. cbv zeta.
    destruct (scaler s2) as [sc|]; [|reflexivity].
    destruct (train_new_model _ _ _ ya _ yb _) as [[v|e'] mm3]; [|reflexivity].
    now destruct (_should_deploy_new_model v mm3) as [[|]|]. }
  destruct (retrain_model data_retrain now_retrain_version now_retrain_created s2)
    as [[nv|e] s3]; cbn [fst snd] in *.
  - split; [discriminate|]. split.
    + intros Hsec. destruct (Hfail Hsec) as [e E]. discriminate.
    + intros Hno. now destruct Hno.
  - split; [discriminate|]. split; [eauto|]. intros _ _.
    now rewrite Hmon, Hm2, Hm1.
Qed.
End MainFacts.

(** ** The rest of the program on concrete histories *)

(** The metrics of a row on [two_trained]: the second version is deployed,
    a file of the first is damaged, the process restarts; the row of the
    first version keeps its metrics. *)
Lemma recorded_metrics_never_change_witness :
  model_versions two_trained !! v0 = Some v0_row /\
  exists r',
    model_versions (demo_run [Deploy v1; DamageJson v0; Restart] two_trained)
      !! v0 = Some r' /\
    same_metrics v0_row r'.
Proof.
  assert (Hrow : model_versions two_trained !! v0 = Some v0_row)
    by by_evaluation.
  split; [exact Hrow|].
  exact (recorded_metrics_never_change (H := demo_libraries)
           [Deploy v1; DamageJson v0; Restart] two_trained v0 v0_row Hrow).
Defined.

(** The status of a deployed version on [two_trained_deployed]: a deploy
    of the second version and a third training later, the first is not
    [trained]. *)
Lemma status_never_back_to_trained_witness :
  status_of two_trained_deployed v0 = Some active /\
  exists s',
    status_of
      (demo_run [Deploy v1; demo_train (noon 2 0) 3%float r2_090; Restart]
         two_trained_deployed) v0 = Some s' /\
    s' <> trained.
Proof.
  assert (Hs : status_of two_trained_deployed v0 = Some active)
    by by_evaluation.
  split; [exact Hs|].
  apply (status_never_back_to_trained (H := demo_libraries)
           [Deploy v1; demo_train (noon 2 0) 3%float r2_090; Restart]
           two_trained_deployed v0 active Hs).
  discriminate.
Defined.

(** The status report of the system of the examples names its active
    version and the metadata of that version. *)
Lemma status_reports_active_version_witness :
  is_active (model_manager (demo_system demo_libraries 1 r2_090)) v0 /\
  exists md,
    reported_metadata
      (get_system_status (H := demo_libraries) (noon 3 0) (noon 3 1)
         (demo_system demo_libraries 1 r2_090)) = Some md /\
    md_version md = v0.
Proof.
  apply (status_reports_active_version (H := demo_libraries)
           [Train (noon 0 0) (noon 0 250) demo_X [1%float] demo_X [r2_090];
            Deploy v0]
           (demo_system demo_libraries 1 r2_090) (noon 3 0) (noon 3 1) v0).
  - by_evaluation.
  - by_evaluation.
Defined.

(** A deploy of what [trained_once] has trained. *)
Lemma train_then_deploy_witness :
  exists model md,
    fst (deploy_model v0 (snd trained_once)) = Returned true /\
    current_model (snd (deploy_model v0 (snd trained_once))) = Some model /\
    model_metadata (snd (deploy_model v0 (snd trained_once))) = Some md /\
    md_created_at md = isoformat (noon 0 100500) /\
    md_status md = trained /\
    status_of (snd (deploy_model v0 (snd trained_once))) v0 = Some active.
Proof.
  destruct (train_then_deploy (H := demo_libraries)
              (noon 0 100000) (noon 0 100500) demo_X demo_X [1%float] [r2_090]
              ModelManager_init (snd trained_once) v0)
    as (model & y_pred & md & row & _ & _ & Hd & Hcm & _ & Hmd & _ & _ & _ &
        Hat & Hs & Hrow & Hst & _).
  - by_evaluation.
  - exists model, md. split_conj; try assumption.
    unfold status_of. now rewrite Hrow, <- Hst.
Defined.

(** A prediction on [two_trained_deployed], logged or not, and the row of
    the logged one. *)
Lemma predict_only_appends_witness :
  exists result,
    fst (predict (H := demo_libraries) (noon 2 0) demo_X true two_trained_deployed)
      = Returned result /\
    fst (predict (H := demo_libraries) (noon 2 0) demo_X false two_trained_deployed)
      = Returned result /\
    predictions
      (snd (predict (H := demo_libraries) (noon 2 0) demo_X true
              two_trained_deployed))
      = [logged_row demo_X result] /\
    model_version result = Some v0.
Proof.
  destruct (predict_only_appends (H := demo_libraries) (noon 2 0) demo_X
              two_trained_deployed) as (Hfst & _ & _ & Hret).
  set (result := {| prediction := 1%float;
                    confidence := arithmetic_mean [0.5; 0.25; 0.25]%float;
                    model_version := Some v0;
                    timestamp := isoformat (noon 2 0);
                    input := None |}).
  assert (E : fst (predict (H := demo_libraries) (noon 2 0) demo_X true
                     two_trained_deployed) = Returned result)
    by by_evaluation.
  destruct (Hret result E) as (Hsnd & _ & _).
  exists result. split; [exact E|]. split; [now rewrite Hfst|].
  split; [|reflexivity]. rewrite Hsnd. by_evaluation.
Defined.

(** The price of a house on a model that predicts -10: the price handed
    out is the floor, the row holds the features. *)
Lemma predict_house_price_not_negative_witness :
  exists result row,
    fst (predict_house_price (H := demo_libraries) 2500 3 5 (noon 2 0)
           (demo_system demo_libraries (-10) r2_090)) = Returned result /\
    PrimFloat.ltb (prediction result) fzero = false /\
    predictions
      (model_manager
         (snd (predict_house_price (H := demo_libraries) 2500 3 5 (noon 2 0)
                 (demo_system demo_libraries (-10) r2_090)))) = [row] /\
    p_input_features row = demo_X.
Proof.
  set (result := {| prediction := minimum_reasonable_price;
                    confidence :=
                      PrimFloat.mul (arithmetic_mean [0.5; 0.25; 0.25]%float)
                        one_half;
                    model_version := Some v0;
                    timestamp := isoformat (noon 2 0);
                    input := Some (2500, 3, 5)%float |}).
  destruct (predict_house_price_not_negative (H := demo_libraries) 2500 3 5
              (noon 2 0) (demo_system demo_libraries (-10) r2_090)
              (snd (predict_house_price (H := demo_libraries) 2500 3 5
                      (noon 2 0) (demo_system demo_libraries (-10) r2_090)))
              result)
    as (Hpos & _ & _ & sc & row & _ & Hs & Hfeat & _).
  - by_evaluation.
  - exists result, row. split; [by_evaluation|]. split; [exact Hpos|].
    split; [|exact Hfeat]. rewrite Hs. reflexivity.
Defined.

(** Retraining on a system whose initialisation has failed: the version
    is deployed with an R² of zero. *)
Lemma retrain_without_current_version_witness :
  current_version (model_manager failed_start) = None /\
  fst (retrain_model (H := demo_libraries) (demo_data 1 0) (noon 1 0) (noon 1 5)
         failed_start) = Returned v1 /\
  current_version
    (model_manager
       (snd (retrain_model (H := demo_libraries) (demo_data 1 0) (noon 1 0)
               (noon 1 5) failed_start))) = Some v1.
Proof.
  destruct (retrain_without_current_version (H := demo_libraries)
              demo_X demo_X [1%float] [0%float] (noon 1 0) (noon 1 5)
              failed_start tt v1
              (snd (train_new_model (H := demo_libraries) (noon 1 0) (noon 1 5)
                      demo_X [1%float] demo_X [0%float]
                      (model_manager failed_start))))
    as (Hre & _ & Hcur & _).
  - reflexivity.
  - reflexivity.
  - by_evaluation.
  - split; [reflexivity|]. split; [exact (f_equal fst Hre)|].
    exact (eq_trans
             (f_equal (fun p => current_version (model_manager (snd p))) Hre)
             Hcur).
Defined.

(** The two ends of [initialize_system]: on the system of the examples,
    and on a training set without labels, on which fitting fails. *)
Lemma initialize_new_system_witness :
  is_initialized (demo_system demo_libraries 1 r2_090) = true /\
  current_version (model_manager (demo_system demo_libraries 1 r2_090))
    = Some v0 /\
  is_initialized failed_start = false /\
  model_manager failed_start = ModelManager_init.
Proof.
  destruct (initialize_new_system (H := demo_libraries) (demo_data 1 r2_090)
              (noon 0 0) (noon 0 250)) as [_ Hok].
  destruct (initialize_new_system (H := demo_libraries)
              (demo_X, demo_X, [], [r2_090]) (noon 0 0) (noon 0 250))
    as [Hfail _].
  destruct Hok as (Hi & _ & _ & _ & Hc & _); [by_evaluation|].
  destruct (Hfail (ValueError "fit")) as (Hi' & Hm & _); [by_evaluation|].
  split; [exact Hi|]. split; [exact Hc|]. split; [exact Hi' | exact Hm].
Defined.

(** The identifiers of two clock readings one second apart. *)
Lemma version_identifier_per_second_witness :
  strftime_version (noon 0 900000) <> strftime_version (noon 1 0) /\
  String.compare (strftime_version (noon 0 900000)) (strftime_version (noon 1 0))
    = Lt.
Proof.
  destruct (version_identifier_per_second (noon 0 900000) (noon 1 0))
    as [Hiff Hcmp].
  - repeat split; cbn; lia.
  - repeat split; cbn; lia.
  - split; [|rewrite Hcmp; reflexivity].
    intros E. apply Hiff in E. destruct E as (_ & _ & _ & _ & _ & E).
    discriminate.
Defined.

(** The training call a second after [trained_once] returns; with test
    labels that do not line up with the test set it raises and records
    nothing. *)
Lemma training_in_a_new_second_returns_witness :
  fst (train_new_model (H := demo_libraries) (noon 1 0) (noon 1 5)
         demo_X [2%float] demo_X [r2_090] (snd trained_once)) = Returned v1 /\
  status_of
    (snd (train_new_model (H := demo_libraries) (noon 1 0) (noon 1 5)
            demo_X [2%float] demo_X [r2_090] (snd trained_once))) v0
    = Some trained /\
  snd (train_new_model (H := demo_libraries) (noon 1 0) (noon 1 5)
         demo_X [2%float] demo_X [] (snd trained_once)) = snd trained_once.
Proof.
  destruct (training_in_a_new_second_returns (H := demo_libraries)
              (noon 0 100000) (noon 0 100500) (noon 1 0) (noon 1 5)
              demo_X demo_X demo_X demo_X [1%float] [r2_090] [2%float] [r2_090]
              ModelManager_init (snd trained_once) v0
              (constant_model 2 (Some [0.5; 0.25; 0.25]%float)) [2%float])
    as (_ & Hret & _).
  - repeat split; cbn; lia.
  - repeat split; cbn; lia.
  - intros (_ & _ & _ & _ & _ & E). discriminate.
  - by_evaluation.
  - by_evaluation.
  - reflexivity.
  - reflexivity.
  - destruct (Hret r2_090 4%float eq_refl eq_refl) as (Hfst & Hs0 & _).
    split; [exact Hfst|]. split; [exact Hs0|].
    destruct (training_in_a_new_second_returns (H := demo_libraries)
                (noon 0 100000) (noon 0 100500) (noon 1 0) (noon 1 5)
                demo_X demo_X demo_X demo_X [1%float] [r2_090] [2%float] []
                ModelManager_init (snd trained_once) v0
                (constant_model 2 (Some [0.5; 0.25; 0.25]%float)) [2%float])
      as (_ & _ & Hraise).
    + repeat split; cbn; lia.
    + repeat split; cbn; lia.
    + intros (_ & _ & _ & _ & _ & E). discriminate.
    + by_evaluation.
    + by_evaluation.
    + reflexivity.
    + reflexivity.
    + apply Hraise. left. reflexivity.
Defined.

(** The health check on the week of [demo_week], whose log has four
    rows. *)
Lemma health_check_needs_more_than_50_witness :
  _check_model_health (H := demo_libraries) (noon 0 0) (noon 0 1)
    MLMonitor_init demo_logged = demo_logged.
Proof.
  destruct (health_check_needs_more_than_50 (H := demo_libraries)
              (noon 0 0) (noon 0 1) MLMonitor_init demo_logged)
    as (_ & Hfew & _).
  apply Hfew. vm_compute. lia.
Defined.

(** A loop thread that was past the loop test when [stop_monitoring] was
    called: three moves later it has ended, and the log of [demo_week],
    with its four rows, got no alert. *)
Lemma stopped_monitor_winds_down_witness :
  pending_checks checking_monitor = 1%nat /\
  monitor_threads
    (fst (_monitor_loop_run (H := demo_libraries) three_moves
            (stop_monitoring checking_monitor) demo_logged))
    !! 0%nat = Some Finished.
Proof.
  destruct (stopped_monitor_winds_down (H := demo_libraries)
              checking_monitor demo_logged three_moves 0)
    as (_ & _ & _ & _ & _ & Hend).
  split; [reflexivity|]. apply Hend.
  - vm_compute. lia.
  - vm_compute. lia.
Defined.

(** A run of [main] whose retraining starts a second after its
    initialisation and scores an R² of 1: the new version is deployed. *)
Lemma main_returned_witness :
  fst (demo_main 1) = MainReturned /\
  current_version (model_manager (snd (demo_main 1))) = Some v1 /\
  status_of (model_manager (snd (demo_main 1)))
    (strftime_version (noon 0 100000)) = Some inactive /\
  exists rows,
    predictions (model_manager (snd (demo_main 1))) = rows /\
    length rows = 4%nat.
Proof.
  assert (Hret : fst (demo_main 1) = MainReturned) by by_evaluation.
  assert (Hcur : current_version (model_manager (snd (demo_main 1))) = Some v1)
    by by_evaluation.
  split; [exact Hret|]. split; [exact Hcur|].
  unfold demo_main in *.
  pose proof (main_returned (H := demo_libraries) (demo_data 1 r2_090)
                (demo_data 2 1) (noon 0 100000) (noon 0 100500)
                (fun k => noon 0 (200000 + Z.of_nat k))
                (noon 0 300000) (noon 0 300100)
                (noon 1 900000) (noon 1 900500) ModelManager_init Hret) as Hm.
  cbv zeta in Hm.
  destruct Hm as (_ & _ & _ & _ & _ & (rows & Hp & Hl & _) & _ & Hcase).
  split.
  - destruct Hcase as [(Hc & _)|(_ & _ & Hs)]; [|exact Hs].
    rewrite Hcur in Hc. exfalso. revert Hc. clear. intros Hc.
    assert (E : strftime_version (noon 0 100000) = v0) by by_evaluation.
    rewrite E in Hc. discriminate.
  - exists rows. split; [exact Hp | exact Hl].
Defined.

(** A run of [main] that retrains in the second of its initialisation:
    the exception escapes and the monitor is left on. *)
Lemma main_failures_witness :
  (exists e, fst (demo_main 0) = MainRaised e) /\
  monitoring (monitor (snd (demo_main 0))) = true.
Proof.
  destruct (main_failures (H := demo_libraries) (demo_data 1 r2_090)
              (demo_data 2 1) (noon 0 100000) (noon 0 100500)
              (fun k => noon 0 (200000 + Z.of_nat k))
              (noon 0 300000) (noon 0 300100)
              (noon 0 900000) (noon 0 900500) ModelManager_init)
    as (_ & Hsame & Hon).
  split.
  - apply Hsame. repeat split.
  - apply Hon.
    + destruct Hsame as [e He]; [repeat split|]. rewrite He. discriminate.
    + by_evaluation.
Defined.
